(** * AI Mockup Studio: the design pipeline and its orchestrator

    A shallow embedding of [services/designExtractor.ts] and
    [services/geminiService.ts] (the two modules of
    [src/services/designExtractor.ts]), of the [App] component
    ([src/unnamed/part_001]) and of [components/InstructionsModal.tsx], with
    the properties of the pipeline stated over it.

    Conventions of the embedding.
    - A JavaScript string is the list of its UTF-16 code units ([jsstring]);
      a number that is computed with is an IEEE-754 binary64 value
      ([spec_float] at precision 53).
    - An [async] function returns the settlement of its promise ([Settled]):
      [Resolved v] or [Rejected e]; a [throw] inside it is a rejection.
    - React state is a record ([AppState]); a handler is the sequence of
      state-setter calls it issues.  A handler is a closure created by one
      render: the state variables it mentions are the [const] bindings of
      that render, so inside the handler they keep the values they had when
      the handler was invoked, whatever the setters do afterwards.  Only a
      functional update ([setMockups(prev => ...)]) sees the current state.
    - Where the requests a service sends, or the turns of the event loop a
      handler runs in, matter to a statement, the function is embedded once
      more with them written down ([Traced], [EventLoop]), and shown to
      settle, or to call the setters, as the first embedding does. *)

From Stdlib Require Import ZArith NArith Ascii String DecimalString Bool Arith Lia.
From Stdlib Require Import Floats.SpecFloat.
From Stdlib Require Import List Permutation Sorted.
Import ListNotations.

Set Implicit Arguments.

(* ================================================================== *)
(** * JavaScript strings *)
(* ================================================================== *)

Module JS.

(** A string is its sequence of UTF-16 code units. *)
Definition jsstring := list N.

(** An ASCII literal as a JavaScript string. *)
Definition lit (s : string) : jsstring :=
  List.map N_of_ascii (list_ascii_of_string s).
Arguments lit s%_string.

(** [a === b] on strings. *)
Fixpoint eqb (a b : jsstring) : bool :=
  match a, b with
  | [], [] => true
  | x :: a', y :: b' => N.eqb x y && eqb a' b'
  | _, _ => false
  end.

(** Truthiness of a string: every string but the empty one. *)
Definition truthy (s : jsstring) : bool :=
  match s with [] => false | _ :: _ => true end.

(** Truthiness of [string | undefined]. *)
Definition truthyOpt (o : option jsstring) : bool :=
  match o with Some s => truthy s | None => false end.

(** [${x}] for a possibly undefined string. *)
Definition interpolate (o : option jsstring) : jsstring :=
  match o with Some s => s | None => lit "undefined" end.

(** WhiteSpace and LineTerminator code units, the ones [trim] strips:
    TAB, LF, VT, FF, CR, SP, NBSP, U+1680, U+2000..U+200A, U+2028, U+2029,
    U+202F, U+205F, U+3000, U+FEFF. *)
Definition isWhiteSpace (c : N) : bool :=
  ((9 <=? c) && (c <=? 13) || (c =? 32) || (c =? 160) || (c =? 5760)
   || (8192 <=? c) && (c <=? 8202) || (c =? 8232) || (c =? 8233)
   || (c =? 8239) || (c =? 8287) || (c =? 12288) || (c =? 65279))%N.

Fixpoint trimStart (s : jsstring) : jsstring :=
  match s with
  | c :: s' => if isWhiteSpace c then trimStart s' else s
  | [] => []
  end.

Definition trimEnd (s : jsstring) : jsstring := rev (trimStart (rev s)).

Definition trim (s : jsstring) : jsstring := trimEnd (trimStart s).

(** [s.startsWith(p)]. *)
Fixpoint startsWith (s p : jsstring) {struct p} : bool :=
  match p, s with
  | [], _ => true
  | y :: p', x :: s' => N.eqb x y && startsWith s' p'
  | _ :: _, [] => false
  end.

(** [s.endsWith(p)]. *)
Definition endsWith (s p : jsstring) : bool := startsWith (rev s) (rev p).

(** [s.includes(p)]. *)
Fixpoint includes (s p : jsstring) : bool :=
  startsWith s p || match s with [] => false | _ :: s' => includes s' p end.

(** [s.indexOf(p)], [None] for -1. *)
Fixpoint indexOf (s p : jsstring) : option nat :=
  if startsWith s p then Some 0
  else match s with
       | [] => None
       | _ :: s' => option_map S (indexOf s' p)
       end.

(** [s.split(',')[1]]: the text between the first and the second comma,
    [undefined] when [s] has no comma. *)
Fixpoint upToComma (s : jsstring) : jsstring :=
  match s with
  | [] => []
  | c :: s' => if (c =? 44)%N then [] else c :: upToComma s'
  end.

Fixpoint splitComma1 (s : jsstring) : option jsstring :=
  match s with
  | [] => None
  | c :: s' => if (c =? 44)%N then Some (upToComma s') else splitComma1 s'
  end.

(** Canonicalize of a case-insensitive, non-Unicode regular expression,
    on the code units below 128: a..z go to A..Z.  On a code unit from 128
    on the real Canonicalize returns a code unit that is again at least 128,
    so whether such a unit matches an ASCII pattern character (it never
    does) is the same with the identity used here. *)
Definition canonicalize (c : N) : N :=
  if ((97 <=? c) && (c <=? 122))%N then (c - 32)%N else c.

(** A fixed pattern text matched against all of [s] under the [i] flag. *)
Fixpoint matchesCI (s pat : jsstring) : bool :=
  match s, pat with
  | [], [] => true
  | x :: s', y :: pat' =>
      N.eqb (canonicalize x) (canonicalize y) && matchesCI s' pat'
  | _, _ => false
  end.

(** The lower-casing of the letters A..Z, the other code units left as they
    are.  [String.prototype.toLowerCase] itself follows the case tables of
    the engine: the code that calls it takes it as a parameter, and this
    function stands in for it on sample texts, which are ASCII. *)
Definition toLowerCase (s : jsstring) : jsstring :=
  List.map (fun c => if ((65 <=? c) && (c <=? 90))%N then (c + 32)%N else c) s.

(** [s.replace(pat, rep)] for a string pattern: the first occurrence. *)
Definition replaceFirst (s pat rep : jsstring) : jsstring :=
  match indexOf s pat with
  | Some i => firstn i s ++ rep ++ skipn (i + List.length pat) s
  | None => s
  end.

(** [s.replace(/c/g, d)] for single code units [c] and [d]. *)
Definition replaceAllUnit (c d : N) (s : jsstring) : jsstring :=
  List.map (fun x => if (x =? c)%N then d else x) s.

(** [String(n)] for a non-negative integer. *)
Definition ofN (n : N) : jsstring :=
  lit (NilZero.string_of_uint (N.to_uint n)).

End JS.

Import JS.

(** A settled promise. *)
Inductive Settled (E A : Type) : Type :=
| Resolved (value : A)
| Rejected (reason : E).
Arguments Resolved {E A} value.
Arguments Rejected {E A} reason.

(** What this code throws or sees thrown. *)
Inductive Thrown : Type :=
| Error (message : jsstring)            (* [throw new Error(message)] *)
| TypeError (message : jsstring)        (* raised by the engine *)
| Foreign (message : option jsstring).  (* rejection of a collaborator *)

(** ** The SDK's response, as far as this code reads it

    A field the code reads through [?.], or tests for truthiness before use,
    is optional. *)

(** The SDK declares every field of a safety rating optional. *)
Record SafetyRating := {
  category : option jsstring;
  probability : option jsstring }.

Record PromptFeedback := {
  blockReason : option jsstring;
  blockReasonMessage : option jsstring;
  safetyRatings : option (list SafetyRating) }.

Record InlineData := { mimeType : option jsstring; data : option jsstring }.

Record Part := { inlineData : option InlineData; text : option jsstring }.

Record Content := { parts : option (list Part) }.

Record Candidate := { content : option Content }.

(** [response_text] is the [text] getter of the response; [generateImage]
    reads it as [response.text?.trim()]. *)
Record GenerateContentResponse := {
  promptFeedback : option PromptFeedback;
  candidates : option (list Candidate);
  response_text : option jsstring }.

(** The argument of [generateContent]; [responseModalities] is the one
    [config] entry [generateImage] sets. *)
Record ContentRequest := {
  model : jsstring;
  contents : list Part;
  responseModalities : option (list jsstring) }.

(** [err.message]. *)
Definition messageOf (err : Thrown) : option jsstring :=
  match err with
  | Error m => Some m
  | TypeError m => Some m
  | Foreign m => m
  end.

(** Calling [trim] on [undefined] (the message is the engine's; V8's here). *)
Definition undefinedTrim : Thrown :=
  TypeError (lit "Cannot read properties of undefined (reading 'trim')").

(** Calling [replace] on [undefined]. *)
Definition undefinedReplace : Thrown :=
  TypeError (lit "Cannot read properties of undefined (reading 'replace')").

(** What a call of the model service did: how it settled, and the requests
    it sent to [generateContent], in order. *)
Record Asked (A : Type) := {
  answer : Settled Thrown A;
  asked : list ContentRequest }.

(** Code that sends requests and may throw. *)
Definition told {A} (r : Settled Thrown A) : Asked A :=
  {| answer := r; asked := [] |}.

Definition andThen {A B} (m : Asked A) (k : A -> Asked B) : Asked B :=
  match answer m with
  | Resolved a =>
      {| answer := answer (k a); asked := asked m ++ asked (k a) |}
  | Rejected e => {| answer := Rejected e; asked := asked m |}
  end.

(** [getAiClient]: the key guard in front of every model call (both
    modules define it alike). *)
Definition getAiClient (apiKey : jsstring) : Settled Thrown unit :=
  if negb (truthy apiKey) then Rejected (Error (lit "Gemini API key is missing."))
  else Resolved tt.

(** [getImagePart] (both modules define it alike). *)
Definition getImagePart (base64Image : jsstring) : Part :=
  {| inlineData := Some {| mimeType := Some (lit "image/png");
                           data := splitComma1 base64Image |};
     text := None |}.

Definition textPart (t : jsstring) : Part :=
  {| inlineData := None; text := Some t |}.

(* ================================================================== *)
(** * services/designExtractor.ts *)
(* ================================================================== *)

Module DesignExtractor.

(** The first [open ... close] of [s]: where it starts, what is between the
    tags, and what follows the closing tag.  It is the match of
    [/open([\s\S]*?)close/]: the leftmost opening tag that has a closing tag
    after it is the first opening tag, and the lazy group stops at the first
    closing tag. *)
Definition firstTagged (s open close : jsstring)
  : option (nat * jsstring * jsstring) :=
  match indexOf s open with
  | Some i =>
      let rest := skipn (i + length open) s in
      match indexOf rest close with
      | Some j => Some (i, firstn j rest, skipn (j + length close) rest)
      | None => None
      end
  | None => None
  end.

Section Backend.

Variable generateContent : ContentRequest -> Settled Thrown GenerateContentResponse.

(** The instruction text, a constant of the module. *)
Variable SYSTEM_INSTRUCTION : jsstring.

Definition extractDesignPrompt (apiKey base64Image : jsstring)
  : Settled Thrown jsstring :=
  match getAiClient apiKey with
  | Rejected e => Rejected e
  | Resolved _ =>
      match generateContent
              {| model := lit "gemini-2.5-flash";
                 contents := [textPart SYSTEM_INSTRUCTION; getImagePart base64Image];
                 responseModalities := None |} with
      | Rejected e => Rejected e
      | Resolved response =>
          match response_text response with
          | None => Rejected undefinedTrim
          | Some t =>
              let text := trim t in
              let finalPromptMatch :=
                firstTagged text (lit "<final_prompt>") (lit "</final_prompt>") in
              let fallback :=
                let analysisRemoved :=
                  trim (match firstTagged text (lit "<analysis>") (lit "</analysis>") with
                        | Some (i, _, after) => firstn i text ++ after
                        | None => text
                        end) in
                if truthy analysisRemoved then Resolved analysisRemoved
                else Rejected (Error (lit "Failed to extract a valid design prompt from the AI response.")) in
              match finalPromptMatch with
              | Some (_, inner, _) =>
                  if truthy inner then Resolved (trim inner) else fallback
              | None => fallback
              end
          end
      end
  end.

End Backend.

End DesignExtractor.

(* ================================================================== *)
(** * services/geminiService.ts *)
(* ================================================================== *)

Module GeminiService.

(** ** Prompt composition of [cloneDesign] (lines 203-217) *)

Definition backgroundBlack : jsstring := lit " on a solid black background".
Definition backgroundWhite : jsstring := lit " on a solid white background".

(** [/( on a solid (black|white) background)$/i] tried at the start of
    [s]: the alternatives in order, then [$], the end of the input (the
    expression has no [m] flag). *)
Definition backgroundInstructionAt (s : jsstring) : bool :=
  matchesCI s backgroundBlack || matchesCI s backgroundWhite.

(** The search of the expression through [s]: start positions from the
    left, the first that matches wins.  The result is the index of the
    match and the matched text, [match.index] and [match[0]]. *)
Fixpoint backgroundInstructionExec (s : jsstring) (index : nat)
  : option (nat * jsstring) :=
  if backgroundInstructionAt s then Some (index, s)
  else match s with
       | [] => None
       | _ :: s' => backgroundInstructionExec s' (S index)
       end.

(** [extractedPrompt.match(backgroundInstructionRegex)]. *)
Definition backgroundInstructionMatch (s : jsstring) : option (nat * jsstring) :=
  backgroundInstructionExec s 0.

(** [extractedPrompt.replace(backgroundInstructionRegex, '')]: the first
    match is cut out. *)
Definition backgroundInstructionRemove (s : jsstring) : jsstring :=
  match backgroundInstructionMatch s with
  | Some (i, m) => firstn i s ++ skipn (i + length m) s
  | None => s
  end.

(** [additionalInstructions && additionalInstructions.trim().length > 0]. *)
Definition hasInstructions (additionalInstructions : option jsstring) : bool :=
  match additionalInstructions with
  | Some a => truthy a && (0 <? length (trim a))
  | None => false
  end.

(** The prompt [cloneDesign] sends on, from the extracted prompt and the
    optional instructions. *)
Definition composeClonePrompt (extractedPrompt : jsstring)
    (additionalInstructions : option jsstring) : jsstring :=
  if hasInstructions additionalInstructions then
    match backgroundInstructionMatch extractedPrompt with
    | Some (_, backgroundInstruction) =>
        let promptWithoutBackground :=
          backgroundInstructionRemove extractedPrompt in
        let separator :=
          if endsWith promptWithoutBackground (lit ".") then lit "" else lit "." in
        promptWithoutBackground ++ separator
          ++ lit " Additional instructions: "
          ++ interpolate additionalInstructions ++ backgroundInstruction
    | None =>
        extractedPrompt ++ [10; 10]%N ++ lit "Additional instructions: "
          ++ interpolate additionalInstructions
    end
  else extractedPrompt.

(** ** [generateImage] (lines 137-197) *)

(** [part => part.inlineData]. *)
Definition hasInlineData (p : Part) : bool :=
  match inlineData p with Some _ => true | None => false end.

(** [part => part.text]. *)
Definition hasText (p : Part) : bool := truthyOpt (text p).

(** [(rating) => ['HIGH', 'MEDIUM'].includes(rating.probability)]; no
    element of the array is [undefined]. *)
Definition isHarmful (rating : SafetyRating) : bool :=
  match probability rating with
  | Some p => existsb (eqb p) [lit "HIGH"; lit "MEDIUM"]
  | None => false
  end.

(** [response.promptFeedback?.blockReason]. *)
Definition blockReasonOf (response : GenerateContentResponse) : option jsstring :=
  match promptFeedback response with
  | Some fb => blockReason fb
  | None => None
  end.

(** [response.promptFeedback?.safetyRatings] and the [find] over it. *)
Definition harmfulRatingOf (response : GenerateContentResponse)
  : option SafetyRating :=
  match promptFeedback response with
  | Some fb =>
      match safetyRatings fb with
      | Some ratings => find isHarmful ratings
      | None => None
      end
  | None => None
  end.

(** [response.candidates?.[0]?.content?.parts]. *)
Definition partsOf (response : GenerateContentResponse) : option (list Part) :=
  match candidates response with
  | Some (candidate :: _) =>
      match content candidate with
      | Some c => parts c
      | None => None
      end
  | _ => None
  end.

(** [!parts || parts.length === 0]. *)
Definition noParts (ps : option (list Part)) : bool :=
  match ps with
  | Some (_ :: _) => false
  | _ => true
  end.

Definition blockedMessage (reason : jsstring) (blockReasonMessage : option jsstring)
  : jsstring :=
  let errorMessage := lit "Image generation failed due to: " ++ reason ++ lit "." in
  if truthyOpt blockReasonMessage
  then errorMessage ++ lit " Message: " ++ interpolate blockReasonMessage
  else errorMessage.

Definition emptyResponseMessage : jsstring :=
  lit "API returned an empty response. This could be due to safety filters or an unclear prompt. Please try modifying your instructions or using a different image.".

Definition noImageMessage : jsstring :=
  lit "API did not return an image. Please try a different design or prompt.".

Definition dataUrl (d : option jsstring) : jsstring :=
  lit "data:image/png;base64," ++ interpolate d.

Section Engine.

(** [String.prototype.toLowerCase], by the case tables of the engine. *)
Variable toLowerCase : jsstring -> jsstring.

(** [category.replace('HARM_CATEGORY_', '').replace(/_/g, ' ').toLowerCase()]. *)
Definition categoryLabel (category : jsstring) : jsstring :=
  toLowerCase (replaceAllUnit 95 32 (replaceFirst category (lit "HARM_CATEGORY_") [])).

Definition filteredMessage (category : jsstring) : jsstring :=
  lit "Image generation failed. The request was filtered due to potential "
    ++ categoryLabel category ++ lit " content.".

(** The body of [generateImage] after the [await]: what it makes of the
    response, statement by statement. *)
Definition classifyResponse (response : GenerateContentResponse)
  : Settled Thrown jsstring :=
  if truthyOpt (blockReasonOf response) then
    Rejected (Error (blockedMessage
      (interpolate (blockReasonOf response))
      (match promptFeedback response with
       | Some fb => blockReasonMessage fb
       | None => None
       end)))
  else
    match harmfulRatingOf response with
    | Some harmfulRating =>
        match category harmfulRating with
        | Some category => Rejected (Error (filteredMessage category))
        | None => Rejected undefinedReplace   (* [undefined.replace(...)] *)
        end
    | None =>
        let ps := partsOf response in
        if noParts ps then
          let responseText := option_map trim (response_text response) in
          if truthyOpt responseText
          then Rejected (Error (lit "API call failed: " ++ interpolate responseText))
          else Rejected (Error emptyResponseMessage)
        else
          let ps := match ps with Some l => l | None => [] end in
          match find hasInlineData ps with
          | Some {| inlineData := Some d |} => Resolved (dataUrl (data d))
          | _ =>
              let textResponse :=
                match find hasText ps with
                | Some p => if truthyOpt (text p) then text p else response_text response
                | None => response_text response
                end in
              if truthyOpt textResponse && truthy (trim (interpolate textResponse))
              then Rejected (Error (lit "API returned text instead of an image: "
                                      ++ [34]%N ++ trim (interpolate textResponse)
                                      ++ [34]%N))
              else Rejected (Error noImageMessage)
          end
    end.

End Engine.

(** ** The colour test of [analyzeImageColor] (line 134) *)

(** A character of [[0-9A-F]] under the [i] flag. *)
Definition isHexDigitCI (c : N) : bool :=
  let u := canonicalize c in
  ((48 <=? u) && (u <=? 57) || (65 <=? u) && (u <=? 70))%N.

(** [/^#[0-9A-F]{6}$/i.test(color)]. *)
Definition hexColorTest (color : jsstring) : bool :=
  match color with
  | c :: digits =>
      (c =? 35)%N && (List.length digits =? 6) && forallb isHexDigitCI digits
  | [] => false
  end.

Definition defaultColor : jsstring := lit "#F3F4F6".

Section Backend.

(** The model endpoint: [aiClient.models.generateContent]. *)
Variable generateContent : ContentRequest -> Settled Thrown GenerateContentResponse.

(** [String.prototype.toLowerCase], by the case tables of the engine. *)
Variable toLowerCase : jsstring -> jsstring.

Definition generateImage (apiKey prompt base64InputImage : jsstring)
  : Settled Thrown jsstring :=
  match getAiClient apiKey with
  | Rejected e => Rejected e
  | Resolved _ =>
      match generateContent
              {| model := lit "gemini-2.5-flash-image-preview";
                 contents := [getImagePart base64InputImage; textPart prompt];
                 responseModalities := Some [lit "IMAGE"; lit "TEXT"] |} with
      | Rejected e => Rejected e
      | Resolved response => classifyResponse toLowerCase response
      end
  end.

(** ** [analyzeImageColor] (lines 125-135) *)

Definition colorPrompt : jsstring :=
  lit "Analyze the image of a product with a graphic on it. Determine the dominant color of the product's material itself, ignoring the colors within the graphic design. Provide only the hex color code for this dominant background color. For example, if it's a black t-shirt with a white logo, you should return #000000. Your response must be only the hex code.".

Definition analyzeImageColor (apiKey base64Image : jsstring)
  : Settled Thrown jsstring :=
  match getAiClient apiKey with
  | Rejected e => Rejected e
  | Resolved _ =>
      match generateContent
              {| model := lit "gemini-2.5-flash";
                 contents := [textPart colorPrompt; getImagePart base64Image];
                 responseModalities := None |} with
      | Rejected e => Rejected e
      | Resolved response =>
          match response_text response with
          | None => Rejected undefinedTrim       (* [undefined.trim()] *)
          | Some t =>
              let color := trim t in
              Resolved (if hexColorTest color then color else defaultColor)
          end
      end
  end.

(** ** [cloneDesign] (lines 200-220) and [createMockup] (lines 223-231) *)

Variable SYSTEM_INSTRUCTION : jsstring.

Definition cloneDesign (apiKey base64Image : jsstring)
    (additionalInstructions : option jsstring) : Settled Thrown jsstring :=
  match DesignExtractor.extractDesignPrompt generateContent SYSTEM_INSTRUCTION
          apiKey base64Image with
  | Rejected e => Rejected e
  | Resolved extractedPrompt =>
      generateImage apiKey
        (composeClonePrompt extractedPrompt additionalInstructions) base64Image
  end.

Definition createMockup (apiKey base64ClonedDesign productPrompt productColorHex : jsstring)
    (additionalInstructions : option jsstring) : Settled Thrown jsstring :=
  let finalPrompt :=
    lit "Take the provided design and create a photorealistic mockup. "
      ++ productPrompt
      ++ lit ". IMPORTANT: The main color of the product (e.g., the t-shirt fabric, the mug's ceramic) MUST be the hex color: "
      ++ productColorHex
      ++ lit ". The design must be placed naturally on the product, conforming to its shape, texture, and lighting. The final image should look like a professional product photograph." in
  let finalPrompt :=
    if hasInstructions additionalInstructions
    then finalPrompt ++ [10; 10]%N ++ lit "ADDITIONAL INSTRUCTIONS: "
           ++ interpolate additionalInstructions
    else finalPrompt in
  generateImage apiKey finalPrompt base64ClonedDesign.

End Backend.

(** ** [removeBackground] (lines 277-306) *)

Record Blob := { bytes : list N; blobType : jsstring }.

Inductive FormValue : Type :=
| FileValue (file : Blob) (filename : jsstring)
| TextValue (value : jsstring).

Record FetchRequest := {
  url : jsstring;
  method : jsstring;
  headers : list (jsstring * jsstring);
  body : list (jsstring * FormValue) }.

(** A fetched response: its status and what reading its body gives. *)
Record FetchResponse := {
  status : N;
  responseBodyText : Settled Thrown jsstring;   (* [response.text()] *)
  responseBodyBlob : Settled Thrown Blob }.     (* [response.blob()] *)

(** [response.ok]: a status from 200 to 299. *)
Definition ok (response : FetchResponse) : bool :=
  ((200 <=? status response) && (status response <=? 299))%N.

(** What a call did besides settling: the requests it sent, in order, and
    the lines it wrote with [console.error]. *)
Record Ran (A : Type) := {
  settled : Settled Thrown A;
  requests : list FetchRequest;
  consoleErrors : list (list jsstring) }.

(** The one request of [removeBackground]. *)
Definition segmentRequest (apiKey : jsstring) (imageBlob : Blob) : FetchRequest :=
  {| url := lit "https://sdk.photoroom.com/v1/segment";
     method := lit "POST";
     headers := [(lit "x-api-key", apiKey)];
     body := [(lit "image_file", FileValue imageBlob (lit "design.png"));
              (lit "format", TextValue (lit "png"))] |}.

Section Browser.

(** [atob]: the character codes of the decoded text, or what it throws. *)
Variable atob : jsstring -> Settled Thrown (list N).
(** [fetch]. *)
Variable fetch : FetchRequest -> Settled Thrown FetchResponse.
(** [FileReader.readAsDataURL] up to [loadend]: the result, or the event
    handed to [onerror]. *)
Variable readAsDataURL : Blob -> Settled Thrown jsstring.

Definition base64ToBlob (base64 mimeType : jsstring) : Settled Thrown Blob :=
  match atob (interpolate (splitComma1 base64)) with
  | Resolved byteCharacters =>
      Resolved {| bytes := List.map (fun c => (c mod 256)%N) byteCharacters;
                  blobType := mimeType |}
  | Rejected e => Rejected e
  end.

Definition removeBackground (apiKey base64Image : jsstring) : Ran jsstring :=
  if negb (truthy apiKey) then
    {| settled := Rejected (Error (lit "Photoroom API key is missing."));
       requests := []; consoleErrors := [] |}
  else
    match base64ToBlob base64Image (lit "image/png") with
    | Rejected e => {| settled := Rejected e; requests := []; consoleErrors := [] |}
    | Resolved imageBlob =>
        let request := segmentRequest apiKey imageBlob in
        match fetch request with
        | Rejected e =>
            {| settled := Rejected e; requests := [request]; consoleErrors := [] |}
        | Resolved response =>
            if negb (ok response) then
              match responseBodyText response with
              | Rejected e =>
                  {| settled := Rejected e; requests := [request];
                     consoleErrors := [] |}
              | Resolved errorText =>
                  {| settled :=
                       Rejected (Error (lit "Background removal failed. Status: "
                                          ++ ofN (status response)));
                     requests := [request];
                     consoleErrors := [[lit "Photoroom API Error:"; errorText]] |}
              end
            else
              match responseBodyBlob response with
              | Rejected e =>
                  {| settled := Rejected e; requests := [request];
                     consoleErrors := [] |}
              | Resolved resultBlob =>
                  {| settled := readAsDataURL resultBlob;
                     requests := [request]; consoleErrors := [] |}
              end
        end
    end.

End Browser.

(** ** [resizeDesign] (lines 313-353) *)

(** A JavaScript number. *)
Definition number := spec_float.

(** The number an integer literal or an integer attribute denotes (exact
    below 2^53). *)
Definition numberOf (z : Z) : number := binary_normalize 53 1024 z 0 false.

(** [Math.min(x, y)]: NaN when either is NaN, else the smaller, -0 counting
    as smaller than +0. *)
Definition mathMin (x y : number) : number :=
  match x, y with
  | S754_nan, _ | _, S754_nan => S754_nan
  | _, _ =>
      if SFltb x y then x
      else if SFltb y x then y
      else match x, y with
           | S754_zero true, _ => x
           | _, S754_zero true => y
           | _, _ => x
           end
  end.

(** A call on the 2D context. *)
Inductive ContextCall : Type :=
| ClearRect (x y w h : number)
| DrawImage (image : jsstring) (dx dy dWidth dHeight : number).

(** The canvas element as the code leaves it: its attributes, the smoothing
    quality set on its context, and the calls made on the context, in
    order. *)
Record Canvas := {
  canvasWidth : number;
  canvasHeight : number;
  imageSmoothingQuality : jsstring;
  contextCalls : list ContextCall }.

(** Lines 317-343 without the context check: the canvas built for an image
    that has loaded with the given [width] and [height]. *)
Definition drawResized (image : jsstring) (width height : N) : Canvas :=
  let targetWidth := numberOf 4500 in
  let targetHeight := numberOf 5400 in
  let hRatio := SFdiv 53 1024 targetWidth (numberOf (Z.of_N width)) in
  let vRatio := SFdiv 53 1024 targetHeight (numberOf (Z.of_N height)) in
  let ratio := mathMin hRatio vRatio in
  let newWidth := SFmul 53 1024 (numberOf (Z.of_N width)) ratio in
  let newHeight := SFmul 53 1024 (numberOf (Z.of_N height)) ratio in
  let xOffset := SFdiv 53 1024 (SFsub 53 1024 targetWidth newWidth) (numberOf 2) in
  let yOffset := SFdiv 53 1024 (SFsub 53 1024 targetHeight newHeight) (numberOf 2) in
  {| canvasWidth := targetWidth;
     canvasHeight := targetHeight;
     imageSmoothingQuality := lit "high";
     contextCalls :=
       [ ClearRect (numberOf 0) (numberOf 0) targetWidth targetHeight;
         DrawImage image xOffset yOffset newWidth newHeight ] |}.

Section Canvas.

(** [img.src = base64Image] up to the [load] event, with [img.width] and
    [img.height] then, or up to the [error] event ([None]). *)
Variable loadImage : jsstring -> option (N * N).
(** [canvas.getContext(id)] gives a context. *)
Variable getContext : jsstring -> bool.
(** [canvas.toDataURL(type)]: the browser's rendering and encoding of what
    was drawn. *)
Variable toDataURL : Canvas -> jsstring -> jsstring.

Definition resizeDesign (base64Image : jsstring) : Settled Thrown jsstring :=
  match loadImage base64Image with
  | Some (width, height) =>
      if negb (getContext (lit "2d")) then
        Rejected (Error (lit "Could not get canvas context for resizing."))
      else
        Resolved (toDataURL (drawResized base64Image width height)
                    (lit "image/png"))
  | None => Rejected (Error (lit "Failed to load image for resizing."))
  end.

End Canvas.

End GeminiService.

(* ================================================================== *)
(** * The model calls, with the requests they send *)
(* ================================================================== *)

(** The functions of the two service modules that call the model, embedded
    once more with the requests they send to [generateContent] written
    down; they settle as the functions above do. *)
Module Traced.

Section Backend.

Variable generateContent : ContentRequest -> Settled Thrown GenerateContentResponse.
Variable toLowerCase : jsstring -> jsstring.
Variable SYSTEM_INSTRUCTION : jsstring.

(** [await aiClient.models.generateContent(request)]. *)
Definition ask (request : ContentRequest) : Asked GenerateContentResponse :=
  {| answer := generateContent request; asked := [request] |}.

(** [extractDesignPrompt] (lines 73-101). *)
Definition extractDesignPrompt (apiKey base64Image : jsstring) : Asked jsstring :=
  andThen (told (getAiClient apiKey)) (fun _ =>
  andThen (ask {| model := lit "gemini-2.5-flash";
                  contents := [textPart SYSTEM_INSTRUCTION; getImagePart base64Image];
                  responseModalities := None |}) (fun response =>
  told
    match response_text response with
    | None => Rejected undefinedTrim
    | Some t =>
        let text := trim t in
        let fallback :=
          let analysisRemoved :=
            trim (match DesignExtractor.firstTagged text
                          (lit "<analysis>") (lit "</analysis>") with
                  | Some (i, _, after) => firstn i text ++ after
                  | None => text
                  end) in
          if truthy analysisRemoved then Resolved analysisRemoved
          else Rejected (Error (lit "Failed to extract a valid design prompt from the AI response.")) in
        match DesignExtractor.firstTagged text
                (lit "<final_prompt>") (lit "</final_prompt>") with
        | Some (_, inner, _) =>
            if truthy inner then Resolved (trim inner) else fallback
        | None => fallback
        end
    end)).

(** [analyzeImageColor] (lines 125-135). *)
Definition analyzeImageColor (apiKey base64Image : jsstring) : Asked jsstring :=
  andThen (told (getAiClient apiKey)) (fun _ =>
  andThen (ask {| model := lit "gemini-2.5-flash";
                  contents := [textPart GeminiService.colorPrompt;
                               getImagePart base64Image];
                  responseModalities := None |}) (fun response =>
  told
    match response_text response with
    | None => Rejected undefinedTrim
    | Some t =>
        let color := trim t in
        Resolved (if GeminiService.hexColorTest color then color
                  else GeminiService.defaultColor)
    end)).

(** [generateImage] (lines 137-197). *)
Definition generateImage (apiKey prompt base64InputImage : jsstring)
  : Asked jsstring :=
  andThen (told (getAiClient apiKey)) (fun _ =>
  andThen (ask {| model := lit "gemini-2.5-flash-image-preview";
                  contents := [getImagePart base64InputImage; textPart prompt];
                  responseModalities := Some [lit "IMAGE"; lit "TEXT"] |})
    (fun response =>
  told (GeminiService.classifyResponse toLowerCase response))).

(** [cloneDesign] (lines 200-220). *)
Definition cloneDesign (apiKey base64Image : jsstring)
    (additionalInstructions : option jsstring) : Asked jsstring :=
  andThen (extractDesignPrompt apiKey base64Image) (fun extractedPrompt =>
  generateImage apiKey
    (GeminiService.composeClonePrompt extractedPrompt additionalInstructions)
    base64Image).

(** [createMockup] (lines 223-231). *)
Definition createMockup
    (apiKey base64ClonedDesign productPrompt productColorHex : jsstring)
    (additionalInstructions : option jsstring) : Asked jsstring :=
  let finalPrompt :=
    lit "Take the provided design and create a photorealistic mockup. "
      ++ productPrompt
      ++ lit ". IMPORTANT: The main color of the product (e.g., the t-shirt fabric, the mug's ceramic) MUST be the hex color: "
      ++ productColorHex
      ++ lit ". The design must be placed naturally on the product, conforming to its shape, texture, and lighting. The final image should look like a professional product photograph." in
  let finalPrompt :=
    if GeminiService.hasInstructions additionalInstructions
    then finalPrompt ++ [10; 10]%N ++ lit "ADDITIONAL INSTRUCTIONS: "
           ++ interpolate additionalInstructions
    else finalPrompt in
  generateImage apiKey finalPrompt base64ClonedDesign.

End Backend.

End Traced.

(* ================================================================== *)
(** * App.tsx: the orchestrator *)
(* ================================================================== *)

(** Modelled from the spec: the [Status] enum of [types.ts], which is not
    among the sources; [App] uses its four members. *)
Inductive Status : Type := IDLE | PENDING | SUCCESS | FAILED.

Definition Status_eqb (a b : Status) : bool :=
  match a, b with
  | IDLE, IDLE | PENDING, PENDING | SUCCESS, SUCCESS | FAILED, FAILED => true
  | _, _ => false
  end.

(** Modelled from the spec: the [ClonedDesign] type of [types.ts], the
    staged asset; [App] builds it as [{ status, imageUrl }]. *)
Module ClonedDesign.
Record t := mk { status : Status; imageUrl : option jsstring }.
End ClonedDesign.

(** Modelled from the spec: the [Mockup] type of [types.ts]; [App] builds it
    as [{ id, name, status, imageUrl }]. *)
Module Mockup.
Record t := mk {
  id : jsstring;
  name : jsstring;
  status : Status;
  imageUrl : option jsstring }.
End Mockup.

(** Modelled from the spec: the [ProductDetails] type of [types.ts]. *)
Record ProductDetails := {
  title : jsstring;
  description : jsstring;
  tags : jsstring }.

Inductive Mode : Type := cloner | redesign.

(** An entry of the [PRODUCTS] table of [constants.ts]: the two fields
    [App] reads, [name] and [prompt]. *)
Record Product := { productName : jsstring; productPrompt : jsstring }.

(** The [useState] cells of [App] that the handlers below read or write. *)
Record AppState := {
  uploadedImage : option jsstring;
  clonedDesign : ClonedDesign.t;
  removedBgDesign : ClonedDesign.t;
  resizedDesign : ClonedDesign.t;
  mockups : list Mockup.t;
  isLoading : bool;
  loadingMessage : jsstring;
  error : option jsstring;
  selectedProducts : list jsstring;
  productDetails : option ProductDetails;
  additionalInstructions : jsstring;
  mode : Mode;
  geminiApiKey : jsstring;
  photoroomApiKey : jsstring;
  showApiKeys : bool }.

(** The state of the first render. *)
Definition initialState (initialSelection : list jsstring)
    (storedGeminiKey storedPhotoroomKey : option jsstring) : AppState :=
  {| uploadedImage := None;
     clonedDesign := ClonedDesign.mk IDLE None;
     removedBgDesign := ClonedDesign.mk IDLE None;
     resizedDesign := ClonedDesign.mk IDLE None;
     mockups := [];
     isLoading := false;
     loadingMessage := [];
     error := None;
     selectedProducts := initialSelection;
     productDetails := None;
     additionalInstructions := [];
     mode := cloner;
     geminiApiKey := if truthyOpt storedGeminiKey then interpolate storedGeminiKey else [];
     photoroomApiKey :=
       if truthyOpt storedPhotoroomKey then interpolate storedPhotoroomKey
       else lit "sk_pr_default_a0f75c1bea6776987fcd3790bd047935b9eb5ece";
     showApiKeys := false |}.

(** ** The state setters *)

(** A call of a state setter. *)
Definition Update := AppState -> AppState.

Definition setUploadedImage (v : option jsstring) (s : AppState) : AppState :=
  {| uploadedImage := v; clonedDesign := clonedDesign s;
     removedBgDesign := removedBgDesign s; resizedDesign := resizedDesign s;
     mockups := mockups s; isLoading := isLoading s;
     loadingMessage := loadingMessage s; error := error s;
     selectedProducts := selectedProducts s;
     productDetails := productDetails s;
     additionalInstructions := additionalInstructions s; mode := mode s;
     geminiApiKey := geminiApiKey s; photoroomApiKey := photoroomApiKey s;
     showApiKeys := showApiKeys s |}.

Definition setClonedDesign (v : ClonedDesign.t) (s : AppState) : AppState :=
  {| uploadedImage := uploadedImage s; clonedDesign := v;
     removedBgDesign := removedBgDesign s; resizedDesign := resizedDesign s;
     mockups := mockups s; isLoading := isLoading s;
     loadingMessage := loadingMessage s; error := error s;
     selectedProducts := selectedProducts s;
     productDetails := productDetails s;
     additionalInstructions := additionalInstructions s; mode := mode s;
     geminiApiKey := geminiApiKey s; photoroomApiKey := photoroomApiKey s;
     showApiKeys := showApiKeys s |}.

Definition setRemovedBgDesign (v : ClonedDesign.t) (s : AppState) : AppState :=
  {| uploadedImage := uploadedImage s; clonedDesign := clonedDesign s;
     removedBgDesign := v; resizedDesign := resizedDesign s;
     mockups := mockups s; isLoading := isLoading s;
     loadingMessage := loadingMessage s; error := error s;
     selectedProducts := selectedProducts s;
     productDetails := productDetails s;
     additionalInstructions := additionalInstructions s; mode := mode s;
     geminiApiKey := geminiApiKey s; photoroomApiKey := photoroomApiKey s;
     showApiKeys := showApiKeys s |}.

Definition setResizedDesign (v : ClonedDesign.t) (s : AppState) : AppState :=
  {| uploadedImage := uploadedImage s; clonedDesign := clonedDesign s;
     removedBgDesign := removedBgDesign s; resizedDesign := v;
     mockups := mockups s; isLoading := isLoading s;
     loadingMessage := loadingMessage s; error := error s;
     selectedProducts := selectedProducts s;
     productDetails := productDetails s;
     additionalInstructions := additionalInstructions s; mode := mode s;
     geminiApiKey := geminiApiKey s; photoroomApiKey := photoroomApiKey s;
     showApiKeys := showApiKeys s |}.

Definition setMockups (f : list Mockup.t -> list Mockup.t) (s : AppState) : AppState :=
  {| uploadedImage := uploadedImage s; clonedDesign := clonedDesign s;
     removedBgDesign := removedBgDesign s; resizedDesign := resizedDesign s;
     mockups := f (mockups s); isLoading := isLoading s;
     loadingMessage := loadingMessage s; error := error s;
     selectedProducts := selectedProducts s;
     productDetails := productDetails s;
     additionalInstructions := additionalInstructions s; mode := mode s;
     geminiApiKey := geminiApiKey s; photoroomApiKey := photoroomApiKey s;
     showApiKeys := showApiKeys s |}.

Definition setIsLoading (v : bool) (s : AppState) : AppState :=
  {| uploadedImage := uploadedImage s; clonedDesign := clonedDesign s;
     removedBgDesign := removedBgDesign s; resizedDesign := resizedDesign s;
     mockups := mockups s; isLoading := v;
     loadingMessage := loadingMessage s; error := error s;
     selectedProducts := selectedProducts s;
     productDetails := productDetails s;
     additionalInstructions := additionalInstructions s; mode := mode s;
     geminiApiKey := geminiApiKey s; photoroomApiKey := photoroomApiKey s;
     showApiKeys := showApiKeys s |}.

Definition setLoadingMessage (v : jsstring) (s : AppState) : AppState :=
  {| uploadedImage := uploadedImage s; clonedDesign := clonedDesign s;
     removedBgDesign := removedBgDesign s; resizedDesign := resizedDesign s;
     mockups := mockups s; isLoading := isLoading s; loadingMessage := v;
     error := error s; selectedProducts := selectedProducts s;
     productDetails := productDetails s;
     additionalInstructions := additionalInstructions s; mode := mode s;
     geminiApiKey := geminiApiKey s; photoroomApiKey := photoroomApiKey s;
     showApiKeys := showApiKeys s |}.

Definition setError (v : option jsstring) (s : AppState) : AppState :=
  {| uploadedImage := uploadedImage s; clonedDesign := clonedDesign s;
     removedBgDesign := removedBgDesign s; resizedDesign := resizedDesign s;
     mockups := mockups s; isLoading := isLoading s;
     loadingMessage := loadingMessage s; error := v;
     selectedProducts := selectedProducts s;
     productDetails := productDetails s;
     additionalInstructions := additionalInstructions s; mode := mode s;
     geminiApiKey := geminiApiKey s; photoroomApiKey := photoroomApiKey s;
     showApiKeys := showApiKeys s |}.

Definition setSelectedProducts (f : list jsstring -> list jsstring) (s : AppState) : AppState :=
  {| uploadedImage := uploadedImage s; clonedDesign := clonedDesign s;
     removedBgDesign := removedBgDesign s; resizedDesign := resizedDesign s;
     mockups := mockups s; isLoading := isLoading s;
     loadingMessage := loadingMessage s; error := error s;
     selectedProducts := f (selectedProducts s);
     productDetails := productDetails s;
     additionalInstructions := additionalInstructions s; mode := mode s;
     geminiApiKey := geminiApiKey s; photoroomApiKey := photoroomApiKey s;
     showApiKeys := showApiKeys s |}.

Definition setProductDetails (v : option ProductDetails) (s : AppState) : AppState :=
  {| uploadedImage := uploadedImage s; clonedDesign := clonedDesign s;
     removedBgDesign := removedBgDesign s; resizedDesign := resizedDesign s;
     mockups := mockups s; isLoading := isLoading s;
     loadingMessage := loadingMessage s; error := error s;
     selectedProducts := selectedProducts s; productDetails := v;
     additionalInstructions := additionalInstructions s; mode := mode s;
     geminiApiKey := geminiApiKey s; photoroomApiKey := photoroomApiKey s;
     showApiKeys := showApiKeys s |}.

Definition setShowApiKeys (v : bool) (s : AppState) : AppState :=
  {| uploadedImage := uploadedImage s; clonedDesign := clonedDesign s;
     removedBgDesign := removedBgDesign s; resizedDesign := resizedDesign s;
     mockups := mockups s; isLoading := isLoading s;
     loadingMessage := loadingMessage s; error := error s;
     selectedProducts := selectedProducts s;
     productDetails := productDetails s;
     additionalInstructions := additionalInstructions s; mode := mode s;
     geminiApiKey := geminiApiKey s; photoroomApiKey := photoroomApiKey s;
     showApiKeys := v |}.

(** The state after a sequence of setter calls. *)
Definition run (s : AppState) (updates : list Update) : AppState :=
  fold_left (fun s u => u s) updates s.

(** The states a sequence of setter calls goes through, the first
    included. *)
Fixpoint trace (s : AppState) (updates : list Update) : list AppState :=
  s :: match updates with
       | [] => []
       | u :: updates' => trace (u s) updates'
       end.

(** ** Code that issues setter calls and may throw *)

(** The setter calls issued so far, and how the code ended. *)
Definition Script (A : Type) : Type := (list Update * Settled Thrown A)%type.

Definition ret {A} (a : A) : Script A := ([], Resolved a).

Definition bind {A B} (m : Script A) (k : A -> Script B) : Script B :=
  match m with
  | (us, Resolved a) => let (us', r) := k a in (us ++ us', r)
  | (us, Rejected e) => (us, Rejected e)
  end.

(** A setter call. *)
Definition call (u : Update) : Script unit := ([u], Resolved tt).

(** [await p] for a promise that settles as [p]. *)
Definition await {A} (p : Settled Thrown A) : Script A := ([], p).

Notation "x <- m ;; k" := (bind m (fun x => k))
  (at level 61, m at next level, right associativity).
Notation "m ;;; k" := (bind m (fun _ => k))
  (at level 61, right associativity).

Module App.

(** ** [processImageFile] (lines 62-79) *)

Definition processImageFile (fileType : jsstring)
    (toBase64 : Settled Thrown jsstring) : list Update :=
  if startsWith fileType (lit "image/") then
    match toBase64 with
    | Resolved base64Image =>
        [ setUploadedImage (Some base64Image);
          setClonedDesign (ClonedDesign.mk IDLE None);
          setRemovedBgDesign (ClonedDesign.mk IDLE None);
          setResizedDesign (ClonedDesign.mk IDLE None);
          setMockups (fun _ => []);
          setError None;
          setProductDetails None ]
    | Rejected _ =>
        [ setError (Some (lit "Couldn't process this image. Please try another file.")) ]
    end
  else [ setError (Some (lit "Please paste or upload a valid image file.")) ].

(** ** [handleProductSelect] (lines 101-115)

    The timer that clears the message after three seconds is left out. *)

Definition handleProductSelect (productId : jsstring) : list Update :=
  [ fun s =>
      let prev := selectedProducts s in
      if existsb (eqb productId) prev then
        setSelectedProducts (fun _ => filter (fun id => negb (eqb id productId)) prev) s
      else if 6 <=? length prev then
        setError (Some (lit "You can select a maximum of 6 mockups.")) s
      else setSelectedProducts (fun _ => prev ++ [productId]) s ].

(** ** [handleGenerateClick] (lines 117-187) *)

(** The service module as [App] imports it.  The concurrent [createMockup]
    calls of one run are told apart by the product they are for (the first
    argument), so that two of them need not settle alike; [settleTime] is
    when the call for a product settles. *)
Record Services := {
  analyzeImageColor : jsstring -> jsstring -> Settled Thrown jsstring;
  cloneDesign : jsstring -> jsstring -> option jsstring -> Settled Thrown jsstring;
  removeBackground : jsstring -> jsstring -> Settled Thrown jsstring;
  resizeDesign : jsstring -> Settled Thrown jsstring;
  createMockup : jsstring -> jsstring -> jsstring -> jsstring -> jsstring
                 -> option jsstring -> Settled Thrown jsstring;
  settleTime : jsstring -> nat }.

(** The order in which concurrent calls settle: by settle time, calls
    settling together in the order they were issued. *)
Fixpoint insertByTime (t : jsstring -> nat) (x : jsstring) (l : list jsstring)
  : list jsstring :=
  match l with
  | [] => [x]
  | y :: l' => if t x <=? t y then x :: l else y :: insertByTime t x l'
  end.

Definition settleOrder (t : jsstring -> nat) (issued : list jsstring)
  : list jsstring :=
  fold_right (insertByTime t) [] issued.

Section Run.

(** The [PRODUCTS] table of [constants.ts], which is not among the sources:
    a lookup that is total, as its type has it (a selection is made of keys
    of the table). *)
Variable PRODUCTS : jsstring -> Product.

Variable geminiService : Services.

(** Lines 128-138: the start of a run.  [r] is the state of the render the
    handler belongs to. *)
Definition startRun (r : AppState) : list Update :=
  [ setIsLoading true;
    setError None;
    setProductDetails None;
    setClonedDesign (ClonedDesign.mk PENDING None);
    setRemovedBgDesign (ClonedDesign.mk IDLE None);
    setResizedDesign (ClonedDesign.mk IDLE None);
    if 0 <? length (selectedProducts r) then
      setMockups (fun _ =>
        List.map (fun id => Mockup.mk id (productName (PRODUCTS id)) PENDING None)
                 (selectedProducts r))
    else setMockups (fun _ => []) ].

(** Lines 164-170: the continuation of one mockup call once it has
    settled. *)
Definition mockupSettled (productId : jsstring)
    (outcome : Settled Thrown jsstring) : Update :=
  match outcome with
  | Resolved mockupImageUrl =>
      setMockups (List.map (fun m =>
        if eqb (Mockup.id m) productId
        then Mockup.mk (Mockup.id m) (Mockup.name m) SUCCESS (Some mockupImageUrl)
        else m))
  | Rejected _ =>
      setMockups (List.map (fun m =>
        if eqb (Mockup.id m) productId
        then Mockup.mk (Mockup.id m) (Mockup.name m) FAILED (Mockup.imageUrl m)
        else m))
  end.

(** Line 147: [mode === 'redesign' ? additionalInstructions : undefined]. *)
Definition instructionsToPass (r : AppState) : option jsstring :=
  match mode r with
  | redesign => Some (additionalInstructions r)
  | cloner => None
  end.

(** Lines 142-172: the [try] block. *)
Definition tryBlock (r : AppState) (uploadedImage : jsstring) : Script unit :=
  call (setLoadingMessage (lit "Analyzing color...")) ;;;
  dominantColor <-
    await (analyzeImageColor geminiService (geminiApiKey r) uploadedImage) ;;
  call (setLoadingMessage
          (match mode r with
           | cloner => lit "Cloning design..."
           | redesign => lit "Redesigning..."
           end)) ;;;
  clonedImageUrl <-
    await (cloneDesign geminiService (geminiApiKey r) uploadedImage
             (instructionsToPass r)) ;;
  call (setClonedDesign (ClonedDesign.mk SUCCESS (Some clonedImageUrl))) ;;;
  call (setLoadingMessage (lit "Removing background...")) ;;;
  call (setRemovedBgDesign (ClonedDesign.mk PENDING None)) ;;;
  transparentImageUrl <-
    await (removeBackground geminiService (photoroomApiKey r) clonedImageUrl) ;;
  call (setRemovedBgDesign (ClonedDesign.mk SUCCESS (Some transparentImageUrl))) ;;;
  call (setLoadingMessage (lit "Resizing for print...")) ;;;
  call (setResizedDesign (ClonedDesign.mk PENDING None)) ;;;
  resizedImageUrl <-
    await (resizeDesign geminiService transparentImageUrl) ;;
  call (setResizedDesign (ClonedDesign.mk SUCCESS (Some resizedImageUrl))) ;;;
  if 0 <? length (selectedProducts r) then
    call (setLoadingMessage (lit "Creating mockups...")) ;;;
    (List.map
       (fun productId =>
          mockupSettled productId
            (createMockup geminiService productId (geminiApiKey r)
               resizedImageUrl (productPrompt (PRODUCTS productId))
               dominantColor (instructionsToPass r)))
       (settleOrder (settleTime geminiService) (selectedProducts r)),
     Resolved tt)
  else ret tt.

(** Lines 174-182: the [catch] block.  The three staged assets it tests are
    those of the render [r]. *)
Definition catchBlock (r : AppState) (err : Thrown) : list Update :=
  [ setError (Some (if truthyOpt (messageOf err)
                    then interpolate (messageOf err)
                    else lit "Could not process the design. Please try another image.")) ]
  ++ (if Status_eqb (ClonedDesign.status (clonedDesign r)) PENDING
      then [ setClonedDesign (ClonedDesign.mk FAILED None) ] else [])
  ++ (if negb (Status_eqb (ClonedDesign.status (removedBgDesign r)) SUCCESS)
      then [ setRemovedBgDesign (ClonedDesign.mk FAILED None) ] else [])
  ++ (if negb (Status_eqb (ClonedDesign.status (resizedDesign r)) SUCCESS)
      then [ setResizedDesign (ClonedDesign.mk FAILED None) ] else [])
  ++ (if 0 <? length (selectedProducts r) then
        [ setMockups (List.map (fun m =>
            if Status_eqb (Mockup.status m) PENDING
            then Mockup.mk (Mockup.id m) (Mockup.name m) FAILED (Mockup.imageUrl m)
            else m)) ]
      else []).

(** Lines 183-186: the [finally] block. *)
Definition finallyBlock : list Update :=
  [ setIsLoading false; setLoadingMessage [] ].

(** The handler: the setter calls of one click, in order, for the render
    [r] it belongs to. *)
Definition handleGenerateClick (r : AppState) : list Update :=
  if negb (truthy (geminiApiKey r)) then
    [ setError (Some (lit "Please enter your Gemini API key to start."));
      setShowApiKeys true ]
  else
    match uploadedImage r with
    | Some image =>
        if negb (truthy image) then
          [ setError (Some (lit "Please upload a design image to start!")) ]
        else
          startRun r
          ++ fst (tryBlock r image)
          ++ match snd (tryBlock r image) with
             | Rejected err => catchBlock r err
             | Resolved _ => []
             end
          ++ finallyBlock
    | None => [ setError (Some (lit "Please upload a design image to start!")) ]
    end.

End Run.

End App.

(* ================================================================== *)
(** * App.tsx: the other handlers *)
(* ================================================================== *)

Module AppActions.

(** ** The setters of the mode switch and of the instructions dialog
    (lines 285, 291, 452) *)

Definition setMode (v : Mode) (s : AppState) : AppState :=
  {| uploadedImage := uploadedImage s; clonedDesign := clonedDesign s;
     removedBgDesign := removedBgDesign s; resizedDesign := resizedDesign s;
     mockups := mockups s; isLoading := isLoading s;
     loadingMessage := loadingMessage s; error := error s;
     selectedProducts := selectedProducts s;
     productDetails := productDetails s;
     additionalInstructions := additionalInstructions s; mode := v;
     geminiApiKey := geminiApiKey s; photoroomApiKey := photoroomApiKey s;
     showApiKeys := showApiKeys s |}.

Definition setAdditionalInstructions (v : jsstring) (s : AppState) : AppState :=
  {| uploadedImage := uploadedImage s; clonedDesign := clonedDesign s;
     removedBgDesign := removedBgDesign s; resizedDesign := resizedDesign s;
     mockups := mockups s; isLoading := isLoading s;
     loadingMessage := loadingMessage s; error := error s;
     selectedProducts := selectedProducts s;
     productDetails := productDetails s; additionalInstructions := v;
     mode := mode s; geminiApiKey := geminiApiKey s;
     photoroomApiKey := photoroomApiKey s; showApiKeys := showApiKeys s |}.

(** The setters of the two key fields (lines 260, 270). *)
Definition setGeminiApiKey (v : jsstring) (s : AppState) : AppState :=
  {| uploadedImage := uploadedImage s; clonedDesign := clonedDesign s;
     removedBgDesign := removedBgDesign s; resizedDesign := resizedDesign s;
     mockups := mockups s; isLoading := isLoading s;
     loadingMessage := loadingMessage s; error := error s;
     selectedProducts := selectedProducts s;
     productDetails := productDetails s;
     additionalInstructions := additionalInstructions s; mode := mode s;
     geminiApiKey := v; photoroomApiKey := photoroomApiKey s;
     showApiKeys := showApiKeys s |}.

Definition setPhotoroomApiKey (v : jsstring) (s : AppState) : AppState :=
  {| uploadedImage := uploadedImage s; clonedDesign := clonedDesign s;
     removedBgDesign := removedBgDesign s; resizedDesign := resizedDesign s;
     mockups := mockups s; isLoading := isLoading s;
     loadingMessage := loadingMessage s; error := error s;
     selectedProducts := selectedProducts s;
     productDetails := productDetails s;
     additionalInstructions := additionalInstructions s; mode := mode s;
     geminiApiKey := geminiApiKey s; photoroomApiKey := v;
     showApiKeys := showApiKeys s |}.

(** ** [handleGenerateDetails] (lines 189-204)

    The handler writes one more cell, [isGeneratingDetails]; the state it
    runs on is the cells above and that one. *)

Record DetailsState := { app : AppState; isGeneratingDetails : bool }.

Definition DetailsUpdate := DetailsState -> DetailsState.

(** A setter of one of the cells above. *)
Definition onApp (u : Update) : DetailsUpdate :=
  fun d => {| app := u (app d); isGeneratingDetails := isGeneratingDetails d |}.

Definition setIsGeneratingDetails (v : bool) : DetailsUpdate :=
  fun d => {| app := app d; isGeneratingDetails := v |}.

Definition runDetails (d : DetailsState) (updates : list DetailsUpdate)
  : DetailsState :=
  fold_left (fun d u => u d) updates d.

(** The setter calls of one click, for the render [r] the handler belongs
    to; [generateProductDetails] is the service as [App] imports it. *)
Definition handleGenerateDetails
    (generateProductDetails : jsstring -> jsstring -> Settled Thrown ProductDetails)
    (r : AppState) : list DetailsUpdate :=
  if negb (truthyOpt (ClonedDesign.imageUrl (removedBgDesign r))) then []
  else
    [ setIsGeneratingDetails true;
      onApp (setProductDetails None);
      onApp (setError None) ]
    ++ match generateProductDetails (geminiApiKey r)
               (interpolate (ClonedDesign.imageUrl (removedBgDesign r))) with
       | Resolved details => [ onApp (setProductDetails (Some details)) ]
       | Rejected err =>
           [ onApp (setError (Some (if truthyOpt (messageOf err)
                                    then interpolate (messageOf err)
                                    else lit "Could not generate product details. Please try again."))) ]
       end
    ++ [ setIsGeneratingDetails false ].

(** ** [handleDownload] (lines 206-214) and [handleDownloadAll]
    (lines 216-220) *)

(** [s.replace(/\s+/g, '-')]: every run of white space becomes one dash;
    [inRun] tells that the code unit before was white space. *)
Fixpoint dashWhiteSpace (inRun : bool) (s : jsstring) : jsstring :=
  match s with
  | [] => []
  | c :: s' =>
      if isWhiteSpace c
      then if inRun then dashWhiteSpace true s' else 45%N :: dashWhiteSpace true s'
      else c :: dashWhiteSpace false s'
  end.

(** The link [handleDownload] builds and clicks.  [href] is what the caller
    hands over: the callers write [imageUrl!], which lets [null] through. *)
Record Download := { href : option jsstring; download : jsstring }.

Section Download.

(** [String.prototype.toLowerCase], by the case tables of the engine. *)
Variable toLowerCase : jsstring -> jsstring.

Definition handleDownload (imageUrl : option jsstring) (name : jsstring)
  : Download :=
  {| href := imageUrl;
     download := dashWhiteSpace false (toLowerCase name) ++ lit ".png" |}.

(** The downloads [handleDownloadAll] schedules, each with its delay in
    milliseconds; [r] is the render the handler belongs to. *)
Definition handleDownloadAll (r : AppState) : list (nat * Download) :=
  let succeeded :=
    filter (fun m => Status_eqb (Mockup.status m) SUCCESS) (mockups r) in
  List.map (fun im : nat * Mockup.t =>
              (fst im * 300,
               handleDownload (Mockup.imageUrl (snd im))
                 (lit "mockup-" ++ Mockup.name (snd im))))
           (combine (seq 0 (length succeeded)) succeeded).

End Download.

End AppActions.

(* ================================================================== *)
(** * App.tsx: the handlers in the event loop *)
(* ================================================================== *)

(** [handleGenerateClick] once more, split into the turns of the event
    loop it runs in and with its service calls written down.  A turn is
    what runs without interruption: the click itself up to the first
    [await], then each stretch from the resumption after an [await] to the
    next one.  Between two turns other handlers can run.  Every [await] is
    taken as the end of a turn, also one on a promise that has settled
    already, which allows for more interleavings than the engine does and
    for none less. *)
Module EventLoop.

(** A call of the service module, with its arguments. *)
Inductive ServiceCall : Type :=
| AnalyzeImageColor (apiKey base64Image : jsstring)
| CloneDesign (apiKey base64Image : jsstring)
    (additionalInstructions : option jsstring)
| RemoveBackground (apiKey base64Image : jsstring)
| ResizeDesign (base64Image : jsstring)
| CreateMockup (apiKey base64ClonedDesign productPrompt productColorHex : jsstring)
    (additionalInstructions : option jsstring).

Inductive Action : Type :=
| SetState (u : Update)
| CallService (c : ServiceCall).

Definition Turn := list Action.

(** The setter calls of a turn, and its service calls. *)
Definition setters (t : Turn) : list Update :=
  flat_map (fun a => match a with SetState u => [u] | CallService _ => [] end) t.

Definition serviceCalls (t : Turn) : list ServiceCall :=
  flat_map (fun a => match a with SetState _ => [] | CallService c => [c] end) t.

Section Run.

Variable PRODUCTS : jsstring -> Product.
Variable geminiService : App.Services.

(** The turn a rejected [await] of the [try] block resumes into: the
    [catch] block and the [finally] block. *)
Definition failedTurn (r : AppState) (err : Thrown) : Turn :=
  List.map SetState (App.catchBlock r err ++ App.finallyBlock).

(** Lines 161-172 and 183-186, from the resumption after [resizeDesign]:
    with products selected, the calls of [createMockup] are all issued in
    that turn, each continuation is a turn of its own, in the order the
    calls settle, and the [finally] block runs when [Promise.all] has
    resolved; without products the [finally] block follows at once. *)
Definition mockupTurns (r : AppState) (dominantColor resizedImageUrl : jsstring)
  : list Turn :=
  if 0 <? length (selectedProducts r) then
    ([ SetState (setResizedDesign (ClonedDesign.mk SUCCESS (Some resizedImageUrl)));
       SetState (setLoadingMessage (lit "Creating mockups...")) ]
     ++ List.map
          (fun productId =>
             CallService
               (CreateMockup (geminiApiKey r) resizedImageUrl
                  (productPrompt (PRODUCTS productId)) dominantColor
                  (App.instructionsToPass r)))
          (selectedProducts r))
    :: List.map
         (fun productId =>
            [ SetState
                (App.mockupSettled productId
                   (App.createMockup geminiService productId (geminiApiKey r)
                      resizedImageUrl (productPrompt (PRODUCTS productId))
                      dominantColor (App.instructionsToPass r))) ])
         (App.settleOrder (App.settleTime geminiService) (selectedProducts r))
    ++ [ List.map SetState App.finallyBlock ]
  else
    [ SetState (setResizedDesign (ClonedDesign.mk SUCCESS (Some resizedImageUrl)))
      :: List.map SetState App.finallyBlock ].

(** Lines 128-186: the turns of a run that has passed the guards. *)
Definition runTurns (r : AppState) (uploadedImage : jsstring) : list Turn :=
  (List.map SetState (App.startRun PRODUCTS r)
   ++ [ SetState (setLoadingMessage (lit "Analyzing color..."));
        CallService (AnalyzeImageColor (geminiApiKey r) uploadedImage) ])
  :: match App.analyzeImageColor geminiService (geminiApiKey r) uploadedImage with
     | Rejected err => [ failedTurn r err ]
     | Resolved dominantColor =>
  [ SetState (setLoadingMessage
                (match mode r with
                 | cloner => lit "Cloning design..."
                 | redesign => lit "Redesigning..."
                 end));
    CallService (CloneDesign (geminiApiKey r) uploadedImage
                   (App.instructionsToPass r)) ]
  :: match App.cloneDesign geminiService (geminiApiKey r) uploadedImage
             (App.instructionsToPass r) with
     | Rejected err => [ failedTurn r err ]
     | Resolved clonedImageUrl =>
  [ SetState (setClonedDesign (ClonedDesign.mk SUCCESS (Some clonedImageUrl)));
    SetState (setLoadingMessage (lit "Removing background..."));
    SetState (setRemovedBgDesign (ClonedDesign.mk PENDING None));
    CallService (RemoveBackground (photoroomApiKey r) clonedImageUrl) ]
  :: match App.removeBackground geminiService (photoroomApiKey r)
             clonedImageUrl with
     | Rejected err => [ failedTurn r err ]
     | Resolved transparentImageUrl =>
  [ SetState (setRemovedBgDesign
                (ClonedDesign.mk SUCCESS (Some transparentImageUrl)));
    SetState (setLoadingMessage (lit "Resizing for print..."));
    SetState (setResizedDesign (ClonedDesign.mk PENDING None));
    CallService (ResizeDesign transparentImageUrl) ]
  :: match App.resizeDesign geminiService transparentImageUrl with
     | Rejected err => [ failedTurn r err ]
     | Resolved resizedImageUrl =>
         mockupTurns r dominantColor resizedImageUrl
     end end end end.

(** The handler: the turns of one click, for the render [r] it belongs
    to. *)
Definition handleGenerateClick (r : AppState) : list Turn :=
  if negb (truthy (geminiApiKey r)) then
    [ [ SetState (setError (Some (lit "Please enter your Gemini API key to start.")));
        SetState (setShowApiKeys true) ] ]
  else
    match uploadedImage r with
    | Some image =>
        if negb (truthy image) then
          [ [ SetState (setError (Some (lit "Please upload a design image to start!"))) ] ]
        else runTurns r image
    | None =>
        [ [ SetState (setError (Some (lit "Please upload a design image to start!"))) ] ]
    end.

End Run.

(** ** The application between the turns *)

(** The setter calls outside the three handlers: the key panel (lines 58,
    247), the dismissal of the message and the timer that clears it (lines
    235, 109), the key fields (lines 260, 270), the mode switch (lines 285,
    291), the instructions dialog (line 452), and those of
    [handleGenerateDetails] that write these cells (lines 193-199). *)
Inductive OtherSetter : Type :=
| ShowApiKeys (v : bool)
| ErrorMessage (v : option jsstring)
| GeminiApiKey (v : jsstring)
| PhotoroomApiKey (v : jsstring)
| SwitchMode (v : Mode)
| Instructions (v : jsstring)
| Details (v : option ProductDetails).

Definition otherSetter (o : OtherSetter) : Update :=
  match o with
  | ShowApiKeys v => setShowApiKeys v
  | ErrorMessage v => setError v
  | GeminiApiKey v => AppActions.setGeminiApiKey v
  | PhotoroomApiKey v => AppActions.setPhotoroomApiKey v
  | SwitchMode v => AppActions.setMode v
  | Instructions v => AppActions.setAdditionalInstructions v
  | Details v => setProductDetails v
  end.

(** The application at rest between two turns: the state of the last
    render, and for each run in progress the turns it has still to take. *)
Record Loop := { current : AppState; running : list (list Turn) }.

(** What happens next: a file has been read ([processImageFile] resumes
    after its [await], or refuses the file), a product is clicked, the
    generate button is clicked with the services answering as [svc] has
    it, the [n]-th run in progress takes its next turn, or another setter
    is called. *)
Inductive Event : Type :=
| Upload (fileType : jsstring) (toBase64 : Settled Thrown jsstring)
| SelectProduct (productId : jsstring)
| ClickGenerate (svc : App.Services)
| Resume (n : nat)
| Other (o : OtherSetter).

(** Line 371: the generate button is rendered with
    [disabled={!uploadedImage || isLoading || !geminiApiKey}]; a disabled
    button takes no click. *)
Definition canClick (s : AppState) : bool :=
  negb (negb (truthyOpt (uploadedImage s)) || isLoading s
        || negb (truthy (geminiApiKey s))).

Section Loop.

Variable PRODUCTS : jsstring -> Product.

(** The turns the event starts or resumes: the one taken now, and those
    left for later. *)
Definition turnsOf (l : Loop) (e : Event) : list Turn :=
  match e with
  | Upload fileType toBase64 =>
      [ List.map SetState (App.processImageFile fileType toBase64) ]
  | SelectProduct productId =>
      [ List.map SetState (App.handleProductSelect productId) ]
  | ClickGenerate svc =>
      if canClick (current l) then handleGenerateClick PRODUCTS svc (current l)
      else []
  | Resume n => nth n (running l) []
  | Other o => [ [ SetState (otherSetter o) ] ]
  end.

(** The setter calls of the turn the event takes now. *)
Definition issued (l : Loop) (e : Event) : list Update :=
  match turnsOf l e with
  | turn :: _ => setters turn
  | [] => []
  end.

(** The runs in progress after the event: a resumed run is left with its
    later turns, or is over; a click adds a run when turns are left to
    take. *)
Definition runningAfter (l : Loop) (e : Event) : list (list Turn) :=
  match e with
  | Resume n =>
      firstn n (running l)
      ++ match nth n (running l) [] with
         | _ :: ((_ :: _) as later) => [ later ]
         | _ => []
         end
      ++ skipn (S n) (running l)
  | _ =>
      running l
      ++ match turnsOf l e with
         | _ :: ((_ :: _) as later) => [ later ]
         | _ => []
         end
  end.

Definition step (l : Loop) (e : Event) : Loop :=
  {| current := run (current l) (issued l e);
     running := runningAfter l e |}.

(** The application after a sequence of events, from the first render. *)
Definition after (initialSelection : list jsstring)
    (storedGeminiKey storedPhotoroomKey : option jsstring)
    (events : list Event) : Loop :=
  fold_left step events
    {| current := initialState initialSelection storedGeminiKey storedPhotoroomKey;
       running := [] |}.

End Loop.

End EventLoop.

(* ================================================================== *)
(** * components/InstructionsModal.tsx, with the cells [App] gives it *)
(* ================================================================== *)

Module InstructionsModal.

(** [saved] is [additionalInstructions] of [App], handed down as
    [initialInstructions]; [isOpen] is [isInstructionsModalOpen]; [draft] is
    the [instructions] cell of the dialog. *)
Record Dialog := { saved : jsstring; isOpen : bool; draft : jsstring }.

(** The first render: nothing saved, the dialog closed. *)
Definition initial : Dialog := {| saved := []; isOpen := false; draft := [] |}.

(** What the user can do.  The text area, and with it typing and the two
    buttons, exists only while the dialog is open (line 42); the Escape key
    is listened to only then (line 33). *)
Inductive Event : Type :=
| Open                    (* the button of [App], line 355; disabled in cloner mode *)
| Type_ (value : jsstring) (* [onChange] of the text area, line 69 *)
| Save                    (* [handleSave], lines 46-48, and [onSave] of [App] *)
| Close.                  (* Cancel, the backdrop, Escape: [onClose] *)

(** One event, with the effect of lines 20-24 run where its dependencies
    change: opening the dialog copies the saved text into the draft. *)
Definition step (d : Dialog) (e : Event) : Dialog :=
  match e with
  | Open =>
      if isOpen d then d
      else {| saved := saved d; isOpen := true; draft := saved d |}
  | Type_ value =>
      if isOpen d then {| saved := saved d; isOpen := true; draft := value |}
      else d
  | Save =>
      if isOpen d then {| saved := draft d; isOpen := false; draft := draft d |}
      else d
  | Close => {| saved := saved d; isOpen := false; draft := draft d |}
  end.

Definition steps (d : Dialog) (events : list Event) : Dialog :=
  fold_left step events d.

(** [maxLength={2000}]: what the browser lets the user type. *)
Definition typable (e : Event) : Prop :=
  match e with
  | Type_ value => length value <= 2000
  | _ => True
  end.

(** An event other than [Save]. *)
Definition notSave (e : Event) : Prop :=
  match e with Save => False | _ => True end.

End InstructionsModal.

(* ================================================================== *)
(** * Vocabulary of the statements, and sample data *)
(* ================================================================== *)

Import GeminiService.

(** The clause as the specification words it, without the blank in front:
    [s] ends, letter case apart, with one of the two texts. *)
Definition endsWithCI (s pat : jsstring) : bool :=
  matchesCI (skipn (length s - length pat) s) pat.

Definition endsWithWordedClause (s : jsstring) : bool :=
  endsWithCI s (lit "on a solid black background")
  || endsWithCI s (lit "on a solid white background").

(** ** The response, as the statements about [generateImage] read it *)

(** The response has no block reason, or an empty one. *)
Definition notBlocked (response : GenerateContentResponse) : Prop :=
  forall feedback reason,
    promptFeedback response = Some feedback ->
    blockReason feedback = Some reason -> reason = [].

(** A rating of probability HIGH or MEDIUM. *)
Definition highOrMedium (rating : SafetyRating) : Prop :=
  probability rating = Some (lit "HIGH")
  \/ probability rating = Some (lit "MEDIUM").

(** [rating] is the first rating of probability HIGH or MEDIUM among the
    safety ratings of the prompt feedback. *)
Definition firstHighOrMedium (response : GenerateContentResponse)
    (rating : SafetyRating) : Prop :=
  exists feedback before after,
    promptFeedback response = Some feedback
    /\ safetyRatings feedback = Some (before ++ rating :: after)
    /\ Forall (fun r => ~ highOrMedium r) before
    /\ highOrMedium rating.

(** The prompt feedback has no rating of probability HIGH or MEDIUM. *)
Definition noHighOrMedium (response : GenerateContentResponse) : Prop :=
  forall feedback ratings,
    promptFeedback response = Some feedback ->
    safetyRatings feedback = Some ratings ->
    Forall (fun r => ~ highOrMedium r) ratings.

(** [ps] is the part list of the first candidate. *)
Definition firstCandidateParts (response : GenerateContentResponse)
    (ps : list Part) : Prop :=
  exists candidate others c,
    candidates response = Some (candidate :: others)
    /\ content candidate = Some c /\ parts c = Some ps.

(** The first candidate has no part: there is no candidate, or it has no
    content, or no part list, or an empty one. *)
Definition withoutParts (response : GenerateContentResponse) : Prop :=
  forall ps, firstCandidateParts response ps -> ps = [].

(** A part without text, or with the empty text. *)
Definition textless (p : Part) : Prop := text p = None \/ text p = Some [].

(** The request [generateImage] sends. *)
Definition imageRequest (prompt image : jsstring) : ContentRequest :=
  {| model := lit "gemini-2.5-flash-image-preview";
     contents :=
       [ {| inlineData := Some {| mimeType := Some (lit "image/png");
                                  data := splitComma1 image |};
            text := None |};
         {| inlineData := None; text := Some prompt |} ];
     responseModalities := Some [lit "IMAGE"; lit "TEXT"] |}.

(** The request [extractDesignPrompt] sends. *)
Definition extractionRequest (instruction image : jsstring) : ContentRequest :=
  {| model := lit "gemini-2.5-flash";
     contents :=
       [ {| inlineData := None; text := Some instruction |};
         {| inlineData := Some {| mimeType := Some (lit "image/png");
                                  data := splitComma1 image |};
            text := None |} ];
     responseModalities := None |}.

(** A hexadecimal digit, and a colour written as [#] and six of them. *)
Definition hexDigit (c : N) : Prop :=
  (48 <= c <= 57 \/ 65 <= c <= 70 \/ 97 <= c <= 102)%N.

Definition hexColor (color : jsstring) : Prop :=
  exists digits,
    color = 35%N :: digits /\ length digits = 6 /\ Forall hexDigit digits.

(** The message of the text fallback of [generateImage], for the text it
    has found. *)
Definition textInsteadOfImage (found : option jsstring) : jsstring :=
  match found with
  | Some (c :: t) =>
      match trim (c :: t) with
      | [] => lit "API did not return an image. Please try a different design or prompt."
      | shown =>
          lit "API returned text instead of an image: " ++ [34]%N ++ shown
            ++ [34]%N
      end
  | _ => lit "API did not return an image. Please try a different design or prompt."
  end.

Import App.

(** The invariant of a staged asset: an image exactly when the status is
    [SUCCESS]. *)
Definition assetOk (d : ClonedDesign.t) : Prop :=
  ClonedDesign.imageUrl d <> None <-> ClonedDesign.status d = SUCCESS.

Definition mockupOk (m : Mockup.t) : Prop :=
  Mockup.imageUrl m <> None <-> Mockup.status m = SUCCESS.

Definition stateOk (s : AppState) : Prop :=
  assetOk (clonedDesign s) /\ assetOk (removedBgDesign s)
  /\ assetOk (resizedDesign s) /\ Forall mockupOk (mockups s).

(** A status a stage ends in. *)
Definition terminal (st : Status) : bool :=
  match st with SUCCESS | FAILED => true | IDLE | PENDING => false end.

(** The handler gets past its two guards. *)
Definition canStart (r : AppState) (image : jsstring) : Prop :=
  truthy (geminiApiKey r) = true /\ uploadedImage r = Some image
  /\ truthy image = true.

(** The item of a product at the start of a run, and once its call has
    settled. *)
Definition pendingMockup (PRODUCTS : jsstring -> Product) (productId : jsstring)
  : Mockup.t :=
  Mockup.mk productId (productName (PRODUCTS productId)) PENDING None.

Definition settledMockup (PRODUCTS : jsstring -> Product) (productId : jsstring)
    (outcome : Settled Thrown jsstring) : Mockup.t :=
  match outcome with
  | Resolved mockupImageUrl =>
      Mockup.mk productId (productName (PRODUCTS productId)) SUCCESS
        (Some mockupImageUrl)
  | Rejected _ =>
      Mockup.mk productId (productName (PRODUCTS productId)) FAILED None
  end.

(** What the continuation of the call for [productId] does to one item. *)
Definition settleIn (productId : jsstring) (outcome : Settled Thrown jsstring)
    (m : Mockup.t) : Mockup.t :=
  if eqb (Mockup.id m) productId then
    match outcome with
    | Resolved mockupImageUrl =>
        Mockup.mk (Mockup.id m) (Mockup.name m) SUCCESS (Some mockupImageUrl)
    | Rejected _ =>
        Mockup.mk (Mockup.id m) (Mockup.name m) FAILED (Mockup.imageUrl m)
    end
  else m.

(** What the continuations of the calls for [order], run in that order, do
    to one item. *)
Definition settleAll (outcome : jsstring -> Settled Thrown jsstring)
    (order : list jsstring) (m : Mockup.t) : Mockup.t :=
  fold_left (fun m productId => settleIn productId (outcome productId) m) order m.

(** The setter calls of the mockup stage. *)
Definition fanOut (outcome : jsstring -> Settled Thrown jsstring)
    (order : list jsstring) : list Update :=
  List.map (fun productId => mockupSettled productId (outcome productId)) order.

(** The setter calls of the [try] block up to the mockup stage, when the
    four stages before it succeed. *)
Definition stageUpdates (r : AppState) (cloned transparent resized : jsstring)
  : list Update :=
  [ setLoadingMessage (lit "Analyzing color...");
    setLoadingMessage (match mode r with
                       | cloner => lit "Cloning design..."
                       | redesign => lit "Redesigning..."
                       end);
    setClonedDesign (ClonedDesign.mk SUCCESS (Some cloned));
    setLoadingMessage (lit "Removing background...");
    setRemovedBgDesign (ClonedDesign.mk PENDING None);
    setRemovedBgDesign (ClonedDesign.mk SUCCESS (Some transparent));
    setLoadingMessage (lit "Resizing for print...");
    setResizedDesign (ClonedDesign.mk PENDING None);
    setResizedDesign (ClonedDesign.mk SUCCESS (Some resized)) ].

(** A setter call that keeps the invariant. *)
Definition Preserves (u : Update) : Prop :=
  forall s, stateOk s -> stateOk (u s).

(** The place of a product in a list (its length for a product that is not
    in it): as a settle time, the moment at which the call for the product
    settles when the calls settle in the order of the list. *)
Fixpoint position (x : jsstring) (l : list jsstring) : nat :=
  match l with
  | [] => 0
  | y :: l' => if eqb x y then 0 else S (position x l')
  end.

(** A setter call that leaves the selection as it is. *)
Definition KeepsSelection (u : Update) : Prop :=
  forall s, selectedProducts (u s) = selectedProducts s.

(** The states the three handlers reach from the first render, whatever the
    services answer. *)
Inductive reachable (PRODUCTS : jsstring -> Product)
    (initialSelection : list jsstring)
    (storedGeminiKey storedPhotoroomKey : option jsstring) : AppState -> Prop :=
| reachable_initial :
    reachable PRODUCTS initialSelection storedGeminiKey storedPhotoroomKey
      (initialState initialSelection storedGeminiKey storedPhotoroomKey)
| reachable_upload (s : AppState) (fileType : jsstring)
    (toBase64 : Settled Thrown jsstring) :
    reachable PRODUCTS initialSelection storedGeminiKey storedPhotoroomKey s ->
    reachable PRODUCTS initialSelection storedGeminiKey storedPhotoroomKey
      (run s (processImageFile fileType toBase64))
| reachable_select (s : AppState) (productId : jsstring) :
    reachable PRODUCTS initialSelection storedGeminiKey storedPhotoroomKey s ->
    reachable PRODUCTS initialSelection storedGeminiKey storedPhotoroomKey
      (run s (handleProductSelect productId))
| reachable_generate (s : AppState) (svc : Services) :
    reachable PRODUCTS initialSelection storedGeminiKey storedPhotoroomKey s ->
    reachable PRODUCTS initialSelection storedGeminiKey storedPhotoroomKey
      (run s (handleGenerateClick PRODUCTS svc s)).

(** The setter calls of the [catch] block of a run, none when the [try]
    block completed. *)
Definition catchPart (PRODUCTS : jsstring -> Product) (svc : Services)
    (r : AppState) (image : jsstring) : list Update :=
  match snd (tryBlock PRODUCTS svc r image) with
  | Rejected err => catchBlock r err
  | Resolved _ => []
  end.

(** [err.message || "Could not process the design. ..."]. *)
Definition shownMessage (err : Thrown) : jsstring :=
  if truthyOpt (messageOf err) then interpolate (messageOf err)
  else lit "Could not process the design. Please try another image.".

(** A setter call that leaves the loading flag as it is. *)
Definition KeepsLoading (u : Update) : Prop :=
  forall s, isLoading (u s) = isLoading s.

(** ** The event loop *)

(** A setter call writes a staged asset whole: it leaves the asset as it
    is, or gives it a status and an image that fit each other. *)
Definition writesAssetsWhole (u : Update) : Prop :=
  forall s,
    (clonedDesign (u s) = clonedDesign s \/ assetOk (clonedDesign (u s)))
    /\ (removedBgDesign (u s) = removedBgDesign s
        \/ assetOk (removedBgDesign (u s)))
    /\ (resizedDesign (u s) = resizedDesign s
        \/ assetOk (resizedDesign (u s))).

(** No mockup item of one of the products [ids] has an image. *)
Definition NoImageAt (ids : list jsstring) (s : AppState) : Prop :=
  Forall (fun m => In (Mockup.id m) ids -> Mockup.imageUrl m = None)
         (mockups s).

(** The setter calls of a turn keep the invariant at every step, when no
    item of the products [ids] has an image at its start, and leave no
    item of the products [ids'] with one. *)
Definition TurnSafe (ids ids' : list jsstring) (us : list Update) : Prop :=
  forall s, stateOk s -> NoImageAt ids s ->
            Forall stateOk (trace s us) /\ NoImageAt ids' (run s us).

(** The setter calls of a turn leave the selection alone and write the
    staged assets whole. *)
Definition Quiet (us : list Update) : Prop :=
  Forall KeepsSelection us /\ Forall writesAssetsWhole us.

(** The turns a run has still to take: each is safe given what the one
    before leaves, the last one clears the loading flag and the others
    leave it alone. *)
Inductive Pending : list jsstring -> list EventLoop.Turn -> Prop :=
| Pending_last (ids : list jsstring) (t : EventLoop.Turn) :
    TurnSafe ids [] (EventLoop.setters t) ->
    Quiet (EventLoop.setters t) ->
    (forall s, isLoading (run s (EventLoop.setters t)) = false) ->
    Pending ids [t]
| Pending_more (ids ids' : list jsstring) (t : EventLoop.Turn)
    (later : list EventLoop.Turn) :
    TurnSafe ids ids' (EventLoop.setters t) ->
    Quiet (EventLoop.setters t) ->
    Forall KeepsLoading (EventLoop.setters t) ->
    Pending ids' later ->
    Pending ids (t :: later).

(** The invariant of the application between two turns. *)
Definition loopOk (l : EventLoop.Loop) : Prop :=
  stateOk (EventLoop.current l)
  /\ NoDup (selectedProducts (EventLoop.current l))
  /\ match EventLoop.running l with
     | [] => isLoading (EventLoop.current l) = false
     | [later] =>
         isLoading (EventLoop.current l) = true
         /\ exists ids, Pending ids later /\ NoImageAt ids (EventLoop.current l)
     | _ => False
     end.

(** A text without the character that opens a tag. *)
Definition tagFree (s : jsstring) : Prop := Forall (fun c => c <> 60%N) s.

(** The answer format the instruction text asks the model for: an analysis
    block and a final-prompt block, with text around them. *)
Definition documentedAnswer (intro analysis between prompt after : jsstring)
  : jsstring :=
  intro ++ lit "<analysis>" ++ analysis ++ lit "</analysis>" ++ between
    ++ lit "<final_prompt>" ++ prompt ++ lit "</final_prompt>" ++ after.

Module Samples.

(** A product table, four selected products, and the state after a first
    upload. *)
Definition PRODUCTS (productId : jsstring) : Product :=
  {| productName := lit "Product " ++ productId;
     productPrompt := lit "Place the design on product " ++ productId |}.

Definition uploaded : AppState :=
  run (initialState [lit "A"; lit "B"; lit "C"; lit "D"] (Some (lit "key")) None)
      (processImageFile (lit "image/png")
         (Resolved (lit "data:image/png;base64,AAAA"))).

(** Services whose critical path goes through up to the stage named by
    [failing] (1 the clone, 2 the background removal, 3 the resize, none
    for anything else), and whose mockup call for product C is rejected; the
    calls settle in the order D, C, B, A. *)
Definition services (failing : nat) : Services :=
  {| analyzeImageColor := fun _ _ => Resolved (lit "#1A2B3C");
     cloneDesign := fun _ _ _ =>
       if failing =? 1 then Rejected (Error (lit "clone refused"))
       else Resolved (lit "data:image/png;base64,CLONE");
     removeBackground := fun _ _ =>
       if failing =? 2 then Rejected (Error (lit "Background removal failed. Status: 500"))
       else Resolved (lit "data:image/png;base64,CUTOUT");
     resizeDesign := fun _ =>
       if failing =? 3 then Rejected (Error (lit "Failed to load image for resizing."))
       else Resolved (lit "data:image/png;base64,PRINT");
     createMockup := fun productId _ _ _ _ _ =>
       if eqb productId (lit "C") then Rejected (Error (lit "no image"))
       else Resolved (lit "data:image/png;base64,MOCKUP-" ++ productId);
     settleTime := fun productId =>
       match productId with [c] => 100 - N.to_nat c | _ => 0 end |}.

(** A response that is blocked and carries an image all the same. *)
Definition blockedWithImage : GenerateContentResponse :=
  {| promptFeedback :=
       Some {| blockReason := Some (lit "SAFETY");
               blockReasonMessage := None;
               safetyRatings := None |};
     candidates :=
       Some [ {| content :=
                   Some {| parts :=
                     Some [ {| inlineData :=
                                 Some {| mimeType := Some (lit "image/png");
                                         data := Some (lit "iVBORw0KGgo=") |};
                               text := None |} ] |} |} ];
     response_text := None |}.

(** A response that carries an image and nothing against it. *)
Definition imageAnswer : GenerateContentResponse :=
  {| promptFeedback := None;
     candidates :=
       Some [ {| content :=
                   Some {| parts :=
                     Some [ {| inlineData := None;
                               text := Some (lit "Here is the design.") |};
                            {| inlineData :=
                                 Some {| mimeType := Some (lit "image/jpeg");
                                         data := Some (lit "iVBORw0KGgo=") |};
                               text := None |} ] |} |} ];
     response_text := Some (lit "Here is the design.") |}.

(** An answer in the format asked for. *)
Definition documented : GenerateContentResponse :=
  {| promptFeedback := None;
     candidates := None;
     response_text :=
       Some (documentedAnswer [] (lit "Light shirt.") [10]%N
               ([10]%N ++ lit "A red fox, flat style, on a solid white background"
                  ++ [10]%N)
               [10]%N) |}.

(** An answer without tags, and one whose final prompt is empty. *)
Definition untagged : GenerateContentResponse :=
  {| promptFeedback := None;
     candidates := None;
     response_text :=
       Some ([32]%N ++ lit "A red fox on a solid white background" ++ [10]%N) |}.

Definition emptyFinalPrompt : GenerateContentResponse :=
  {| promptFeedback := None;
     candidates := None;
     response_text :=
       Some (documentedAnswer [] (lit "Unclear image.") [10]%N [] []) |}.

(** A response that carries an image, with a safety rating of probability
    HIGH that names no category. *)
Definition ratedWithoutCategory : GenerateContentResponse :=
  {| promptFeedback :=
       Some {| blockReason := None;
               blockReasonMessage := None;
               safetyRatings :=
                 Some [ {| category := Some (lit "HARM_CATEGORY_HARASSMENT");
                           probability := Some (lit "NEGLIGIBLE") |};
                        {| category := None;
                           probability := Some (lit "HIGH") |} ] |};
     candidates := candidates imageAnswer;
     response_text := None |}.

(** A response with a rating of probability MEDIUM that names its
    category. *)
Definition ratedMedium : GenerateContentResponse :=
  {| promptFeedback :=
       Some {| blockReason := None;
               blockReasonMessage := None;
               safetyRatings :=
                 Some [ {| category := Some (lit "HARM_CATEGORY_HATE_SPEECH");
                           probability := Some (lit "MEDIUM") |} ] |};
     candidates := candidates imageAnswer;
     response_text := None |}.

(** An answer that has an analysis block and no final-prompt block. *)
Definition analysisOnly : GenerateContentResponse :=
  {| promptFeedback := None;
     candidates := None;
     response_text :=
       Some (lit "<analysis>Light shirt.</analysis>" ++ [10]%N
               ++ lit "A red fox") |}.

(** A backend that answers the text model without text and the image model
    with an image. *)
Definition textlessThenImage (request : ContentRequest)
  : Settled Thrown GenerateContentResponse :=
  if eqb (model request) (lit "gemini-2.5-flash")
  then Resolved {| promptFeedback := None; candidates := Some [];
                   response_text := None |}
  else Resolved imageAnswer.

(** A backend that answers the colour question with a word. *)
Definition wordyColor (request : ContentRequest)
  : Settled Thrown GenerateContentResponse :=
  Resolved {| promptFeedback := None; candidates := None;
              response_text := Some (lit " dark red ") |}.

(** A browser that loads every image as one of 10 by 21 pixels. *)
Definition loadImage (image : jsstring) : option (N * N) := Some (10, 21)%N.

Definition getContext (contextId : jsstring) : bool := true.

Definition toDataURL (canvas : Canvas) (type : jsstring) : jsstring :=
  lit "data:image/png;base64,PRINT".

(** The state after a run all of whose stages succeeded, and a details
    service that answers, and one that refuses. *)
Definition processed : AppState :=
  run uploaded (handleGenerateClick PRODUCTS (services 0) uploaded).

Definition details : ProductDetails :=
  {| title := lit "Red fox"; description := lit "A fox."; tags := lit "fox,red" |}.

Definition describing (apiKey image : jsstring) : Settled Thrown ProductDetails :=
  Resolved details.

Definition overQuota (apiKey image : jsstring) : Settled Thrown ProductDetails :=
  Rejected (Error (lit "quota exceeded")).

(** A session: an upload, a click, a paste and a product click while the
    run is in progress, and the run taken to its end. *)
Definition session : list EventLoop.Event :=
  [ EventLoop.Upload (lit "image/png") (Resolved (lit "data:image/png;base64,AAAA"));
    EventLoop.ClickGenerate (services 0);
    EventLoop.Resume 0;
    EventLoop.Upload (lit "image/png") (Resolved (lit "data:image/png;base64,BBBB"));
    EventLoop.Resume 0;
    EventLoop.SelectProduct (lit "B");
    EventLoop.ClickGenerate (services 0);
    EventLoop.Resume 0;
    EventLoop.Resume 0;
    EventLoop.Resume 0;
    EventLoop.Resume 0;
    EventLoop.Resume 0;
    EventLoop.Resume 0;
    EventLoop.Resume 0 ].

(** The state after the upload with two more products selected. *)
Definition sixSelected : AppState :=
  run uploaded (handleProductSelect (lit "E") ++ handleProductSelect (lit "F")).

(** A backend that answers every request with a cut-out, and a reader that
    reads it. *)
Definition acceptingFetch (request : FetchRequest)
  : Settled Thrown FetchResponse :=
  Resolved {| status := 200;
              responseBodyText := Resolved [];
              responseBodyBlob :=
                Resolved {| bytes := [137; 80; 78; 71]%N;
                            blobType := lit "image/png" |} |}.

Definition reader (b : Blob) : Settled Thrown jsstring :=
  Resolved (lit "data:image/png;base64,CUTOUT").

(** A response to a blocked prompt: no candidate, no text. *)
Definition blockedPrompt : GenerateContentResponse :=
  {| promptFeedback :=
       Some {| blockReason := Some (lit "OTHER");
               blockReasonMessage := None;
               safetyRatings := None |};
     candidates := Some [];
     response_text := None |}.

(** A browser whose [atob] decodes everything to no bytes and whose reader
    always fails, and a backend that refuses every request. *)
Definition atob (s : jsstring) : Settled Thrown (list N) := Resolved [].

Definition readAsDataURL (b : Blob) : Settled Thrown jsstring :=
  Rejected (Foreign None).

Definition refused : FetchResponse :=
  {| status := 402;
     responseBodyText := Resolved (lit "quota exceeded");
     responseBodyBlob := Rejected (Foreign None) |}.

Definition refusingFetch (request : FetchRequest)
  : Settled Thrown FetchResponse := Resolved refused.

End Samples.

(* ================================================================== *)
(** * Properties *)
(* ================================================================== *)

Unset Implicit Arguments.

(** ** Strings *)

Lemma eqb_eq (a b : jsstring) : eqb a b = true <-> a = b.
Proof.
  revert b. induction a as [|x a IH]; intros [|y b]; simpl;
    try (split; [discriminate | discriminate]); try tauto.
  rewrite andb_true_iff, N.eqb_eq, IH.
  split; [intros [-> ->]; reflexivity | intros H; inversion H; auto].
Qed.

Lemma eqb_refl (a : jsstring) : eqb a a = true.
Proof. apply eqb_eq. reflexivity. Qed.

Lemma eqb_neq (a b : jsstring) : eqb a b = false <-> a <> b.
Proof.
  rewrite <- eqb_eq. destruct (eqb a b); split; congruence.
Qed.

Lemma matchesCI_length (s pat : jsstring) :
  matchesCI s pat = true -> length s = length pat.
Proof.
  revert pat. induction s as [|x s IH]; intros [|y pat]; simpl;
    try discriminate; auto.
  rewrite andb_true_iff. intros [_ H]. f_equal. auto.
Qed.

Lemma startsWith_app (p s : jsstring) : startsWith (p ++ s) p = true.
Proof.
  induction p as [|x p IH]; simpl; [reflexivity|].
  rewrite N.eqb_refl. exact IH.
Qed.

Lemma endsWith_app (s p : jsstring) : endsWith (s ++ p) p = true.
Proof. unfold endsWith. rewrite rev_app_distr. apply startsWith_app. Qed.

(** ** The background clause of the clone prompt *)

Lemma backgroundInstructionAt_length (m : jsstring) :
  backgroundInstructionAt m = true -> length m = 28.
Proof.
  unfold backgroundInstructionAt. rewrite orb_true_iff.
  intros [H|H]; apply matchesCI_length in H; exact H.
Qed.

(** The search finds a clause that ends the prompt, where it starts. *)
Lemma backgroundInstructionExec_app (p m : jsstring) (i : nat) :
  backgroundInstructionAt m = true ->
  backgroundInstructionExec (p ++ m) i = Some (i + length p, m).
Proof.
  intros Hm. revert i. induction p as [|a p IH]; intros i.
  - rewrite Nat.add_0_r. simpl app.
    destruct m; cbn [backgroundInstructionExec]; rewrite Hm; reflexivity.
  - change ((a :: p) ++ m) with (a :: (p ++ m)).
    cbn [backgroundInstructionExec].
    destruct (backgroundInstructionAt (a :: p ++ m)) eqn:E.
    + apply backgroundInstructionAt_length in E.
      apply backgroundInstructionAt_length in Hm.
      simpl in E. rewrite length_app in E. lia.
    + rewrite IH. simpl. f_equal. f_equal. lia.
Qed.

(** The search fails when no suffix of the prompt is a clause. *)
Lemma backgroundInstructionExec_none (s : jsstring) (i : nat) :
  (forall rest clause, s = rest ++ clause ->
                       backgroundInstructionAt clause = false) ->
  backgroundInstructionExec s i = None.
Proof.
  revert i. induction s as [|a s IH]; intros i H.
  - cbn [backgroundInstructionExec]. rewrite (H [] [] eq_refl). reflexivity.
  - cbn [backgroundInstructionExec].
    rewrite (H [] (a :: s) eq_refl).
    apply IH. intros rest clause ->. apply (H (a :: rest) clause). reflexivity.
Qed.

Lemma backgroundInstructionRemove_app (p m : jsstring) :
  backgroundInstructionAt m = true ->
  backgroundInstructionRemove (p ++ m) = p.
Proof.
  intros Hm. unfold backgroundInstructionRemove, backgroundInstructionMatch.
  rewrite backgroundInstructionExec_app by exact Hm. simpl.
  rewrite firstn_app, firstn_all, Nat.sub_diag, firstn_0, app_nil_r.
  rewrite skipn_all2 by (rewrite length_app; lia).
  apply app_nil_r.
Qed.

(** C3, as worded, fails: a prompt whose closing clause does not follow a
    blank ends with the clause, yet the composed prompt ends with the
    instructions, not with the clause. *)
Lemma composeClonePrompt_clause_after_comma :
  endsWithWordedClause (lit "Bold logo,on a solid black background") = true
  /\ hasInstructions (Some (lit "make it red")) = true
  /\ composeClonePrompt (lit "Bold logo,on a solid black background")
       (Some (lit "make it red"))
     = lit "Bold logo,on a solid black background" ++ [10; 10]%N
         ++ lit "Additional instructions: make it red"
  /\ endsWithWordedClause
       (composeClonePrompt (lit "Bold logo,on a solid black background")
          (Some (lit "make it red"))) = false.
Proof. vm_compute. repeat split. Qed.

(** C3, amended: the recognized clause is the text with its leading blank,
    [" on a solid black background"] or [" on a solid white background"] in
    any letter case.  With instructions that are not blank, a prompt that
    ends with such a clause is composed as: the text before the clause, a
    period unless that text ends with one, [" Additional instructions: "],
    the instructions, the clause as it was; a prompt no suffix of which is
    such a clause is followed by a blank line, ["Additional instructions: "]
    and the instructions. *)
Theorem composeClonePrompt_keeps_background (base instr : jsstring) :
  hasInstructions (Some instr) = true ->
  (forall rest clause,
      base = rest ++ clause ->
      backgroundInstructionAt clause = true ->
      composeClonePrompt base (Some instr)
      = rest ++ (if endsWith rest (lit ".") then [] else lit ".")
          ++ lit " Additional instructions: " ++ instr ++ clause
      /\ endsWith (composeClonePrompt base (Some instr)) clause = true)
  /\ ((forall rest clause,
          base = rest ++ clause -> backgroundInstructionAt clause = false) ->
      composeClonePrompt base (Some instr)
      = base ++ [10; 10]%N ++ lit "Additional instructions: " ++ instr).
Proof.
  intros Hi. split.
  - intros rest clause -> Hc.
    assert (E : composeClonePrompt (rest ++ clause) (Some instr)
                = rest ++ (if endsWith rest (lit ".") then [] else lit ".")
                    ++ lit " Additional instructions: " ++ instr ++ clause).
    { unfold composeClonePrompt. rewrite Hi.
      unfold backgroundInstructionMatch.
      rewrite backgroundInstructionExec_app by exact Hc.
      rewrite backgroundInstructionRemove_app by exact Hc.
      reflexivity. }
    split; [exact E|].
    rewrite E, !app_assoc. apply endsWith_app.
  - intros Hnone. unfold composeClonePrompt. rewrite Hi.
    unfold backgroundInstructionMatch.
    rewrite backgroundInstructionExec_none by exact Hnone.
    reflexivity.
Qed.

Lemma composeClonePrompt_keeps_background_witness :
  composeClonePrompt (lit "Retro sun. on a solid White background")
    (Some (lit "add stars"))
  = lit "Retro sun. Additional instructions: add stars on a solid White background"
  /\ composeClonePrompt (lit "Retro sun on a solid black background")
       (Some (lit "add stars"))
     = lit "Retro sun. Additional instructions: add stars on a solid black background"
  /\ composeClonePrompt (lit "Retro sun") (Some (lit "add stars"))
     = lit "Retro sun" ++ [10; 10]%N ++ lit "Additional instructions: add stars".
Proof.
  split; [|split].
  - exact (proj1 (proj1 (composeClonePrompt_keeps_background
             (lit "Retro sun. on a solid White background")
             (lit "add stars") eq_refl)
           (lit "Retro sun.") (lit " on a solid White background")
           eq_refl eq_refl)).
  - exact (proj1 (proj1 (composeClonePrompt_keeps_background
             (lit "Retro sun on a solid black background")
             (lit "add stars") eq_refl)
           (lit "Retro sun") (lit " on a solid black background")
           eq_refl eq_refl)).
  - apply (proj2 (composeClonePrompt_keeps_background
             (lit "Retro sun") (lit "add stars") eq_refl)).
    intros rest clause E.
    destruct (backgroundInstructionAt clause) eqn:Hc; [|reflexivity].
    apply backgroundInstructionAt_length in Hc.
    apply (f_equal (@length N)) in E. rewrite length_app in E.
    simpl in E. lia.
Defined.

(** ** The classification of a generated response *)

Lemma find_first {A} (f : A -> bool) (before : list A) (x : A) (after : list A) :
  Forall (fun y => f y = false) before -> f x = true ->
  find f (before ++ x :: after) = Some x.
Proof.
  induction 1 as [|y before Hy _ IH]; intros Hx; simpl.
  - rewrite Hx. reflexivity.
  - rewrite Hy. auto.
Qed.

Lemma find_none_Forall {A} (f : A -> bool) (l : list A) :
  Forall (fun y => f y = false) l -> find f l = None.
Proof. induction 1 as [|y l Hy _ IH]; simpl; [|rewrite Hy]; auto. Qed.

(** What [generateImage] answers once the key guard has passed and the call
    has come back with [response]. *)
Lemma generateImage_classifies generateContent toLowerCase apiKey prompt image
    response :
  truthy apiKey = true ->
  generateContent
    {| model := lit "gemini-2.5-flash-image-preview";
       contents := [getImagePart image; textPart prompt];
       responseModalities := Some [lit "IMAGE"; lit "TEXT"] |}
  = Resolved response ->
  generateImage generateContent toLowerCase apiKey prompt image
  = classifyResponse toLowerCase response.
Proof.
  intros Hk Hr. unfold generateImage, getAiClient. rewrite Hk, Hr. reflexivity.
Qed.

(** The accessors of the code against the fields of the response. *)
Lemma blockReasonOf_notBlocked (response : GenerateContentResponse) :
  truthyOpt (blockReasonOf response) = false <-> notBlocked response.
Proof.
  unfold blockReasonOf, notBlocked.
  destruct (promptFeedback response) as [fb|].
  - destruct (blockReason fb) as [[|c reason]|] eqn:E; simpl.
    + split; [|reflexivity]. intros _ fb' reason H1 H2.
      injection H1 as <-. congruence.
    + split; [discriminate|]. intros H.
      specialize (H fb (c :: reason) eq_refl E). discriminate.
    + split; [|reflexivity]. intros _ fb' reason H1 H2.
      injection H1 as <-. congruence.
  - split; [|reflexivity]. intros _ fb reason H. discriminate.
Qed.

Lemma isHarmful_highOrMedium (rating : SafetyRating) :
  isHarmful rating = true <-> highOrMedium rating.
Proof.
  unfold isHarmful, highOrMedium.
  destruct (probability rating) as [p|].
  - cbn [existsb]. rewrite !orb_true_iff, !eqb_eq. split.
    + intros [->|[->|H]]; [left | right | discriminate]; reflexivity.
    + intros [H|H]; injection H as ->; auto.
  - split; [discriminate | intros [H|H]; discriminate].
Qed.

Lemma isHarmful_not (rating : SafetyRating) :
  isHarmful rating = false <-> ~ highOrMedium rating.
Proof.
  rewrite <- isHarmful_highOrMedium.
  destruct (isHarmful rating); split; congruence.
Qed.

Lemma Forall_isHarmful_not (ratings : list SafetyRating) :
  Forall (fun r => isHarmful r = false) ratings
  <-> Forall (fun r => ~ highOrMedium r) ratings.
Proof.
  rewrite !Forall_forall. split; intros H r Hr; apply isHarmful_not; auto.
Qed.

Lemma find_split {A} (f : A -> bool) (l : list A) (x : A) :
  find f l = Some x ->
  exists before after,
    l = before ++ x :: after
    /\ Forall (fun y => f y = false) before /\ f x = true.
Proof.
  induction l as [|y l IH]; simpl; [discriminate|].
  destruct (f y) eqn:E.
  - intros H. injection H as <-. exists [], l. repeat split; auto.
  - intros H. destruct (IH H) as [before [after [-> [Hb Hx]]]].
    exists (y :: before), after. repeat split; auto.
Qed.

Lemma find_none_all {A} (f : A -> bool) (l : list A) :
  find f l = None -> Forall (fun y => f y = false) l.
Proof.
  intros H. apply Forall_forall. intros y Hy.
  exact (find_none f l H y Hy).
Qed.

Lemma harmfulRatingOf_first (response : GenerateContentResponse)
    (rating : SafetyRating) :
  harmfulRatingOf response = Some rating <-> firstHighOrMedium response rating.
Proof.
  unfold harmfulRatingOf, firstHighOrMedium. split.
  - destruct (promptFeedback response) as [fb|]; [|discriminate].
    destruct (safetyRatings fb) as [ratings|] eqn:E; [|discriminate].
    intros H. apply find_split in H.
    destruct H as [before [after [-> [Hb Hx]]]].
    exists fb, before, after. repeat split; auto.
    + apply Forall_isHarmful_not. exact Hb.
    + apply isHarmful_highOrMedium. exact Hx.
  - intros [fb [before [after [-> [-> [Hb Hx]]]]]].
    apply find_first.
    + apply Forall_isHarmful_not. exact Hb.
    + apply isHarmful_highOrMedium. exact Hx.
Qed.

Lemma harmfulRatingOf_none (response : GenerateContentResponse) :
  harmfulRatingOf response = None <-> noHighOrMedium response.
Proof.
  unfold harmfulRatingOf, noHighOrMedium. split.
  - intros H fb ratings Hf Hr. rewrite Hf, Hr in H.
    apply Forall_isHarmful_not. apply find_none_all. exact H.
  - intros H. destruct (promptFeedback response) as [fb|]; [|reflexivity].
    destruct (safetyRatings fb) as [ratings|] eqn:E; [|reflexivity].
    apply find_none_Forall. apply Forall_isHarmful_not.
    exact (H fb ratings eq_refl E).
Qed.

Lemma partsOf_first (response : GenerateContentResponse) (ps : list Part) :
  partsOf response = Some ps <-> firstCandidateParts response ps.
Proof.
  unfold partsOf, firstCandidateParts. split.
  - destruct (candidates response) as [[|candidate others]|]; try discriminate.
    destruct (content candidate) as [c|] eqn:E; [|discriminate].
    intros H. exists candidate, others, c. auto.
  - intros [candidate [others [c [-> [-> H]]]]]. exact H.
Qed.

Lemma noParts_without (response : GenerateContentResponse) :
  noParts (partsOf response) = true <-> withoutParts response.
Proof.
  unfold withoutParts. split.
  - intros H ps Hps. apply partsOf_first in Hps. rewrite Hps in H.
    destruct ps; [reflexivity | discriminate].
  - intros H. destruct (partsOf response) as [[|p ps]|] eqn:E; try reflexivity.
    apply partsOf_first in E. specialize (H _ E). discriminate.
Qed.

Lemma hasInlineData_none (ps : list Part) :
  Forall (fun p => hasInlineData p = false) ps
  <-> Forall (fun p => inlineData p = None) ps.
Proof.
  rewrite !Forall_forall. unfold hasInlineData.
  split; intros H p Hp; specialize (H p Hp);
    destruct (inlineData p); congruence.
Qed.

Lemma hasText_textless (ps : list Part) :
  Forall (fun p => hasText p = false) ps <-> Forall textless ps.
Proof.
  rewrite !Forall_forall. unfold hasText, textless.
  split; intros H p Hp; specialize (H p Hp).
  - destruct (text p) as [[|c t]|]; auto. discriminate.
  - destruct H as [->| ->]; reflexivity.
Qed.

(** The traced functions settle as the functions of the service modules
    do. *)
Lemma Traced_extractDesignPrompt_answer generateContent SYSTEM_INSTRUCTION
    apiKey image :
  answer (Traced.extractDesignPrompt generateContent SYSTEM_INSTRUCTION
            apiKey image)
  = DesignExtractor.extractDesignPrompt generateContent SYSTEM_INSTRUCTION
      apiKey image.
Proof.
  unfold Traced.extractDesignPrompt, DesignExtractor.extractDesignPrompt,
    andThen, told, Traced.ask.
  destruct (getAiClient apiKey); cbn [answer]; [|reflexivity].
  destruct (generateContent _); cbn [answer]; reflexivity.
Qed.

Lemma Traced_analyzeImageColor_answer generateContent apiKey image :
  answer (Traced.analyzeImageColor generateContent apiKey image)
  = GeminiService.analyzeImageColor generateContent apiKey image.
Proof.
  unfold Traced.analyzeImageColor, GeminiService.analyzeImageColor,
    andThen, told, Traced.ask.
  destruct (getAiClient apiKey); cbn [answer]; [|reflexivity].
  destruct (generateContent _); cbn [answer]; reflexivity.
Qed.

Lemma Traced_generateImage_answer generateContent toLowerCase apiKey prompt
    image :
  answer (Traced.generateImage generateContent toLowerCase apiKey prompt image)
  = generateImage generateContent toLowerCase apiKey prompt image.
Proof.
  unfold Traced.generateImage, generateImage, andThen, told, Traced.ask.
  destruct (getAiClient apiKey); cbn [answer]; [|reflexivity].
  destruct (generateContent _); cbn [answer]; reflexivity.
Qed.

Lemma Traced_cloneDesign_answer generateContent toLowerCase SYSTEM_INSTRUCTION
    apiKey image instructions :
  answer (Traced.cloneDesign generateContent toLowerCase SYSTEM_INSTRUCTION
            apiKey image instructions)
  = GeminiService.cloneDesign generateContent toLowerCase SYSTEM_INSTRUCTION
      apiKey image instructions.
Proof.
  unfold Traced.cloneDesign, GeminiService.cloneDesign, andThen.
  rewrite Traced_extractDesignPrompt_answer.
  destruct (DesignExtractor.extractDesignPrompt _ _ _ _); cbn [answer];
    [apply Traced_generateImage_answer | reflexivity].
Qed.

Lemma Traced_createMockup_answer generateContent toLowerCase apiKey image
    productPrompt color instructions :
  answer (Traced.createMockup generateContent toLowerCase apiKey image
            productPrompt color instructions)
  = GeminiService.createMockup generateContent toLowerCase apiKey image
      productPrompt color instructions.
Proof. apply Traced_generateImage_answer. Qed.

(** The requests of [generateImage]: none without a key, else the one. *)
Lemma Traced_generateImage_asked generateContent toLowerCase apiKey prompt
    image :
  asked (Traced.generateImage generateContent toLowerCase apiKey prompt image)
  = if truthy apiKey then [imageRequest prompt image] else [].
Proof.
  unfold Traced.generateImage, andThen, told, Traced.ask, getAiClient.
  destruct (truthy apiKey); cbn [negb answer asked]; [|reflexivity].
  destruct (generateContent _); cbn [answer asked app]; reflexivity.
Qed.

(** C4, where the code departs from it: when the first safety rating of
    probability HIGH or MEDIUM names no category (the SDK declares the
    field optional), the scan of the ratings does not fail the call with the
    filtered-content error: [harmfulRating.category.replace] throws a
    TypeError, whatever else the response carries. *)
Theorem generateImage_rating_without_category
    generateContent toLowerCase apiKey prompt image response rating :
  truthy apiKey = true ->
  generateContent (imageRequest prompt image) = Resolved response ->
  notBlocked response ->
  firstHighOrMedium response rating ->
  category rating = None ->
  generateImage generateContent toLowerCase apiKey prompt image
  = Rejected (TypeError
                (lit "Cannot read properties of undefined (reading 'replace')")).
Proof.
  intros Hk Hr Hnb Hfirst Hc.
  rewrite (generateImage_classifies _ _ _ _ _ response Hk Hr).
  unfold classifyResponse.
  rewrite (proj2 (blockReasonOf_notBlocked response) Hnb).
  rewrite (proj2 (harmfulRatingOf_first response rating) Hfirst).
  rewrite Hc. reflexivity.
Qed.

Lemma generateImage_rating_without_category_witness :
  generateImage (fun _ => Resolved Samples.ratedWithoutCategory) JS.toLowerCase
    (lit "key") (lit "a mug") (lit "data:image/png;base64,AAAA")
  = Rejected (TypeError
                (lit "Cannot read properties of undefined (reading 'replace')")).
Proof.
  refine (generateImage_rating_without_category
            (fun _ => Resolved Samples.ratedWithoutCategory) JS.toLowerCase
            (lit "key") (lit "a mug") (lit "data:image/png;base64,AAAA")
            Samples.ratedWithoutCategory
            {| category := None; probability := Some (lit "HIGH") |}
            eq_refl eq_refl _ _ eq_refl).
  - intros feedback reason H1 H2. injection H1 as <-. discriminate H2.
  - eexists _, [_], []. split; [reflexivity|]. split; [reflexivity|].
    split; [|left; reflexivity].
    constructor; [|constructor]. intros [H|H]; discriminate H.
Defined.

(** ** The colour analysis *)

(** With a response that has text, [analyzeImageColor] always resolves:
    with the trimmed text when it is [#] and six hexadecimal digits, with the
    default colour otherwise. *)
Lemma analyzeImageColor_with_text generateContent apiKey image response t :
  truthy apiKey = true ->
  generateContent
    {| model := lit "gemini-2.5-flash";
       contents := [textPart colorPrompt; getImagePart image];
       responseModalities := None |} = Resolved response ->
  response_text response = Some t ->
  GeminiService.analyzeImageColor generateContent apiKey image
  = Resolved (if hexColorTest (trim t) then trim t else defaultColor).
Proof.
  intros Hk Hr Ht. unfold GeminiService.analyzeImageColor, getAiClient.
  rewrite Hk, Hr, Ht. reflexivity.
Qed.

(** The texts [hexColorTest] accepts. *)
Lemma hexColorTest_spec (color : jsstring) :
  hexColorTest color = true <->
  exists digits, color = 35%N :: digits /\ length digits = 6
                 /\ Forall (fun c => isHexDigitCI c = true) digits.
Proof.
  unfold hexColorTest. destruct color as [|c digits].
  - split; [discriminate | intros [d [H _]]; discriminate].
  - rewrite !andb_true_iff, N.eqb_eq, Nat.eqb_eq, forallb_forall.
    split.
    + intros [[-> Hl] Hd]. exists digits. rewrite Forall_forall. auto.
    + intros [d [E [Hl Hd]]]. inversion E; subst.
      rewrite Forall_forall in Hd. auto.
Qed.

(** C10, where the code departs from it: a response without text (the [text]
    getter gives [undefined], as [generateImage] allows for with
    [response.text?.trim()]) makes [analyzeImageColor] throw a TypeError,
    although the key is present and the model call itself has resolved. *)
Theorem analyzeImageColor_throws_without_text
    apiKey image feedback answers :
  truthy apiKey = true ->
  GeminiService.analyzeImageColor
    (fun _ => Resolved {| promptFeedback := feedback;
                          candidates := answers;
                          response_text := None |})
    apiKey image
  = Rejected undefinedTrim.
Proof.
  intros Hk. unfold GeminiService.analyzeImageColor, getAiClient. rewrite Hk. reflexivity.
Qed.

Lemma analyzeImageColor_throws_without_text_witness :
  GeminiService.analyzeImageColor (fun _ => Resolved Samples.blockedPrompt) (lit "key")
    (lit "data:image/png;base64,AAAA")
  = Rejected undefinedTrim.
Proof.
  exact (analyzeImageColor_throws_without_text (lit "key")
           (lit "data:image/png;base64,AAAA")
           (promptFeedback Samples.blockedPrompt) (Some []) eq_refl).
Defined.

(** ** Background removal *)

(** C7, as worded, fails: the message of the error for a refused request
    names the status only; the body the backend sent is written to the
    console and is no part of the message. *)
Lemma removeBackground_message_omits_body :
  settled (GeminiService.removeBackground Samples.atob Samples.refusingFetch
             Samples.readAsDataURL (lit "key") (lit "data:image/png;base64,AAAA"))
  = Rejected (Error (lit "Background removal failed. Status: 402"))
  /\ includes (lit "Background removal failed. Status: 402")
       (lit "quota exceeded") = false
  /\ consoleErrors (GeminiService.removeBackground Samples.atob Samples.refusingFetch
                      Samples.readAsDataURL (lit "key")
                      (lit "data:image/png;base64,AAAA"))
     = [[lit "Photoroom API Error:"; lit "quota exceeded"]].
Proof. vm_compute. repeat split. Qed.

(** C7, amended: [removeBackground] fails with the missing-credential error
    when the credential is empty, and sends nothing then; when the backend
    answers with a status outside 200..299 and its body can be read, it
    fails with an error whose message is
    ["Background removal failed. Status: "] and the status, whatever the
    body says, while the body is written to the console; and no call sends
    more than one request. *)
Theorem removeBackground_failures atob fetch readAsDataURL apiKey image :
  let ran := GeminiService.removeBackground atob fetch readAsDataURL apiKey image in
  (apiKey = [] ->
     settled ran = Rejected (Error (lit "Photoroom API key is missing."))
     /\ requests ran = [])
  /\ (forall imageBlob response errorText,
        apiKey <> [] ->
        base64ToBlob atob image (lit "image/png") = Resolved imageBlob ->
        fetch (segmentRequest apiKey imageBlob) = Resolved response ->
        ok response = false ->
        responseBodyText response = Resolved errorText ->
        settled ran
        = Rejected (Error (lit "Background removal failed. Status: "
                             ++ ofN (status response)))
        /\ consoleErrors ran = [[lit "Photoroom API Error:"; errorText]]
        /\ requests ran = [segmentRequest apiKey imageBlob])
  /\ length (requests ran) <= 1.
Proof.
  intros ran. subst ran. split; [|split].
  - intros ->. split; reflexivity.
  - intros imageBlob response errorText Hk Hb Hf Hok Ht.
    unfold GeminiService.removeBackground.
    destruct apiKey as [|c k]; [congruence|]. simpl negb. cbv iota.
    rewrite Hb. cbv zeta. rewrite Hf, Hok. simpl negb. cbv iota.
    rewrite Ht. repeat split.
  - unfold GeminiService.removeBackground.
    destruct (negb (truthy apiKey)); [simpl; lia|].
    destruct (base64ToBlob atob image (lit "image/png")); [|simpl; lia].
    cbv zeta.
    destruct (fetch _) as [response|]; [|simpl; lia].
    destruct (negb (ok response)).
    + destruct (responseBodyText response); simpl; lia.
    + destruct (responseBodyBlob response); simpl; lia.
Qed.

Lemma removeBackground_failures_witness :
  settled (GeminiService.removeBackground Samples.atob Samples.refusingFetch
             Samples.readAsDataURL [] (lit "data:image/png;base64,AAAA"))
  = Rejected (Error (lit "Photoroom API key is missing."))
  /\ settled (GeminiService.removeBackground Samples.atob Samples.refusingFetch
                Samples.readAsDataURL (lit "key")
                (lit "data:image/png;base64,AAAA"))
     = Rejected (Error (lit "Background removal failed. Status: 402")).
Proof.
  split.
  - exact (proj1 (proj1 (removeBackground_failures Samples.atob
             Samples.refusingFetch Samples.readAsDataURL []
             (lit "data:image/png;base64,AAAA")) eq_refl)).
  - refine (proj1 (proj1 (proj2 (removeBackground_failures Samples.atob
             Samples.refusingFetch Samples.readAsDataURL (lit "key")
             (lit "data:image/png;base64,AAAA")))
             {| bytes := []; blobType := lit "image/png" |}
             Samples.refused (lit "quota exceeded") _ eq_refl eq_refl eq_refl
             eq_refl)).
    discriminate.
Defined.

(** ** The orchestrator: running a handler *)

Arguments lit : simpl never.

Lemma run_app (s : AppState) (a b : list Update) :
  run s (a ++ b) = run (run s a) b.
Proof. apply fold_left_app. Qed.

Lemma trace_app_In (s : AppState) (a b : list Update) (x : AppState) :
  In x (trace s a) -> In x (trace s (a ++ b)).
Proof.
  revert s. induction a as [|u a IH]; intros s; simpl.
  - intros [<-|[]]. destruct b; simpl; auto.
  - intros [<-|H]; auto.
Qed.

Lemma trace_app_In_r (s : AppState) (a b : list Update) (x : AppState) :
  In x (trace (run s a) b) -> In x (trace s (a ++ b)).
Proof.
  revert s. induction a as [|u a IH]; intros s; simpl app.
  - auto.
  - intros H. cbn [trace]. right. apply IH. exact H.
Qed.

Lemma trace_Forall_app (P : AppState -> Prop) (s : AppState) (a b : list Update) :
  Forall P (trace s a) -> Forall P (trace (run s a) b) ->
  Forall P (trace s (a ++ b)).
Proof.
  revert s. induction a as [|u a IH]; intros s Ha Hb; simpl app.
  - exact Hb.
  - cbn [trace] in *. inversion Ha; subst. constructor; [assumption|].
    apply IH; assumption.
Qed.

(** ** The order in which concurrent calls settle *)

Lemma insertByTime_Permutation (t : jsstring -> nat) (x : jsstring)
    (l : list jsstring) :
  Permutation (insertByTime t x l) (x :: l).
Proof.
  induction l as [|y l IH]; simpl; [apply Permutation_refl|].
  destruct (t x <=? t y); [apply Permutation_refl|].
  eapply perm_trans; [apply perm_skip, IH | apply perm_swap].
Qed.

Lemma settleOrder_Permutation (t : jsstring -> nat) (l : list jsstring) :
  Permutation (settleOrder t l) l.
Proof.
  induction l as [|x l IH]; simpl; [constructor|].
  eapply perm_trans; [apply insertByTime_Permutation | apply perm_skip, IH].
Qed.

Lemma settleOrder_NoDup (t : jsstring -> nat) (l : list jsstring) :
  NoDup l -> NoDup (settleOrder t l).
Proof.
  intros H. eapply Permutation_NoDup; [|exact H].
  apply Permutation_sym, settleOrder_Permutation.
Qed.

Lemma insertByTime_sorted (t : jsstring -> nat) (x : jsstring)
    (l : list jsstring) :
  StronglySorted (fun a b => t a <= t b) l ->
  StronglySorted (fun a b => t a <= t b) (insertByTime t x l).
Proof.
  induction 1 as [|y l Hl IH Hy]; simpl.
  - repeat constructor.
  - destruct (t x <=? t y) eqn:E.
    + apply Nat.leb_le in E.
      constructor; [constructor; assumption|].
      constructor; [exact E|].
      eapply Forall_impl; [|exact Hy]. simpl. intros; lia.
    + apply Nat.leb_gt in E. constructor; [exact IH|].
      eapply Permutation_Forall;
        [apply Permutation_sym, insertByTime_Permutation|].
      constructor; [lia | exact Hy].
Qed.

Lemma settleOrder_sorted (t : jsstring -> nat) (l : list jsstring) :
  StronglySorted (fun a b => t a <= t b) (settleOrder t l).
Proof.
  induction l as [|x l IH]; simpl; [constructor|].
  apply insertByTime_sorted, IH.
Qed.

(** Two orderings of the same calls by settle times that tell the calls
    apart are the same ordering. *)
Lemma sorted_order_unique (t : jsstring -> nat) (l l' : list jsstring) :
  (forall a b, In a l -> In b l -> t a = t b -> a = b) ->
  StronglySorted (fun a b => t a <= t b) l ->
  StronglySorted (fun a b => t a <= t b) l' ->
  Permutation l l' -> l = l'.
Proof.
  revert l'. induction l as [|a l IH]; intros l' Hinj Hl Hl' Hp.
  - symmetry. apply Permutation_nil. exact Hp.
  - destruct l' as [|b l'].
    { apply Permutation_sym, Permutation_nil in Hp. discriminate. }
    apply StronglySorted_inv in Hl. destruct Hl as [Hl Ha].
    apply StronglySorted_inv in Hl'. destruct Hl' as [Hl' Hb].
    rewrite Forall_forall in Ha, Hb.
    assert (Hab : a = b).
    { assert (Hina : In a (b :: l'))
        by (eapply Permutation_in; [exact Hp | left; reflexivity]).
      assert (Hinb : In b (a :: l))
        by (eapply Permutation_in;
            [apply Permutation_sym, Hp | left; reflexivity]).
      destruct Hina as [E|Hina]; [auto|].
      destruct Hinb as [E|Hinb]; [auto|].
      apply Hinj; [left; reflexivity | right; exact Hinb |].
      specialize (Ha b Hinb). specialize (Hb a Hina). simpl in *. lia. }
    subst b. f_equal. apply IH; auto.
    + intros x y Hx Hy. apply Hinj; right; assumption.
    + eapply Permutation_cons_inv. exact Hp.
Qed.

Lemma position_inj (order : list jsstring) (a b : jsstring) :
  In a order -> In b order -> position a order = position b order -> a = b.
Proof.
  induction order as [|y order IH]; intros Ha Hb; [destruct Ha|]. simpl.
  destruct (eqb a y) eqn:Ea, (eqb b y) eqn:Eb; try discriminate.
  - apply eqb_eq in Ea, Eb. congruence.
  - intros E. injection E as E. apply eqb_neq in Ea, Eb.
    apply IH; [destruct Ha; congruence | destruct Hb; congruence | exact E].
Qed.

Lemma StronglySorted_impl_In {A} (R R' : A -> A -> Prop) (l : list A) :
  (forall x y, In x l -> In y l -> R x y -> R' x y) ->
  StronglySorted R l -> StronglySorted R' l.
Proof.
  intros H Hs. induction Hs as [|a l Hl IH Ha]; [constructor|].
  constructor.
  - apply IH. intros x y Hx Hy. apply H; right; assumption.
  - rewrite Forall_forall in *. intros y Hy.
    apply H; [left; reflexivity | right; exact Hy | apply Ha, Hy].
Qed.

Lemma position_sorted (order : list jsstring) :
  NoDup order ->
  StronglySorted (fun a b => position a order <= position b order) order.
Proof.
  induction 1 as [|a l Ha Hnd IH]; [constructor|].
  constructor.
  - apply (StronglySorted_impl_In
             (fun x y => position x l <= position y l)); [|exact IH].
    intros x y Hx Hy Hxy. simpl.
    assert (Ex : eqb x a = false)
      by (apply eqb_neq; intros ->; exact (Ha Hx)).
    assert (Ey : eqb y a = false)
      by (apply eqb_neq; intros ->; exact (Ha Hy)).
    rewrite Ex, Ey. lia.
  - rewrite Forall_forall. intros y _. simpl. rewrite eqb_refl. lia.
Qed.

(** Every order of the calls for distinct products is the order some settle
    times give. *)
Lemma settleOrder_position (order issued : list jsstring) :
  NoDup order -> Permutation order issued ->
  settleOrder (fun productId => position productId order) issued = order.
Proof.
  intros Hnd Hp. symmetry.
  apply (sorted_order_unique (fun productId => position productId order)).
  - intros a b. apply position_inj.
  - apply position_sorted, Hnd.
  - apply settleOrder_sorted.
  - eapply perm_trans; [exact Hp|].
    apply Permutation_sym, settleOrder_Permutation.
Qed.

Section Orchestrator.

Variable PRODUCTS : jsstring -> Product.
Variable svc : Services.

(** The handler of a render that can start is the start of the run, the
    [try] block, the [catch] block if the [try] block threw, and the
    [finally] block. *)
Lemma handleGenerateClick_runs (r : AppState) (image : jsstring) :
  canStart r image ->
  handleGenerateClick PRODUCTS svc r
  = startRun PRODUCTS r
    ++ fst (tryBlock PRODUCTS svc r image)
    ++ match snd (tryBlock PRODUCTS svc r image) with
       | Rejected err => catchBlock r err
       | Resolved _ => []
       end
    ++ finallyBlock.
Proof.
  intros [Hk [Hu Hi]]. unfold handleGenerateClick. rewrite Hk, Hu, Hi.
  reflexivity.
Qed.

Lemma startRun_mockups (r : AppState) :
  mockups (run r (startRun PRODUCTS r))
  = List.map (pendingMockup PRODUCTS) (selectedProducts r).
Proof.
  unfold startRun, run. simpl.
  destruct (selectedProducts r); reflexivity.
Qed.

(** C8, amended: at the start of a run, before any stage is called, the
    handler sets the cloned asset to [PENDING] and the background-removed
    and the resized asset to [IDLE], each without an image, and the mockups
    to one [PENDING] item per selected product, so to none when no product
    is selected. *)
Theorem startRun_statuses (r : AppState) (image : jsstring) :
  canStart r image ->
  (exists rest,
      handleGenerateClick PRODUCTS svc r = startRun PRODUCTS r ++ rest)
  /\ clonedDesign (run r (startRun PRODUCTS r)) = ClonedDesign.mk PENDING None
  /\ removedBgDesign (run r (startRun PRODUCTS r)) = ClonedDesign.mk IDLE None
  /\ resizedDesign (run r (startRun PRODUCTS r)) = ClonedDesign.mk IDLE None
  /\ mockups (run r (startRun PRODUCTS r))
     = List.map (pendingMockup PRODUCTS) (selectedProducts r)
  /\ (selectedProducts r = [] -> mockups (run r (startRun PRODUCTS r)) = []).
Proof.
  intros Hc. split; [|split; [|split; [|split; [|split]]]].
  - eexists. apply (handleGenerateClick_runs r image Hc).
  - unfold startRun, run. simpl.
    destruct (0 <? length (selectedProducts r)); reflexivity.
  - unfold startRun, run. simpl.
    destruct (0 <? length (selectedProducts r)); reflexivity.
  - unfold startRun, run. simpl.
    destruct (0 <? length (selectedProducts r)); reflexivity.
  - apply startRun_mockups.
  - intros E. rewrite startRun_mockups, E. reflexivity.
Qed.

(** C2, where the code departs from it: when the clone fails in a run
    started from a render whose cloned asset is not [PENDING] (as after an
    upload, or after a finished run), the run ends with the cloned asset
    still [PENDING]: the [catch] block tests the status the render had, not
    the one the run has set. *)
Theorem clone_failure_leaves_pending (r : AppState) (image color : jsstring)
    (err : Thrown) :
  canStart r image ->
  ClonedDesign.status (clonedDesign r) <> PENDING ->
  analyzeImageColor svc (geminiApiKey r) image = Resolved color ->
  cloneDesign svc (geminiApiKey r) image (instructionsToPass r) = Rejected err ->
  clonedDesign (run r (handleGenerateClick PRODUCTS svc r))
  = ClonedDesign.mk PENDING None
  /\ terminal (ClonedDesign.status
                 (clonedDesign (run r (handleGenerateClick PRODUCTS svc r))))
     = false.
Proof.
  intros Hc Hp Ha Hcl.
  rewrite (handleGenerateClick_runs r image Hc).
  unfold tryBlock. rewrite Ha, Hcl. cbn [bind call await fst snd app].
  unfold catchBlock, startRun, finallyBlock.
  destruct (ClonedDesign.status (clonedDesign r)); [| congruence | |];
    destruct (ClonedDesign.status (removedBgDesign r));
    destruct (ClonedDesign.status (resizedDesign r));
    destruct (0 <? length (selectedProducts r));
    split; reflexivity.
Qed.

(** C1, where the code departs from it: when the background removal
    succeeds and the resize then fails, in a run started from a render whose
    background-removed asset is not [SUCCESS] (as after an upload), the
    asset has been [SUCCESS] with its image during the run, and the run ends
    with it [FAILED] and without image. *)
Theorem resize_failure_discards_removedBg (r : AppState)
    (image color cloned transparent : jsstring) (err : Thrown) :
  canStart r image ->
  ClonedDesign.status (removedBgDesign r) <> SUCCESS ->
  analyzeImageColor svc (geminiApiKey r) image = Resolved color ->
  cloneDesign svc (geminiApiKey r) image (instructionsToPass r)
  = Resolved cloned ->
  removeBackground svc (photoroomApiKey r) cloned = Resolved transparent ->
  resizeDesign svc transparent = Rejected err ->
  (exists s, In s (trace r (handleGenerateClick PRODUCTS svc r))
             /\ removedBgDesign s = ClonedDesign.mk SUCCESS (Some transparent))
  /\ removedBgDesign (run r (handleGenerateClick PRODUCTS svc r))
     = ClonedDesign.mk FAILED None.
Proof.
  intros Hc Hp Ha Hcl Hbg Hrs.
  rewrite (handleGenerateClick_runs r image Hc).
  unfold tryBlock. rewrite Ha, Hcl. cbn [bind call await].
  rewrite Hbg. cbn [bind call await]. rewrite Hrs.
  cbn [bind call await fst snd app].
  split.
  - eexists. split.
    + apply trace_app_In_r.
      cbn [trace]. do 6 right. left. reflexivity.
    + reflexivity.
  - unfold catchBlock, startRun, finallyBlock.
    destruct (ClonedDesign.status (clonedDesign r));
      destruct (ClonedDesign.status (removedBgDesign r)); try congruence;
      destruct (ClonedDesign.status (resizedDesign r));
      destruct (0 <? length (selectedProducts r));
      reflexivity.
Qed.

(** *** The mockup stage *)

Lemma mockupSettled_settleIn (p : jsstring) (out : Settled Thrown jsstring) :
  mockupSettled p out = setMockups (List.map (settleIn p out)).
Proof. destruct out; reflexivity. Qed.

Lemma settleIn_id (p : jsstring) (out : Settled Thrown jsstring) (m : Mockup.t) :
  Mockup.id (settleIn p out m) = Mockup.id m.
Proof.
  unfold settleIn. destruct (eqb (Mockup.id m) p); [destruct out|]; reflexivity.
Qed.

(** A settled call leaves the items of the other products as they are. *)
Lemma settleIn_other (p : jsstring) (out : Settled Thrown jsstring) (m : Mockup.t) :
  Mockup.id m <> p -> settleIn p out m = m.
Proof.
  intros H. unfold settleIn. apply eqb_neq in H. rewrite H. reflexivity.
Qed.

Lemma settleAll_other (outcome : jsstring -> Settled Thrown jsstring)
    (order : list jsstring) (m : Mockup.t) :
  ~ In (Mockup.id m) order -> settleAll outcome order m = m.
Proof.
  revert m. induction order as [|p order IH]; intros m H; [reflexivity|].
  unfold settleAll in *. simpl.
  rewrite settleIn_other by (intros E; apply H; left; auto).
  apply IH. intros Hin. apply H. right. exact Hin.
Qed.

Lemma settleAll_pending (outcome : jsstring -> Settled Thrown jsstring)
    (order : list jsstring) (x : jsstring) :
  NoDup order -> In x order ->
  settleAll outcome order (pendingMockup PRODUCTS x)
  = settledMockup PRODUCTS x (outcome x).
Proof.
  induction 1 as [|p order Hp Hnd IH]; intros Hin; [destruct Hin|].
  change (settleAll outcome (p :: order) (pendingMockup PRODUCTS x))
    with (settleAll outcome order
            (settleIn p (outcome p) (pendingMockup PRODUCTS x))).
  destruct (eqb x p) eqn:E.
  - apply eqb_eq in E. subst p.
    assert (Hs : settleIn x (outcome x) (pendingMockup PRODUCTS x)
                 = settledMockup PRODUCTS x (outcome x)).
    { unfold settleIn, pendingMockup, settledMockup. simpl.
      rewrite eqb_refl. destruct (outcome x); reflexivity. }
    rewrite Hs. apply settleAll_other.
    destruct (outcome x); exact Hp.
  - rewrite settleIn_other by (simpl; apply eqb_neq; exact E).
    apply IH. destruct Hin as [->|Hin]; [|exact Hin].
    rewrite eqb_refl in E. discriminate.
Qed.

Lemma run_fanOut (outcome : jsstring -> Settled Thrown jsstring)
    (order : list jsstring) (s : AppState) :
  run s (fanOut outcome order)
  = setMockups (List.map (settleAll outcome order)) s.
Proof.
  revert s. induction order as [|p order IH]; intros s.
  - unfold setMockups. simpl.
    change (settleAll outcome []) with (fun m : Mockup.t => m).
    rewrite map_id. destruct s; reflexivity.
  - change (run s (fanOut outcome (p :: order)))
      with (run (mockupSettled p (outcome p) s) (fanOut outcome order)).
    rewrite IH, mockupSettled_settleIn. unfold setMockups. simpl.
    rewrite map_map. reflexivity.
Qed.

(** Whatever the order in which the calls for distinct products settle, the
    mockup stage turns the items the run started with into the settled
    ones. *)
Lemma fanOut_any_order (outcome : jsstring -> Settled Thrown jsstring)
    (order selection : list jsstring) (s : AppState) :
  NoDup order -> Permutation order selection ->
  mockups s = List.map (pendingMockup PRODUCTS) selection ->
  mockups (run s (fanOut outcome order))
  = List.map (fun productId => settledMockup PRODUCTS productId (outcome productId))
      selection.
Proof.
  intros Hnd Hperm Hm. rewrite run_fanOut. simpl. rewrite Hm, map_map.
  apply map_ext_in. intros x Hx. apply settleAll_pending; [exact Hnd|].
  eapply Permutation_in; [apply Permutation_sym, Hperm | exact Hx].
Qed.

(** The [try] block when the four stages before the mockups succeed. *)
Lemma tryBlock_success (r : AppState)
    (image color cloned transparent resized : jsstring) :
  analyzeImageColor svc (geminiApiKey r) image = Resolved color ->
  cloneDesign svc (geminiApiKey r) image (instructionsToPass r)
  = Resolved cloned ->
  removeBackground svc (photoroomApiKey r) cloned = Resolved transparent ->
  resizeDesign svc transparent = Resolved resized ->
  tryBlock PRODUCTS svc r image
  = (stageUpdates r cloned transparent resized
       ++ (if 0 <? length (selectedProducts r) then
             setLoadingMessage (lit "Creating mockups...")
             :: fanOut
                  (fun productId =>
                     createMockup svc productId (geminiApiKey r) resized
                       (productPrompt (PRODUCTS productId)) color
                       (instructionsToPass r))
                  (settleOrder (settleTime svc) (selectedProducts r))
           else []),
     Resolved tt).
Proof.
  intros Ha Hcl Hbg Hrs. unfold tryBlock.
  rewrite Ha, Hcl. cbn [bind call await].
  rewrite Hbg. cbn [bind call await]. rewrite Hrs. cbn [bind call await].
  destruct (0 <? length (selectedProducts r)); reflexivity.
Qed.

(** The end of a run whose stages before the mockups have succeeded. *)
Lemma run_success (r : AppState)
    (image color cloned transparent resized : jsstring) :
  canStart r image ->
  analyzeImageColor svc (geminiApiKey r) image = Resolved color ->
  cloneDesign svc (geminiApiKey r) image (instructionsToPass r)
  = Resolved cloned ->
  removeBackground svc (photoroomApiKey r) cloned = Resolved transparent ->
  resizeDesign svc transparent = Resolved resized ->
  run r (handleGenerateClick PRODUCTS svc r)
  = run (setMockups
           (List.map
              (settleAll
                 (fun productId =>
                    createMockup svc productId (geminiApiKey r) resized
                      (productPrompt (PRODUCTS productId)) color
                      (instructionsToPass r))
                 (if 0 <? length (selectedProducts r)
                  then settleOrder (settleTime svc) (selectedProducts r)
                  else [])))
           ((if 0 <? length (selectedProducts r)
             then setLoadingMessage (lit "Creating mockups...")
             else fun s => s)
              (run (run r (startRun PRODUCTS r))
                 (stageUpdates r cloned transparent resized))))
        finallyBlock.
Proof.
  intros Hc Ha Hcl Hbg Hrs.
  rewrite (handleGenerateClick_runs r image Hc).
  rewrite (tryBlock_success r image color cloned transparent resized
             Ha Hcl Hbg Hrs).
  cbn [fst snd]. rewrite !run_app.
  destruct (0 <? length (selectedProducts r)).
  - change (run ?s (setLoadingMessage ?m :: fanOut ?o ?l))
      with (run (setLoadingMessage m s) (fanOut o l)).
    rewrite run_fanOut. reflexivity.
  - rewrite <- (run_fanOut _ []). reflexivity.
Qed.

Lemma mockups_after_success (r : AppState)
    (image color cloned transparent resized : jsstring) :
  canStart r image ->
  NoDup (selectedProducts r) ->
  analyzeImageColor svc (geminiApiKey r) image = Resolved color ->
  cloneDesign svc (geminiApiKey r) image (instructionsToPass r)
  = Resolved cloned ->
  removeBackground svc (photoroomApiKey r) cloned = Resolved transparent ->
  resizeDesign svc transparent = Resolved resized ->
  mockups (run r (handleGenerateClick PRODUCTS svc r))
  = List.map
      (fun productId =>
         settledMockup PRODUCTS productId
           (createMockup svc productId (geminiApiKey r) resized
              (productPrompt (PRODUCTS productId)) color (instructionsToPass r)))
      (selectedProducts r).
Proof.
  intros Hc Hnd Ha Hcl Hbg Hrs.
  rewrite (run_success r image color cloned transparent resized Hc Ha Hcl Hbg Hrs).
  change (mockups (run ?s finallyBlock)) with (mockups s).
  cbn [mockups setMockups].
  assert (Hstart : mockups
            ((if 0 <? length (selectedProducts r)
              then setLoadingMessage (lit "Creating mockups...")
              else fun s => s)
               (run (run r (startRun PRODUCTS r))
                  (stageUpdates r cloned transparent resized)))
          = List.map (pendingMockup PRODUCTS) (selectedProducts r)).
  { rewrite <- startRun_mockups.
    destruct (0 <? length (selectedProducts r)); reflexivity. }
  rewrite Hstart, map_map.
  destruct (0 <? length (selectedProducts r)) eqn:Hsel.
  - apply map_ext_in. intros x Hx.
    apply settleAll_pending; [apply settleOrder_NoDup, Hnd|].
    eapply Permutation_in; [|exact Hx].
    apply Permutation_sym, settleOrder_Permutation.
  - destruct (selectedProducts r); [reflexivity | discriminate Hsel].
Qed.

(** C5: when the stages before the mockups have succeeded, for distinct
    selected products, whatever each mockup call settles to and in whatever
    order the calls settle, the run ends with one item per selected product,
    in the order of the selection, that depends on the call of its own
    product only: [SUCCESS] with the image of that call when it resolved,
    [FAILED] without image when it was rejected.  No rejected mockup call
    reaches the [catch] block: the [try] block completes, and the error of
    the run stays unset. *)
Theorem mockups_settle_independently (r : AppState)
    (image color cloned transparent resized : jsstring) :
  canStart r image ->
  NoDup (selectedProducts r) ->
  analyzeImageColor svc (geminiApiKey r) image = Resolved color ->
  cloneDesign svc (geminiApiKey r) image (instructionsToPass r)
  = Resolved cloned ->
  removeBackground svc (photoroomApiKey r) cloned = Resolved transparent ->
  resizeDesign svc transparent = Resolved resized ->
  mockups (run r (handleGenerateClick PRODUCTS svc r))
  = List.map
      (fun productId =>
         settledMockup PRODUCTS productId
           (createMockup svc productId (geminiApiKey r) resized
              (productPrompt (PRODUCTS productId)) color (instructionsToPass r)))
      (selectedProducts r)
  /\ snd (tryBlock PRODUCTS svc r image) = Resolved tt
  /\ error (run r (handleGenerateClick PRODUCTS svc r)) = None
  /\ resizedDesign (run r (handleGenerateClick PRODUCTS svc r))
     = ClonedDesign.mk SUCCESS (Some resized).
Proof.
  intros Hc Hnd Ha Hcl Hbg Hrs.
  split; [|split; [|split]].
  - apply (mockups_after_success r image color cloned transparent resized);
      assumption.
  - rewrite (tryBlock_success r image color cloned transparent resized
               Ha Hcl Hbg Hrs).
    reflexivity.
  - rewrite (run_success r image color cloned transparent resized
               Hc Ha Hcl Hbg Hrs).
    unfold startRun.
    destruct (0 <? length (selectedProducts r)); reflexivity.
  - rewrite (run_success r image color cloned transparent resized
               Hc Ha Hcl Hbg Hrs).
    unfold startRun.
    destruct (0 <? length (selectedProducts r)); reflexivity.
Qed.

(** The mockups at the end of a run whose [try] block threw: every item
    the run started with has been failed. *)
Lemma mockups_after_failure (r : AppState) (image : jsstring) (err : Thrown) :
  canStart r image ->
  snd (tryBlock PRODUCTS svc r image) = Rejected err ->
  mockups (run r (handleGenerateClick PRODUCTS svc r))
  = List.map (fun productId =>
                Mockup.mk productId (productName (PRODUCTS productId)) FAILED None)
      (selectedProducts r).
Proof.
  intros Hc Hthrown.
  rewrite (handleGenerateClick_runs r image Hc).
  assert (Hquiet : mockups (run (run r (startRun PRODUCTS r))
                              (fst (tryBlock PRODUCTS svc r image)))
                   = mockups (run r (startRun PRODUCTS r))).
  { revert Hthrown. unfold tryBlock.
    destruct (analyzeImageColor svc (geminiApiKey r) image) as [color|e];
      cbn [bind call await fst snd app]; [|reflexivity].
    destruct (cloneDesign svc (geminiApiKey r) image (instructionsToPass r))
      as [cloned|e]; cbn [bind call await fst snd app]; [|reflexivity].
    destruct (removeBackground svc (photoroomApiKey r) cloned)
      as [transparent|e]; cbn [bind call await fst snd app]; [|reflexivity].
    destruct (resizeDesign svc transparent) as [resized|e];
      cbn [bind call await fst snd app]; [|reflexivity].
    destruct (0 <? length (selectedProducts r)); discriminate. }
  rewrite Hthrown, !run_app.
  set (s := run (run r (startRun PRODUCTS r))
              (fst (tryBlock PRODUCTS svc r image))) in *.
  assert (Hs : mockups s = List.map (pendingMockup PRODUCTS) (selectedProducts r))
    by (rewrite Hquiet; apply startRun_mockups).
  clearbody s. unfold catchBlock, finallyBlock.
  destruct (Status_eqb (ClonedDesign.status (clonedDesign r)) PENDING);
    destruct (negb (Status_eqb (ClonedDesign.status (removedBgDesign r)) SUCCESS));
    destruct (negb (Status_eqb (ClonedDesign.status (resizedDesign r)) SUCCESS));
    destruct (selectedProducts r) as [|p sel]; simpl; rewrite Hs; simpl;
    try reflexivity; rewrite map_map; reflexivity.
Qed.

(** When a run completes, every mockup item has a terminal status. *)
Lemma mockups_terminal_at_completion (r : AppState) (image : jsstring) :
  canStart r image ->
  NoDup (selectedProducts r) ->
  Forall (fun m => terminal (Mockup.status m) = true)
         (mockups (run r (handleGenerateClick PRODUCTS svc r))).
Proof.
  intros Hc Hnd.
  destruct (snd (tryBlock PRODUCTS svc r image)) as [[]|err] eqn:Hend.
  - revert Hend. unfold tryBlock.
    destruct (analyzeImageColor svc (geminiApiKey r) image) as [color|e] eqn:Ha;
      cbn [bind call await fst snd app]; [|discriminate].
    destruct (cloneDesign svc (geminiApiKey r) image (instructionsToPass r))
      as [cloned|e] eqn:Hcl; cbn [bind call await fst snd app]; [|discriminate].
    destruct (removeBackground svc (photoroomApiKey r) cloned)
      as [transparent|e] eqn:Hbg; cbn [bind call await fst snd app];
      [|discriminate].
    destruct (resizeDesign svc transparent) as [resized|e] eqn:Hrs;
      cbn [bind call await fst snd app]; [|discriminate].
    intros _.
    rewrite (mockups_after_success r image color cloned transparent
               resized Hc Hnd Ha Hcl Hbg Hrs).
    rewrite Forall_map, Forall_forall. intros x _.
    unfold settledMockup.
    destruct (createMockup svc x (geminiApiKey r) resized
                (productPrompt (PRODUCTS x)) color (instructionsToPass r));
      reflexivity.
  - rewrite (mockups_after_failure r image err Hc Hend).
    rewrite Forall_map, Forall_forall. intros x _. reflexivity.
Qed.

(** *** The invariant of the assets *)

Lemma trace_preserves (s : AppState) (us : list Update) :
  stateOk s -> Forall Preserves us ->
  Forall stateOk (trace s us) /\ stateOk (run s us).
Proof.
  intros Hs Hus. revert s Hs.
  induction Hus as [|u us Hu _ IH]; intros s Hs.
  - split; [cbn [trace]; constructor; [exact Hs | constructor] | exact Hs].
  - cbn [trace]. destruct (IH (u s) (Hu s Hs)) as [Ht Hr].
    split; [constructor; assumption | exact Hr].
Qed.

Lemma assetOk_without_image (st : Status) :
  st <> SUCCESS -> assetOk (ClonedDesign.mk st None).
Proof. intros H. split; simpl; intros; congruence. Qed.

Lemma assetOk_success (image : jsstring) :
  assetOk (ClonedDesign.mk SUCCESS (Some image)).
Proof. split; simpl; intros; congruence. Qed.

Lemma mockupOk_pending (productId : jsstring) :
  mockupOk (pendingMockup PRODUCTS productId).
Proof. split; simpl; intros; congruence. Qed.

Lemma mockupOk_no_image (m : Mockup.t) :
  mockupOk m -> Mockup.status m <> SUCCESS -> Mockup.imageUrl m = None.
Proof.
  intros [H _] Hs. destruct (Mockup.imageUrl m); [|reflexivity].
  exfalso. apply Hs, H. discriminate.
Qed.

Lemma Preserves_setClonedDesign (d : ClonedDesign.t) :
  assetOk d -> Preserves (setClonedDesign d).
Proof. intros Hd s [H1 [H2 [H3 H4]]]. exact (conj Hd (conj H2 (conj H3 H4))). Qed.

Lemma Preserves_setRemovedBgDesign (d : ClonedDesign.t) :
  assetOk d -> Preserves (setRemovedBgDesign d).
Proof. intros Hd s [H1 [H2 [H3 H4]]]. exact (conj H1 (conj Hd (conj H3 H4))). Qed.

Lemma Preserves_setResizedDesign (d : ClonedDesign.t) :
  assetOk d -> Preserves (setResizedDesign d).
Proof. intros Hd s [H1 [H2 [H3 H4]]]. exact (conj H1 (conj H2 (conj Hd H4))). Qed.

Lemma Preserves_setMockups_all (l : list Mockup.t) :
  Forall mockupOk l -> Preserves (setMockups (fun _ => l)).
Proof. intros Hl s [H1 [H2 [H3 H4]]]. exact (conj H1 (conj H2 (conj H3 Hl))). Qed.

(** The update of the [catch] block on the mockups. *)
Lemma Preserves_fail_pending :
  Preserves (setMockups (List.map (fun m =>
    if Status_eqb (Mockup.status m) PENDING
    then Mockup.mk (Mockup.id m) (Mockup.name m) FAILED (Mockup.imageUrl m)
    else m))).
Proof.
  intros s [H1 [H2 [H3 H4]]].
  refine (conj H1 (conj H2 (conj H3 _))). simpl.
  rewrite Forall_map. eapply Forall_impl; [|exact H4].
  intros m Hm. destruct (Mockup.status m) eqn:E; simpl; try exact Hm.
  rewrite (mockupOk_no_image m Hm) by congruence.
  split; simpl; intros; congruence.
Qed.

Lemma Preserves_setIsLoading (v : bool) : Preserves (setIsLoading v).
Proof. intros s H. exact H. Qed.

Lemma Preserves_setLoadingMessage (v : jsstring) : Preserves (setLoadingMessage v).
Proof. intros s H. exact H. Qed.

Lemma Preserves_setError (v : option jsstring) : Preserves (setError v).
Proof. intros s H. exact H. Qed.

Lemma Preserves_setProductDetails (v : option ProductDetails) :
  Preserves (setProductDetails v).
Proof. intros s H. exact H. Qed.

Lemma Preserves_setShowApiKeys (v : bool) : Preserves (setShowApiKeys v).
Proof. intros s H. exact H. Qed.

Lemma Preserves_setUploadedImage (v : option jsstring) :
  Preserves (setUploadedImage v).
Proof. intros s H. exact H. Qed.

Create HintDb preserves.

Hint Resolve Preserves_setClonedDesign Preserves_setRemovedBgDesign
  Preserves_setResizedDesign Preserves_setMockups_all Preserves_fail_pending
  Preserves_setIsLoading Preserves_setLoadingMessage Preserves_setError
  Preserves_setProductDetails Preserves_setShowApiKeys
  Preserves_setUploadedImage assetOk_success : preserves.

Hint Extern 1 (assetOk (ClonedDesign.mk _ None)) =>
  apply assetOk_without_image; discriminate : preserves.

Ltac preserves :=
  repeat first
    [ apply Forall_nil
    | apply Forall_cons
    | apply Forall_app; split
    | match goal with
      | |- context [if ?b then _ else _] => destruct b
      end ];
  auto with preserves.

Lemma startRun_Preserves (r : AppState) : Forall Preserves (startRun PRODUCTS r).
Proof.
  unfold startRun. preserves.
  apply Preserves_setMockups_all.
  rewrite Forall_map, Forall_forall. intros x _. apply mockupOk_pending.
Qed.

Lemma catchBlock_Preserves (r : AppState) (err : Thrown) :
  Forall Preserves (catchBlock r err).
Proof. unfold catchBlock. preserves. Qed.

Lemma finallyBlock_Preserves : Forall Preserves finallyBlock.
Proof. unfold finallyBlock. preserves. Qed.

Lemma stageUpdates_Preserves (r : AppState) (cloned transparent resized : jsstring) :
  Forall Preserves (stageUpdates r cloned transparent resized).
Proof. unfold stageUpdates. preserves. Qed.

(** The mockup stage keeps the invariant when it starts from items without
    image and the calls are for distinct products. *)
Lemma fanOut_trace_ok (outcome : jsstring -> Settled Thrown jsstring)
    (order : list jsstring) (s : AppState) :
  NoDup order -> stateOk s ->
  Forall (fun m => In (Mockup.id m) order -> Mockup.imageUrl m = None)
         (mockups s) ->
  Forall stateOk (trace s (fanOut outcome order))
  /\ stateOk (run s (fanOut outcome order)).
Proof.
  intros Hnd. revert s.
  induction Hnd as [|p order Hp Hnd IH]; intros s Hs Hnone.
  - split; [cbn [trace]; constructor; [exact Hs | constructor] | exact Hs].
  - change (fanOut outcome (p :: order))
      with (mockupSettled p (outcome p) :: fanOut outcome order).
    cbn [trace].
    change (run s (mockupSettled p (outcome p) :: fanOut outcome order))
      with (run (mockupSettled p (outcome p) s) (fanOut outcome order)).
    rewrite mockupSettled_settleIn.
    destruct Hs as [H1 [H2 [H3 H4]]].
    destruct (IH (setMockups (List.map (settleIn p (outcome p))) s)) as [Ht Hr].
    + refine (conj H1 (conj H2 (conj H3 _))). simpl.
      rewrite Forall_map, Forall_forall. rewrite Forall_forall in H4, Hnone.
      intros m Hm. unfold settleIn.
      destruct (eqb (Mockup.id m) p) eqn:E; [|apply H4, Hm].
      apply eqb_eq in E.
      destruct (outcome p); [split; simpl; intros; congruence|].
      rewrite (Hnone m Hm) by (left; auto).
      split; simpl; intros; congruence.
    + simpl. rewrite Forall_map, Forall_forall. rewrite Forall_forall in Hnone.
      intros m Hm Hin. rewrite settleIn_id in Hin.
      rewrite settleIn_other by (intros E; apply Hp; rewrite <- E; exact Hin).
      apply Hnone; [exact Hm | right; exact Hin].
    + split; [constructor; [exact (conj H1 (conj H2 (conj H3 H4))) | exact Ht]
             | exact Hr].
Qed.

(** The [try] block keeps the invariant from the state the start of the run
    leaves. *)
Lemma tryBlock_trace_ok (r : AppState) (image : jsstring) (s : AppState) :
  NoDup (selectedProducts r) -> stateOk s ->
  mockups s = List.map (pendingMockup PRODUCTS) (selectedProducts r) ->
  Forall stateOk (trace s (fst (tryBlock PRODUCTS svc r image)))
  /\ stateOk (run s (fst (tryBlock PRODUCTS svc r image))).
Proof.
  intros Hnd Hs Hm.
  destruct (analyzeImageColor svc (geminiApiKey r) image) as [color|e] eqn:Ha.
  2:{ unfold tryBlock. rewrite Ha. cbn [bind call await fst app].
      apply trace_preserves; [exact Hs | preserves]. }
  destruct (cloneDesign svc (geminiApiKey r) image (instructionsToPass r))
    as [cloned|e] eqn:Hcl.
  2:{ unfold tryBlock. rewrite Ha, Hcl. cbn [bind call await fst app].
      apply trace_preserves; [exact Hs | preserves]. }
  destruct (removeBackground svc (photoroomApiKey r) cloned)
    as [transparent|e] eqn:Hbg.
  2:{ unfold tryBlock. rewrite Ha, Hcl. cbn [bind call await].
      rewrite Hbg. cbn [bind call await fst app].
      apply trace_preserves; [exact Hs | preserves]. }
  destruct (resizeDesign svc transparent) as [resized|e] eqn:Hrs.
  2:{ unfold tryBlock. rewrite Ha, Hcl. cbn [bind call await].
      rewrite Hbg. cbn [bind call await]. rewrite Hrs.
      cbn [bind call await fst app].
      apply trace_preserves; [exact Hs | preserves]. }
  rewrite (tryBlock_success r image color cloned transparent resized
             Ha Hcl Hbg Hrs).
  cbn [fst].
  destruct (trace_preserves s (stageUpdates r cloned transparent resized) Hs
              (stageUpdates_Preserves r cloned transparent resized))
    as [Ht Hr].
  destruct (0 <? length (selectedProducts r)).
  - assert (Hfan := fanOut_trace_ok
      (fun productId =>
         createMockup svc productId (geminiApiKey r) resized
           (productPrompt (PRODUCTS productId)) color (instructionsToPass r))
      (settleOrder (settleTime svc) (selectedProducts r))
      (setLoadingMessage (lit "Creating mockups...")
         (run s (stageUpdates r cloned transparent resized)))
      (settleOrder_NoDup _ _ Hnd) Hr).
    destruct Hfan as [Hft Hfr].
    { change (mockups _) with (mockups s). rewrite Hm, Forall_map, Forall_forall.
      intros x _ _. reflexivity. }
    split.
    + apply trace_Forall_app; [exact Ht|].
      cbn [trace]. constructor; [exact Hr | exact Hft].
    + rewrite run_app. exact Hfr.
  - rewrite app_nil_r. split; assumption.
Qed.

(** The states of a run of the handler, and the state it ends in. *)
Lemma handleGenerateClick_trace_ok (r : AppState) :
  stateOk r ->
  NoDup (selectedProducts r) ->
  Forall stateOk (trace r (handleGenerateClick PRODUCTS svc r))
  /\ stateOk (run r (handleGenerateClick PRODUCTS svc r)).
Proof.
  intros Hr Hnd. unfold handleGenerateClick.
  destruct (negb (truthy (geminiApiKey r)));
    [apply trace_preserves; [exact Hr | preserves]|].
  destruct (uploadedImage r) as [image|];
    [|apply trace_preserves; [exact Hr | preserves]].
  destruct (negb (truthy image));
    [apply trace_preserves; [exact Hr | preserves]|].
  destruct (trace_preserves r (startRun PRODUCTS r) Hr (startRun_Preserves r))
    as [Ht1 Hs1].
  destruct (tryBlock_trace_ok r image (run r (startRun PRODUCTS r)) Hnd Hs1
              (startRun_mockups r)) as [Ht2 Hs2].
  assert (Hrest : Forall Preserves
            (match snd (tryBlock PRODUCTS svc r image) with
             | Rejected err => catchBlock r err
             | Resolved _ => []
             end ++ finallyBlock)).
  { apply Forall_app. split; [|apply finallyBlock_Preserves].
    destruct (snd (tryBlock PRODUCTS svc r image));
      [constructor | apply catchBlock_Preserves]. }
  destruct (trace_preserves _ _ Hs2 Hrest) as [Ht3 Hs3].
  split.
  - apply trace_Forall_app; [exact Ht1|].
    apply trace_Forall_app; [exact Ht2 | exact Ht3].
  - do 2 rewrite run_app. exact Hs3.
Qed.

Lemma run_ends_ok (r : AppState) :
  stateOk r -> NoDup (selectedProducts r) ->
  stateOk (run r (handleGenerateClick PRODUCTS svc r)).
Proof. intros Hr Hnd. apply handleGenerateClick_trace_ok; assumption. Qed.

Lemma processImageFile_trace_ok (s : AppState) (fileType : jsstring)
    (toBase64 : Settled Thrown jsstring) :
  stateOk s ->
  Forall stateOk (trace s (App.processImageFile fileType toBase64))
  /\ stateOk (run s (App.processImageFile fileType toBase64)).
Proof.
  intros Hs. unfold processImageFile.
  destruct (startsWith fileType (lit "image/"));
    [destruct toBase64|];
    (apply trace_preserves; [exact Hs|]); preserves.
Qed.

End Orchestrator.

(** ** The states the application reaches *)

Lemma run_keeps_selection (s : AppState) (us : list Update) :
  Forall KeepsSelection us -> selectedProducts (run s us) = selectedProducts s.
Proof.
  intros H. revert s. induction H as [|u us Hu _ IH]; intros s; [reflexivity|].
  change (run s (u :: us)) with (run (u s) us). rewrite IH. apply Hu.
Qed.

Ltac keeps_selection :=
  repeat first
    [ apply Forall_nil
    | apply Forall_cons
    | apply Forall_app; split
    | match goal with
      | |- context [if ?b then _ else _] => destruct b
      end ];
  try (intros ?; reflexivity).

Lemma fanOut_keeps_selection (outcome : jsstring -> Settled Thrown jsstring)
    (order : list jsstring) :
  Forall KeepsSelection (fanOut outcome order).
Proof.
  unfold fanOut. rewrite Forall_map, Forall_forall. intros p _ s.
  destruct (outcome p); reflexivity.
Qed.

Lemma handleGenerateClick_keeps_selection (PRODUCTS : jsstring -> Product)
    (svc : Services) (r : AppState) :
  Forall KeepsSelection (handleGenerateClick PRODUCTS svc r).
Proof.
  unfold handleGenerateClick.
  destruct (negb (truthy (geminiApiKey r))); [keeps_selection|].
  destruct (uploadedImage r) as [image|]; [|keeps_selection].
  destruct (negb (truthy image)); [keeps_selection|].
  apply Forall_app. split; [unfold startRun; keeps_selection|].
  apply Forall_app. split.
  - unfold tryBlock.
    destruct (analyzeImageColor svc (geminiApiKey r) image) as [color|e];
      cbn [bind call await fst app]; [|keeps_selection].
    destruct (cloneDesign svc (geminiApiKey r) image (instructionsToPass r))
      as [cloned|e]; cbn [bind call await fst app]; [|keeps_selection].
    destruct (removeBackground svc (photoroomApiKey r) cloned)
      as [transparent|e]; cbn [bind call await fst app]; [|keeps_selection].
    destruct (resizeDesign svc transparent) as [resized|e];
      cbn [bind call await fst app]; [|keeps_selection].
    destruct (0 <? length (selectedProducts r));
      cbn [bind call await ret fst app]; [|keeps_selection].
    do 10 (apply Forall_cons; [intros ?; reflexivity|]).
    apply (fanOut_keeps_selection
             (fun productId =>
                createMockup svc productId (geminiApiKey r) resized
                  (productPrompt (PRODUCTS productId)) color
                  (instructionsToPass r))).
  - apply Forall_app. split; [|unfold finallyBlock; keeps_selection].
    destruct (snd (tryBlock PRODUCTS svc r image));
      [constructor | unfold catchBlock; keeps_selection].
Qed.

(** Selecting keeps a selection of distinct products distinct. *)
Lemma handleProductSelect_NoDup (s : AppState) (productId : jsstring) :
  NoDup (selectedProducts s) ->
  NoDup (selectedProducts (run s (handleProductSelect productId))).
Proof.
  intros IH. unfold handleProductSelect, run. cbn [fold_left].
  destruct (existsb (eqb productId) (selectedProducts s)) eqn:E.
  - simpl. apply NoDup_filter. exact IH.
  - destruct (6 <=? length (selectedProducts s)); simpl; [exact IH|].
    apply NoDup_app; [exact IH | constructor; [intros [] | constructor] |].
    intros x Hx [Ex|[]]. subst x.
    assert (Hex : existsb (eqb productId) (selectedProducts s) = true)
      by (apply existsb_exists; exists productId;
          split; [exact Hx | apply eqb_refl]).
    congruence.
Qed.

(** ** The properties on a sample run *)

(** C8, as worded, fails: after the start of a run the background-removed
    and the resized asset are [IDLE], not [PENDING]. *)
Lemma startRun_leaves_later_stages_idle :
  ClonedDesign.status
    (removedBgDesign (run Samples.uploaded
                        (startRun Samples.PRODUCTS Samples.uploaded)))
  <> PENDING
  /\ ClonedDesign.status
       (resizedDesign (run Samples.uploaded
                         (startRun Samples.PRODUCTS Samples.uploaded)))
     <> PENDING.
Proof. split; vm_compute; discriminate. Qed.

Lemma Samples_canStart :
  canStart Samples.uploaded (lit "data:image/png;base64,AAAA").
Proof. repeat split. Defined.

Lemma startRun_statuses_witness :
  removedBgDesign (run Samples.uploaded
                     (startRun Samples.PRODUCTS Samples.uploaded))
  = ClonedDesign.mk IDLE None.
Proof.
  exact (proj1 (proj2 (proj2 (startRun_statuses Samples.PRODUCTS
           (Samples.services 0) Samples.uploaded
           (lit "data:image/png;base64,AAAA") Samples_canStart)))).
Defined.

Lemma clone_failure_leaves_pending_witness :
  clonedDesign (run Samples.uploaded
                  (handleGenerateClick Samples.PRODUCTS (Samples.services 1)
                     Samples.uploaded))
  = ClonedDesign.mk PENDING None.
Proof.
  refine (proj1 (clone_failure_leaves_pending Samples.PRODUCTS
            (Samples.services 1) Samples.uploaded
            (lit "data:image/png;base64,AAAA") (lit "#1A2B3C")
            (Error (lit "clone refused")) Samples_canStart _ eq_refl eq_refl)).
  discriminate.
Defined.

Lemma resize_failure_discards_removedBg_witness :
  removedBgDesign (run Samples.uploaded
                     (handleGenerateClick Samples.PRODUCTS (Samples.services 3)
                        Samples.uploaded))
  = ClonedDesign.mk FAILED None.
Proof.
  refine (proj2 (resize_failure_discards_removedBg Samples.PRODUCTS
            (Samples.services 3) Samples.uploaded
            (lit "data:image/png;base64,AAAA") (lit "#1A2B3C")
            (lit "data:image/png;base64,CLONE")
            (lit "data:image/png;base64,CUTOUT")
            (Error (lit "Failed to load image for resizing."))
            Samples_canStart _ eq_refl eq_refl eq_refl eq_refl)).
  discriminate.
Defined.

Lemma Samples_selection_NoDup : NoDup (selectedProducts Samples.uploaded).
Proof.
  repeat constructor; simpl; intuition discriminate.
Defined.

Lemma mockups_settle_independently_witness :
  List.map (fun m => (Mockup.id m, Mockup.status m, Mockup.imageUrl m))
    (mockups (run Samples.uploaded
                (handleGenerateClick Samples.PRODUCTS (Samples.services 0)
                   Samples.uploaded)))
  = [ (lit "A", SUCCESS, Some (lit "data:image/png;base64,MOCKUP-A"));
      (lit "B", SUCCESS, Some (lit "data:image/png;base64,MOCKUP-B"));
      (lit "C", FAILED, None);
      (lit "D", SUCCESS, Some (lit "data:image/png;base64,MOCKUP-D")) ]
  /\ error (run Samples.uploaded
              (handleGenerateClick Samples.PRODUCTS (Samples.services 0)
                 Samples.uploaded)) = None.
Proof.
  destruct (mockups_settle_independently Samples.PRODUCTS (Samples.services 0)
              Samples.uploaded
              (lit "data:image/png;base64,AAAA") (lit "#1A2B3C")
              (lit "data:image/png;base64,CLONE")
              (lit "data:image/png;base64,CUTOUT")
              (lit "data:image/png;base64,PRINT")
              Samples_canStart Samples_selection_NoDup
              eq_refl eq_refl eq_refl eq_refl) as [Hm [_ [He _]]].
  split; [rewrite Hm; reflexivity | exact He].
Defined.

Lemma Samples_stateOk : stateOk Samples.uploaded.
Proof.
  repeat split; simpl; try congruence; try discriminate; constructor.
Defined.

(* ================================================================== *)
(** * Further properties of the services *)
(* ================================================================== *)

(** ** White space *)

Lemma trimStart_blank (s : jsstring) :
  forallb isWhiteSpace s = true -> trimStart s = [].
Proof.
  induction s as [|c s IH]; simpl; [reflexivity|].
  rewrite andb_true_iff. intros [Hc Hs]. rewrite Hc. auto.
Qed.

Lemma trimStart_head (s : jsstring) (c : N) (t : jsstring) :
  trimStart s = c :: t -> isWhiteSpace c = false.
Proof.
  induction s as [|x s IH]; simpl; [discriminate|].
  destruct (isWhiteSpace x) eqn:E; [exact IH|].
  intros H. injection H as <- _. exact E.
Qed.

Lemma trimStart_nil (s : jsstring) :
  trimStart s = [] -> forallb isWhiteSpace s = true.
Proof.
  induction s as [|x s IH]; simpl; [reflexivity|].
  destruct (isWhiteSpace x); [exact IH | discriminate].
Qed.

Lemma forallb_rev {A} (f : A -> bool) (l : list A) :
  forallb f (rev l) = forallb f l.
Proof.
  induction l as [|x l IH]; simpl; [reflexivity|].
  rewrite forallb_app, IH. simpl. rewrite andb_true_r. apply andb_comm.
Qed.

(** [trim] leaves nothing exactly of the texts made of white space. *)
Lemma trim_nil_iff (s : jsstring) :
  trim s = [] <-> forallb isWhiteSpace s = true.
Proof.
  unfold trim, trimEnd. split.
  - intros H. apply (f_equal (@rev N)) in H. rewrite rev_involutive in H.
    simpl in H. apply trimStart_nil in H. rewrite forallb_rev in H.
    destruct (trimStart s) as [|c t] eqn:E; [apply trimStart_nil, E|].
    apply trimStart_head in E. simpl in H. rewrite E in H. discriminate.
  - intros H. rewrite (trimStart_blank s H). reflexivity.
Qed.

Lemma hasInstructions_blank (a : jsstring) :
  forallb isWhiteSpace a = true -> hasInstructions (Some a) = false.
Proof.
  intros H. apply trim_nil_iff in H. unfold hasInstructions. rewrite H.
  apply andb_false_r.
Qed.

(** ** Instructions made of white space *)

(** Instructions that are empty or made of white space only change
    nothing: the clone prompt is the extracted prompt, and [cloneDesign]
    and [createMockup] answer as they do without instructions. *)
Theorem blank_instructions_are_ignored
    generateContent toLowerCase SYSTEM_INSTRUCTION apiKey image base
    productPrompt color (instructions : jsstring) :
  forallb isWhiteSpace instructions = true ->
  composeClonePrompt base (Some instructions) = base
  /\ GeminiService.cloneDesign generateContent toLowerCase SYSTEM_INSTRUCTION
       apiKey image (Some instructions)
     = GeminiService.cloneDesign generateContent toLowerCase SYSTEM_INSTRUCTION
         apiKey image None
  /\ GeminiService.createMockup generateContent toLowerCase apiKey image
       productPrompt color (Some instructions)
     = GeminiService.createMockup generateContent toLowerCase apiKey image
         productPrompt color None.
Proof.
  intros Hb. apply hasInstructions_blank in Hb.
  assert (Hc : forall b, composeClonePrompt b (Some instructions) = b)
    by (intros b; unfold composeClonePrompt; rewrite Hb; reflexivity).
  split; [apply Hc|]. split.
  - unfold GeminiService.cloneDesign.
    destruct (DesignExtractor.extractDesignPrompt _ _ _ _); [|reflexivity].
    rewrite Hc. reflexivity.
  - unfold GeminiService.createMockup. rewrite Hb. reflexivity.
Qed.

Lemma blank_instructions_are_ignored_witness :
  composeClonePrompt (lit "A fox on a solid black background")
    (Some [32; 10; 9; 160]%N)
  = lit "A fox on a solid black background".
Proof.
  exact (proj1 (blank_instructions_are_ignored
                  (fun _ => Rejected (Foreign None)) JS.toLowerCase [] [] []
                  (lit "A fox on a solid black background") [] []
                  [32; 10; 9; 160]%N eq_refl)).
Defined.

(** ** The key guard *)

(** With an empty key every call of the model fails with the same error,
    whatever the endpoint would answer and whatever the other arguments
    are. *)
Theorem gemini_calls_need_a_key
    generateContent toLowerCase SYSTEM_INSTRUCTION image prompt productPrompt
    color instructions :
  let missing := Rejected (Error (lit "Gemini API key is missing.")) in
  DesignExtractor.extractDesignPrompt generateContent SYSTEM_INSTRUCTION [] image
  = missing
  /\ GeminiService.analyzeImageColor generateContent [] image = missing
  /\ generateImage generateContent toLowerCase [] prompt image = missing
  /\ GeminiService.cloneDesign generateContent toLowerCase SYSTEM_INSTRUCTION []
       image instructions = missing
  /\ GeminiService.createMockup generateContent toLowerCase [] image
       productPrompt color instructions = missing.
Proof. repeat split. Qed.

(** ** What the services resolve with *)

Lemma isHexDigitCI_hexDigit (c : N) : isHexDigitCI c = true <-> hexDigit c.
Proof.
  unfold isHexDigitCI, canonicalize, hexDigit.
  destruct ((97 <=? c) && (c <=? 122))%N eqn:E.
  - apply andb_true_iff in E. destruct E as [E1 E2].
    apply N.leb_le in E1, E2.
    rewrite orb_true_iff, !andb_true_iff, !N.leb_le. lia.
  - apply andb_false_iff in E. rewrite !N.leb_gt in E.
    rewrite orb_true_iff, !andb_true_iff, !N.leb_le. lia.
Qed.

Lemma hexColorTest_hexColor (color : jsstring) :
  hexColorTest color = true <-> hexColor color.
Proof.
  rewrite hexColorTest_spec. unfold hexColor.
  split; intros [digits [E [L F]]]; exists digits; repeat split; auto;
    rewrite Forall_forall in *; intros c Hc; apply isHexDigitCI_hexDigit; auto.
Qed.

(** Whatever the model answers, a colour [analyzeImageColor] resolves with
    is [#] and six of the digits 0-9, A-F, a-f: the answer of the model,
    trimmed, when it is such a text, and [#F3F4F6] when it is not. *)
Theorem analyzeImageColor_resolves_with_hex generateContent apiKey image color :
  GeminiService.analyzeImageColor generateContent apiKey image = Resolved color ->
  hexColor color
  /\ exists response t,
       generateContent
         {| model := lit "gemini-2.5-flash";
            contents := [textPart colorPrompt; getImagePart image];
            responseModalities := None |} = Resolved response
       /\ response_text response = Some t
       /\ (hexColor (trim t) /\ color = trim t
           \/ ~ hexColor (trim t) /\ color = lit "#F3F4F6").
Proof.
  unfold GeminiService.analyzeImageColor.
  destruct (getAiClient apiKey); [|discriminate].
  destruct (generateContent _) as [response|] eqn:Hr; [|discriminate].
  destruct (response_text response) as [t|] eqn:Ht; [|discriminate].
  destruct (hexColorTest (trim t)) eqn:E; intros H; injection H as <-.
  - apply hexColorTest_hexColor in E. split; [exact E|].
    exists response, t. auto.
  - split; [apply hexColorTest_hexColor; reflexivity|].
    exists response, t. split; [reflexivity|]. split; [exact Ht|].
    right. split; [|reflexivity].
    intros Hx. apply hexColorTest_hexColor in Hx. congruence.
Qed.

Lemma analyzeImageColor_resolves_with_hex_witness :
  hexColor (lit "#F3F4F6") /\ ~ hexColor (trim (lit " dark red ")).
Proof.
  destruct (analyzeImageColor_resolves_with_hex Samples.wordyColor (lit "key")
              (lit "data:image/png;base64,AAAA") (lit "#F3F4F6") eq_refl)
    as [H [response [t [Hr [Ht [[_ E]|[Hn _]]]]]]].
  - injection Hr as <-. injection Ht as <-. vm_compute in E. discriminate E.
  - injection Hr as <-. injection Ht as <-. split; [exact H | exact Hn].
Defined.

(** [generateImage] resolves only when the key is not empty and the one
    request it sent came back with a response that has no block reason, no
    safety rating of probability HIGH or MEDIUM in its prompt feedback, and
    a first candidate with a part that carries inline data; the result is
    the data of the first such part behind the PNG data-URL prefix, whatever
    MIME type the part names. *)
Theorem generateImage_resolves_only_with_image
    generateContent toLowerCase apiKey prompt image url :
  generateImage generateContent toLowerCase apiKey prompt image = Resolved url ->
  apiKey <> []
  /\ asked (Traced.generateImage generateContent toLowerCase apiKey prompt image)
     = [imageRequest prompt image]
  /\ exists response ps before part d after,
       generateContent (imageRequest prompt image) = Resolved response
       /\ notBlocked response
       /\ noHighOrMedium response
       /\ firstCandidateParts response ps
       /\ ps = before ++ part :: after
       /\ Forall (fun p => inlineData p = None) before
       /\ inlineData part = Some d
       /\ url = lit "data:image/png;base64," ++ interpolate (data d).
Proof.
  intros H.
  assert (Hk : truthy apiKey = true).
  { unfold generateImage, getAiClient in H.
    destruct (truthy apiKey); [reflexivity | discriminate]. }
  split; [destruct apiKey; [discriminate | congruence]|].
  split; [rewrite Traced_generateImage_asked, Hk; reflexivity|].
  unfold generateImage, getAiClient in H. rewrite Hk in H.
  simpl negb in H. cbv iota in H.
  change {| model := lit "gemini-2.5-flash-image-preview";
            contents := [getImagePart image; textPart prompt];
            responseModalities := Some [lit "IMAGE"; lit "TEXT"] |}
    with (imageRequest prompt image) in H.
  destruct (generateContent (imageRequest prompt image)) as [response|] eqn:Hg;
    [|discriminate].
  unfold classifyResponse in H.
  destruct (truthyOpt (blockReasonOf response)) eqn:Hb; [discriminate|].
  destruct (harmfulRatingOf response) as [rating|] eqn:Hh;
    [destruct (category rating); discriminate|].
  destruct (partsOf response) as [[|p ps]|] eqn:Hp; simpl noParts in H;
    cbv iota zeta in H;
    try (destruct (truthyOpt (option_map trim (response_text response)));
         discriminate).
  destruct (find hasInlineData (p :: ps)) as [[[d|] t]|] eqn:Hf.
  - injection H as <-.
    apply find_split in Hf. destruct Hf as [before [after [E [Hbefore _]]]].
    exists response, (p :: ps), before, {| inlineData := Some d; text := t |},
      d, after.
    split; [reflexivity|].
    split; [apply blockReasonOf_notBlocked; exact Hb|].
    split; [apply harmfulRatingOf_none; exact Hh|].
    split; [apply partsOf_first; exact Hp|].
    split; [exact E|].
    split; [apply hasInlineData_none; exact Hbefore|].
    split; reflexivity.
  - revert H.
    match goal with
    | |- (if ?c then _ else _) = _ -> _ => destruct c; discriminate
    end.
  - revert H.
    match goal with
    | |- (if ?c then _ else _) = _ -> _ => destruct c; discriminate
    end.
Qed.

Lemma generateImage_resolves_only_with_image_witness :
  asked (Traced.generateImage (fun _ => Resolved Samples.imageAnswer)
           JS.toLowerCase (lit "key") (lit "a mug")
           (lit "data:image/png;base64,AAAA"))
  = [imageRequest (lit "a mug") (lit "data:image/png;base64,AAAA")]
  /\ exists response ps before part d after,
       @Resolved Thrown GenerateContentResponse Samples.imageAnswer
       = Resolved response
       /\ notBlocked response
       /\ noHighOrMedium response
       /\ firstCandidateParts response ps
       /\ ps = before ++ part :: after
       /\ Forall (fun p => inlineData p = None) before
       /\ inlineData part = Some d
       /\ lit "data:image/png;base64,iVBORw0KGgo="
          = lit "data:image/png;base64," ++ interpolate (data d).
Proof.
  exact (proj2 (generateImage_resolves_only_with_image
                  (fun _ => Resolved Samples.imageAnswer) JS.toLowerCase
                  (lit "key") (lit "a mug") (lit "data:image/png;base64,AAAA")
                  (lit "data:image/png;base64,iVBORw0KGgo=") eq_refl)).
Defined.

(** ** The classification of a generated response *)

(** [generateImage] classifies the response field by field, each check
    cutting off the next ones.  A block reason that is not empty fails the
    call with a message that names it, and the block message when there is
    one.  Else the first safety rating of probability HIGH or MEDIUM, when
    it names a category, fails the call with a message that names the
    category, without its prefix, with blanks for underscores and in lower
    case.  Else a first candidate without parts fails the call with the
    text of the response, or as an empty response.  Else the first part
    with inline data is the result.  Else the call fails with the first
    text of a part, or with the text of the response, or for want of an
    image.  So a response that has a block reason and an image part fails
    as blocked. *)
Theorem generateImage_classification
    generateContent toLowerCase apiKey prompt image response :
  truthy apiKey = true ->
  generateContent (imageRequest prompt image) = Resolved response ->
  let result := generateImage generateContent toLowerCase apiKey prompt image in
  (* the block reason first *)
  (forall feedback reason,
     promptFeedback response = Some feedback ->
     blockReason feedback = Some reason -> reason <> [] ->
     result
     = Rejected (Error (lit "Image generation failed due to: " ++ reason
                          ++ lit "."
                          ++ match blockReasonMessage feedback with
                             | Some (c :: m) => lit " Message: " ++ c :: m
                             | _ => []
                             end)))
  /\ (notBlocked response ->
      (* then the safety ratings *)
      (forall rating c,
         firstHighOrMedium response rating -> category rating = Some c ->
         result
         = Rejected (Error
             (lit "Image generation failed. The request was filtered due to potential "
                ++ toLowerCase
                     (replaceAllUnit 95 32
                        (replaceFirst c (lit "HARM_CATEGORY_") []))
                ++ lit " content.")))
      /\ (noHighOrMedium response ->
          (* then the empty answer *)
          (withoutParts response ->
             result = Rejected (Error
               (match option_map trim (response_text response) with
                | Some (c :: t) => lit "API call failed: " ++ c :: t
                | _ => lit "API returned an empty response. This could be due to safety filters or an unclear prompt. Please try modifying your instructions or using a different image."
                end)))
          /\ (forall ps, firstCandidateParts response ps -> ps <> [] ->
              (* then the first part with image data *)
              (forall before part d after,
                 ps = before ++ part :: after ->
                 Forall (fun p => inlineData p = None) before ->
                 inlineData part = Some d ->
                 result = Resolved (lit "data:image/png;base64,"
                                      ++ interpolate (data d)))
              (* then the text *)
              /\ (Forall (fun p => inlineData p = None) ps ->
                  (forall before part c t after,
                     ps = before ++ part :: after ->
                     Forall textless before ->
                     text part = Some (c :: t) ->
                     result
                     = Rejected (Error (textInsteadOfImage (Some (c :: t)))))
                  /\ (Forall textless ps ->
                      result
                      = Rejected (Error (textInsteadOfImage
                                           (response_text response))))))))
  (* a block reason beats an image part *)
  /\ (forall feedback reason ps part d,
        promptFeedback response = Some feedback ->
        blockReason feedback = Some reason -> reason <> [] ->
        firstCandidateParts response ps -> In part ps ->
        inlineData part = Some d ->
        exists message, result = Rejected (Error message)
                        /\ startsWith message
                             (lit "Image generation failed due to: " ++ reason)
                           = true).
Proof.
  intros Hk Hr result.
  assert (Hres : result = classifyResponse toLowerCase response)
    by (apply generateImage_classifies; assumption).
  clearbody result. subst result.
  assert (Hblocked : forall feedback reason,
             promptFeedback response = Some feedback ->
             blockReason feedback = Some reason -> reason <> [] ->
             classifyResponse toLowerCase response
             = Rejected (Error (lit "Image generation failed due to: " ++ reason
                                  ++ lit "."
                                  ++ match blockReasonMessage feedback with
                                     | Some (c :: m) => lit " Message: " ++ c :: m
                                     | _ => []
                                     end))).
  { intros fb reason Hf Hb Hne. unfold classifyResponse, blockReasonOf.
    rewrite Hf, Hb. destruct reason as [|x reason]; [congruence|].
    cbn [truthyOpt truthy interpolate]. unfold blockedMessage.
    destruct (blockReasonMessage fb) as [[|c m]|];
      cbn [truthyOpt truthy interpolate];
      rewrite <- ?app_assoc, ?app_nil_r; reflexivity. }
  split; [exact Hblocked|]. split.
  - intros Hnb. apply blockReasonOf_notBlocked in Hnb.
    unfold classifyResponse. rewrite Hnb. split.
    + intros rating c Hfirst Hc. apply harmfulRatingOf_first in Hfirst.
      rewrite Hfirst, Hc. reflexivity.
    + intros Hnone. apply harmfulRatingOf_none in Hnone. rewrite Hnone. split.
      * intros Hw. apply noParts_without in Hw. rewrite Hw.
        destruct (response_text response) as [t|]; cbn [option_map truthyOpt];
          [destruct (trim t); reflexivity | reflexivity].
      * intros ps Hps Hne. apply partsOf_first in Hps. rewrite Hps.
        assert (Hnp : noParts (Some ps) = false)
          by (destruct ps; [congruence | reflexivity]).
        rewrite Hnp. split.
        -- intros before part d after -> Hbefore Hd.
           apply hasInlineData_none in Hbefore.
           rewrite (find_first hasInlineData before part after Hbefore)
             by (unfold hasInlineData; rewrite Hd; reflexivity).
           destruct part as [i t]. cbn [inlineData] in Hd. subst i. reflexivity.
        -- intros Hall. apply hasInlineData_none in Hall.
           rewrite (find_none_Forall _ _ Hall). split.
           ++ intros before part c t after -> Hbefore Ht.
              apply hasText_textless in Hbefore.
              rewrite (find_first hasText before part after Hbefore)
                by (unfold hasText; rewrite Ht; reflexivity).
              rewrite Ht. unfold textInsteadOfImage.
              cbn [truthyOpt truthy interpolate andb].
              destruct (trim (c :: t)); reflexivity.
           ++ intros Hnt. apply hasText_textless in Hnt.
              rewrite (find_none_Forall _ _ Hnt). unfold textInsteadOfImage.
              destruct (response_text response) as [[|c t]|];
                cbn [truthyOpt truthy interpolate andb]; try reflexivity.
              destruct (trim (c :: t)); reflexivity.
  - intros fb reason ps part d Hf Hb Hne _ _ _.
    rewrite (Hblocked fb reason Hf Hb Hne).
    eexists. split; [reflexivity|].
    rewrite (app_assoc _ reason). apply startsWith_app.
Qed.

Lemma generateImage_classification_witness :
  generateImage (fun _ => Resolved Samples.blockedWithImage) JS.toLowerCase
    (lit "key") (lit "a mug") (lit "data:image/png;base64,AAAA")
  = Rejected (Error (lit "Image generation failed due to: SAFETY."))
  /\ generateImage (fun _ => Resolved Samples.ratedMedium) JS.toLowerCase
       (lit "key") (lit "a mug") (lit "data:image/png;base64,AAAA")
     = Rejected (Error (lit "Image generation failed. The request was filtered due to potential hate speech content.")).
Proof.
  split.
  - refine (proj1 (generateImage_classification
                     (fun _ => Resolved Samples.blockedWithImage) JS.toLowerCase
                     (lit "key") (lit "a mug") (lit "data:image/png;base64,AAAA")
                     Samples.blockedWithImage eq_refl eq_refl)
              _ (lit "SAFETY") eq_refl eq_refl _).
    discriminate.
  - refine (proj1 (proj1 (proj2 (generateImage_classification
                     (fun _ => Resolved Samples.ratedMedium) JS.toLowerCase
                     (lit "key") (lit "a mug") (lit "data:image/png;base64,AAAA")
                     Samples.ratedMedium eq_refl eq_refl)) _)
              {| category := Some (lit "HARM_CATEGORY_HATE_SPEECH");
                 probability := Some (lit "MEDIUM") |}
              (lit "HARM_CATEGORY_HATE_SPEECH") _ eq_refl).
    + intros feedback reason H1 H2. injection H1 as <-. discriminate H2.
    + eexists _, [], []. split; [reflexivity|]. split; [reflexivity|].
      split; [constructor | right; reflexivity].
Defined.

(** ** Data URLs *)

Lemma upToComma_no_comma (s : jsstring) :
  Forall (fun c => c <> 44%N) s -> upToComma s = s.
Proof.
  induction 1 as [|c s Hc _ IH]; simpl; [reflexivity|].
  apply N.eqb_neq in Hc. rewrite Hc, IH. reflexivity.
Qed.

Lemma splitComma1_prefix (prefix rest : jsstring) :
  Forall (fun c => c <> 44%N) prefix ->
  splitComma1 (prefix ++ 44%N :: rest) = Some (upToComma rest).
Proof.
  induction 1 as [|c s Hc _ IH]; simpl; [reflexivity|].
  apply N.eqb_neq in Hc. rewrite Hc. exact IH.
Qed.

(** The image part sent to the model carries what lies between the first
    and the second comma of the image text, labelled [image/png] whatever
    the text says before the comma; without a comma it carries no data.
    So an image [generateImage] resolved with goes on to the next call with
    the very data that came from the model. *)
Theorem getImagePart_of_data_url (prefix payload rest : jsstring) :
  Forall (fun c => c <> 44%N) prefix ->
  Forall (fun c => c <> 44%N) payload ->
  getImagePart (prefix ++ [44%N] ++ payload)
  = {| inlineData := Some {| mimeType := Some (lit "image/png");
                             data := Some payload |};
       text := None |}
  /\ getImagePart (prefix ++ [44%N] ++ payload ++ [44%N] ++ rest)
     = getImagePart (prefix ++ [44%N] ++ payload)
  /\ getImagePart (dataUrl (Some payload))
     = getImagePart (prefix ++ [44%N] ++ payload)
  /\ inlineData (getImagePart prefix)
     = Some {| mimeType := Some (lit "image/png"); data := None |}.
Proof.
  intros Hp Hd.
  assert (E1 : splitComma1 (prefix ++ [44%N] ++ payload) = Some payload)
    by (simpl app; rewrite splitComma1_prefix, upToComma_no_comma; auto).
  assert (E2 : splitComma1 (prefix ++ [44%N] ++ payload ++ [44%N] ++ rest)
               = Some payload).
  { simpl app. rewrite splitComma1_prefix by exact Hp. f_equal.
    clear E1. induction Hd as [|c s Hc _ IH]; simpl; [reflexivity|].
    apply N.eqb_neq in Hc. rewrite Hc, IH. reflexivity. }
  assert (E3 : splitComma1 (dataUrl (Some payload)) = Some payload).
  { unfold dataUrl. simpl interpolate.
    change (lit "data:image/png;base64," ++ payload)
      with (lit "data:image/png;base64" ++ 44%N :: payload).
    rewrite splitComma1_prefix, upToComma_no_comma; auto.
    repeat constructor; discriminate. }
  assert (E4 : splitComma1 prefix = None).
  { clear E1 E2. induction Hp as [|c s Hc _ IH]; simpl; [reflexivity|].
    apply N.eqb_neq in Hc. rewrite Hc. exact IH. }
  unfold getImagePart. rewrite E1, E2, E3, E4. repeat split.
Qed.

Lemma getImagePart_of_data_url_witness :
  getImagePart (lit "data:image/jpeg;base64,/9j/4AAQ")
  = {| inlineData := Some {| mimeType := Some (lit "image/png");
                             data := Some (lit "/9j/4AAQ") |};
       text := None |}.
Proof.
  refine (proj1 (getImagePart_of_data_url (lit "data:image/jpeg;base64")
                   (lit "/9j/4AAQ") [] _ _));
    repeat constructor; discriminate.
Defined.

(** ** A response without text *)

(** As for [analyzeImageColor], a response to the extraction request whose
    [text] is undefined makes the prompt extraction throw a TypeError
    although the key is present and the call has resolved; [cloneDesign]
    then fails with it, with or without instructions, having sent the
    extraction request and nothing else: no image is asked for, whatever the
    backend would answer to that. *)
Theorem prompt_extraction_needs_text
    generateContent toLowerCase SYSTEM_INSTRUCTION apiKey image instructions
    response :
  truthy apiKey = true ->
  generateContent (extractionRequest SYSTEM_INSTRUCTION image)
  = Resolved response ->
  response_text response = None ->
  DesignExtractor.extractDesignPrompt generateContent SYSTEM_INSTRUCTION
    apiKey image
  = Rejected (TypeError
                (lit "Cannot read properties of undefined (reading 'trim')"))
  /\ GeminiService.cloneDesign generateContent toLowerCase SYSTEM_INSTRUCTION
       apiKey image instructions
     = Rejected (TypeError
                   (lit "Cannot read properties of undefined (reading 'trim')"))
  /\ asked (Traced.cloneDesign generateContent toLowerCase SYSTEM_INSTRUCTION
              apiKey image instructions)
     = [extractionRequest SYSTEM_INSTRUCTION image].
Proof.
  intros Hk Hr Ht.
  assert (E : DesignExtractor.extractDesignPrompt generateContent
                SYSTEM_INSTRUCTION apiKey image
              = Rejected undefinedTrim).
  { unfold DesignExtractor.extractDesignPrompt, getAiClient. rewrite Hk.
    simpl negb. cbv iota.
    change {| model := lit "gemini-2.5-flash";
              contents := [textPart SYSTEM_INSTRUCTION; getImagePart image];
              responseModalities := None |}
      with (extractionRequest SYSTEM_INSTRUCTION image).
    rewrite Hr, Ht. reflexivity. }
  split; [exact E|]. split.
  - unfold GeminiService.cloneDesign. rewrite E. reflexivity.
  - unfold Traced.cloneDesign, andThen.
    rewrite Traced_extractDesignPrompt_answer, E. cbn [asked].
    unfold Traced.extractDesignPrompt, andThen, told, Traced.ask, getAiClient.
    rewrite Hk. simpl negb. cbv iota. cbn [answer asked].
    change {| model := lit "gemini-2.5-flash";
              contents := [textPart SYSTEM_INSTRUCTION; getImagePart image];
              responseModalities := None |}
      with (extractionRequest SYSTEM_INSTRUCTION image).
    rewrite Hr. reflexivity.
Qed.

Lemma prompt_extraction_needs_text_witness :
  GeminiService.cloneDesign Samples.textlessThenImage JS.toLowerCase []
    (lit "key") (lit "data:image/png;base64,AAAA") (Some (lit "add stars"))
  = Rejected (TypeError
                (lit "Cannot read properties of undefined (reading 'trim')"))
  /\ asked (Traced.cloneDesign Samples.textlessThenImage JS.toLowerCase []
              (lit "key") (lit "data:image/png;base64,AAAA")
              (Some (lit "add stars")))
     = [extractionRequest [] (lit "data:image/png;base64,AAAA")].
Proof.
  exact (proj2 (prompt_extraction_needs_text Samples.textlessThenImage
                  JS.toLowerCase [] (lit "key")
                  (lit "data:image/png;base64,AAAA") (Some (lit "add stars"))
                  {| promptFeedback := None; candidates := Some [];
                     response_text := None |}
                  eq_refl eq_refl eq_refl)).
Defined.

(** ** The prompt extraction *)

Lemma trimStart_fixed (s : jsstring) :
  (forall c t, s = c :: t -> isWhiteSpace c = false) -> trimStart s = s.
Proof.
  destruct s as [|c t]; [reflexivity|]. intros H. simpl.
  rewrite (H c t eq_refl). reflexivity.
Qed.

Lemma trimStart_suffix (s : jsstring) :
  exists blank, s = blank ++ trimStart s.
Proof.
  induction s as [|c s [blank IH]]; [exists []; reflexivity|]. simpl.
  destruct (isWhiteSpace c); [exists (c :: blank) | exists []]; simpl; congruence.
Qed.

(** Trimming a trimmed text changes nothing. *)
Lemma trim_idempotent (s : jsstring) : trim (trim s) = trim s.
Proof.
  unfold trim, trimEnd.
  set (y := trimStart s). set (z := trimStart (rev y)).
  assert (Hz : trimStart z = z)
    by (apply trimStart_fixed; intros c t E; apply (trimStart_head _ _ _ E)).
  assert (Hrz : trimStart (rev z) = rev z).
  { apply trimStart_fixed. intros c t E.
    destruct (trimStart_suffix (rev y)) as [blank Hb]. fold z in Hb.
    apply (f_equal (@rev N)) in Hb.
    rewrite rev_involutive, rev_app_distr, E in Hb. simpl in Hb.
    apply (trimStart_head s c (t ++ rev blank)). exact Hb. }
  rewrite Hrz, rev_involutive, Hz. reflexivity.
Qed.

Lemma indexOf_skip (a s p' : jsstring) (c : N) :
  Forall (fun x => x <> c) a ->
  indexOf (a ++ s) (c :: p')
  = option_map (Nat.add (length a)) (indexOf s (c :: p')).
Proof.
  induction 1 as [|x a Hx _ IH].
  - simpl app. destruct (indexOf s (c :: p')); reflexivity.
  - simpl app. cbn [indexOf startsWith].
    apply N.eqb_neq in Hx. rewrite Hx. cbn [andb].
    change (indexOf (a ++ s) (c :: p')
            = option_map (Nat.add (length a)) (indexOf s (c :: p'))) in IH.
    rewrite IH. destruct (indexOf s (c :: p')); reflexivity.
Qed.

Lemma indexOf_mismatch (x : N) (s p : jsstring) :
  startsWith (x :: s) p = false ->
  indexOf (x :: s) p = option_map S (indexOf s p).
Proof. intros H. cbn [indexOf]. rewrite H. reflexivity. Qed.

Lemma indexOf_here (p s : jsstring) : indexOf (p ++ s) p = Some 0.
Proof.
  destruct (p ++ s) eqn:E; cbn [indexOf]; rewrite <- E, startsWith_app;
    reflexivity.
Qed.

Lemma startsWith_second (x y c : N) (s p' : jsstring) :
  c <> y -> startsWith (x :: y :: s) (60%N :: c :: p') = false.
Proof.
  intros H. cbn [startsWith].
  assert (E : N.eqb y c = false) by (apply N.eqb_neq; congruence).
  rewrite E. destruct (N.eqb x 60); reflexivity.
Qed.

Lemma tagFree_literal_analysis : tagFree (lit "analysis>").
Proof. repeat constructor; discriminate. Qed.

Lemma tagFree_literal_close_analysis : tagFree (lit "/analysis>").
Proof. repeat constructor; discriminate. Qed.

(** Where a tag that starts with [<], and whose second character is neither
    [a] nor [/], is first found in a text that begins with an analysis
    block. *)
Lemma indexOf_after_analysis (intro analysis between s p' : jsstring) (c : N) :
  tagFree intro -> tagFree analysis -> tagFree between ->
  c <> 97%N -> c <> 47%N ->
  indexOf (intro ++ lit "<analysis>" ++ analysis ++ lit "</analysis>"
             ++ between ++ s) (60%N :: c :: p')
  = option_map
      (Nat.add (length (intro ++ lit "<analysis>" ++ analysis
                          ++ lit "</analysis>" ++ between)))
      (indexOf s (60%N :: c :: p')).
Proof.
  intros Hi Ha Hb Hc1 Hc2.
  rewrite (indexOf_skip intro _ (c :: p') 60%N Hi).
  change (lit "<analysis>" ++ analysis ++ lit "</analysis>" ++ between ++ s)
    with (60%N :: 97%N :: (lit "nalysis>"
                     ++ analysis ++ lit "</analysis>" ++ between ++ s)).
  rewrite indexOf_mismatch by (apply startsWith_second; congruence).
  change (97%N :: (lit "nalysis>"
                     ++ analysis ++ lit "</analysis>" ++ between ++ s))
    with (lit "analysis>" ++ analysis ++ lit "</analysis>" ++ between ++ s).
  rewrite (indexOf_skip (lit "analysis>") _ (c :: p') 60%N
             tagFree_literal_analysis).
  rewrite (indexOf_skip analysis _ (c :: p') 60%N Ha).
  change (lit "</analysis>" ++ between ++ s)
    with (60%N :: 47%N :: (lit "analysis>" ++ between ++ s)).
  rewrite indexOf_mismatch by (apply startsWith_second; congruence).
  change (47%N :: (lit "analysis>" ++ between ++ s))
    with (lit "/analysis>" ++ between ++ s).
  rewrite (indexOf_skip (lit "/analysis>") _ (c :: p') 60%N
             tagFree_literal_close_analysis).
  rewrite (indexOf_skip between _ (c :: p') 60%N Hb).
  destruct (indexOf s (60%N :: c :: p')) as [i|]; [|reflexivity].
  simpl option_map. f_equal.
  repeat first [rewrite length_app | progress cbn [length app]].
  lia.
Qed.

Lemma skipn_exact {A} (a b : list A) (n : nat) :
  n = length a -> skipn n (a ++ b) = b.
Proof.
  intros ->. rewrite skipn_app, skipn_all, Nat.sub_diag. reflexivity.
Qed.

Lemma firstn_exact {A} (a b : list A) (n : nat) :
  n = length a -> firstn n (a ++ b) = a.
Proof.
  intros ->. rewrite firstn_app, firstn_all, Nat.sub_diag, firstn_0.
  apply app_nil_r.
Qed.

(** The block of a tag, found where the tag is first found, when the text
    in it is free of tags. *)
Lemma firstTagged_block (pre inner post open close' : jsstring) :
  indexOf (pre ++ open ++ inner ++ (60%N :: close') ++ post) open
  = Some (length pre) ->
  tagFree inner ->
  DesignExtractor.firstTagged (pre ++ open ++ inner ++ (60%N :: close') ++ post)
    open (60%N :: close')
  = Some (length pre, inner, post).
Proof.
  intros Hi Hf. unfold DesignExtractor.firstTagged. rewrite Hi.
  rewrite (app_assoc pre open).
  rewrite skipn_exact by (rewrite length_app; reflexivity). cbv zeta.
  rewrite (indexOf_skip inner _ close' 60%N Hf).
  rewrite (indexOf_here (60%N :: close') post). simpl option_map.
  rewrite Nat.add_0_r.
  rewrite firstn_exact by reflexivity.
  rewrite (app_assoc inner (60%N :: close') post).
  rewrite skipn_exact by (rewrite length_app; reflexivity).
  reflexivity.
Qed.

Lemma firstTagged_final_prompt (intro analysis between prompt after : jsstring) :
  tagFree intro -> tagFree analysis -> tagFree between -> tagFree prompt ->
  DesignExtractor.firstTagged
    (documentedAnswer intro analysis between prompt after)
    (lit "<final_prompt>") (lit "</final_prompt>")
  = Some (length (intro ++ lit "<analysis>" ++ analysis ++ lit "</analysis>"
                    ++ between),
          prompt, after).
Proof.
  intros Hi Ha Hb Hp. unfold documentedAnswer.
  set (pre := intro ++ lit "<analysis>" ++ analysis ++ lit "</analysis>"
                ++ between).
  assert (E : intro ++ lit "<analysis>" ++ analysis ++ lit "</analysis>"
                ++ between ++ lit "<final_prompt>" ++ prompt
                ++ lit "</final_prompt>" ++ after
              = pre ++ lit "<final_prompt>" ++ prompt
                  ++ lit "</final_prompt>" ++ after)
    by (unfold pre; rewrite <- !app_assoc; reflexivity).
  assert (Hidx : indexOf
                   (intro ++ lit "<analysis>" ++ analysis ++ lit "</analysis>"
                      ++ between ++ lit "<final_prompt>" ++ prompt
                      ++ lit "</final_prompt>" ++ after)
                   (lit "<final_prompt>") = Some (length pre)).
  { change (indexOf
              (intro ++ lit "<analysis>" ++ analysis ++ lit "</analysis>"
                 ++ between ++ lit "<final_prompt>" ++ prompt
                 ++ lit "</final_prompt>" ++ after)
              (60%N :: 102%N :: lit "inal_prompt>") = Some (length pre)).
    rewrite (indexOf_after_analysis intro analysis between _
               (lit "inal_prompt>") 102%N Hi Ha Hb)
      by discriminate.
    change (60%N :: 102%N :: lit "inal_prompt>") with (lit "<final_prompt>").
    rewrite indexOf_here. simpl option_map. rewrite Nat.add_0_r. reflexivity. }
  rewrite E in *.
  apply (firstTagged_block pre prompt after (lit "<final_prompt>")
           (lit "/final_prompt>")); [exact Hidx | exact Hp].
Qed.

(** An answer in the format the instruction text asks for, with tag-free
    text in and around the blocks and a final prompt that is not empty,
    gives the final prompt, trimmed.  A final prompt made of white space
    only thus gives the empty prompt: the call resolves with it, it does not
    fail. *)
Theorem extractDesignPrompt_documented_answer
    generateContent SYSTEM_INSTRUCTION apiKey image response t
    intro analysis between prompt after :
  truthy apiKey = true ->
  generateContent
    {| model := lit "gemini-2.5-flash";
       contents := [textPart SYSTEM_INSTRUCTION; getImagePart image];
       responseModalities := None |} = Resolved response ->
  response_text response = Some t ->
  trim t = documentedAnswer intro analysis between prompt after ->
  tagFree intro -> tagFree analysis -> tagFree between -> tagFree prompt ->
  prompt <> [] ->
  DesignExtractor.extractDesignPrompt generateContent SYSTEM_INSTRUCTION
    apiKey image = Resolved (trim prompt)
  /\ (forallb isWhiteSpace prompt = true ->
      DesignExtractor.extractDesignPrompt generateContent SYSTEM_INSTRUCTION
        apiKey image = Resolved []).
Proof.
  intros Hk Hg Ht Hd Hi Ha Hb Hp Hne.
  assert (E : DesignExtractor.extractDesignPrompt generateContent
                SYSTEM_INSTRUCTION apiKey image = Resolved (trim prompt)).
  { unfold DesignExtractor.extractDesignPrompt, getAiClient.
    rewrite Hk, Hg, Ht. cbv zeta. rewrite Hd.
    rewrite (firstTagged_final_prompt intro analysis between prompt after
               Hi Ha Hb Hp).
    destruct prompt; [congruence | reflexivity]. }
  split; [exact E|].
  intros Hblank. rewrite E. f_equal. apply trim_nil_iff, Hblank.
Qed.

Lemma extractDesignPrompt_documented_answer_witness :
  DesignExtractor.extractDesignPrompt
    (fun _ => Resolved Samples.documented) [] (lit "key")
    (lit "data:image/png;base64,AAAA")
  = Resolved (lit "A red fox, flat style, on a solid white background").
Proof.
  refine (proj1 (extractDesignPrompt_documented_answer
            (fun _ => Resolved Samples.documented) [] (lit "key")
            (lit "data:image/png;base64,AAAA") Samples.documented
            _ [] (lit "Light shirt.") [10]%N
            ([10]%N ++ lit "A red fox, flat style, on a solid white background" ++ [10]%N)
            [] eq_refl eq_refl eq_refl eq_refl _ _ _ _ _));
    try (repeat constructor; discriminate).
Defined.

Lemma trim_not_blank (s : jsstring) (c : N) :
  In c s -> isWhiteSpace c = false -> truthy (trim s) = true.
Proof.
  intros Hin Hc. destruct (trim s) eqn:E; [|reflexivity].
  apply trim_nil_iff in E. rewrite forallb_forall in E.
  rewrite (E c Hin) in Hc. discriminate.
Qed.

Lemma truthy_trim_blank (s : jsstring) :
  truthy (trim s) = negb (forallb isWhiteSpace s).
Proof.
  destruct (forallb isWhiteSpace s) eqn:E.
  - apply trim_nil_iff in E. rewrite E. reflexivity.
  - destruct (trim s) eqn:Et; [|reflexivity].
    apply trim_nil_iff in Et. congruence.
Qed.

Lemma indexOf_nil (c : N) (p' : jsstring) : indexOf [] (c :: p') = None.
Proof. reflexivity. Qed.

Lemma firstTagged_analysis (intro analysis rest : jsstring) :
  tagFree intro -> tagFree analysis ->
  DesignExtractor.firstTagged
    (intro ++ lit "<analysis>" ++ analysis ++ lit "</analysis>" ++ rest)
    (lit "<analysis>") (lit "</analysis>")
  = Some (length intro, analysis, rest).
Proof.
  intros Hi Ha.
  apply (firstTagged_block intro analysis rest (lit "<analysis>")
           (lit "/analysis>")); [|exact Ha].
  change (lit "<analysis>") with (60%N :: lit "analysis>") at 2.
  rewrite (indexOf_skip intro _ (lit "analysis>") 60%N Hi).
  change (60%N :: lit "analysis>") with (lit "<analysis>").
  rewrite indexOf_here. simpl. rewrite Nat.add_0_r. reflexivity.
Qed.

(** The fallback of the extraction, for an answer in which the only [<]
    are those of one analysis block, and for an answer without any [<]: the
    first gives the text around the block, trimmed, the second gives itself,
    trimmed; when nothing but white space is left, and only then, the call
    fails with the extraction error. *)
Theorem extractDesignPrompt_fallback
    generateContent SYSTEM_INSTRUCTION apiKey image response t :
  truthy apiKey = true ->
  generateContent
    {| model := lit "gemini-2.5-flash";
       contents := [textPart SYSTEM_INSTRUCTION; getImagePart image];
       responseModalities := None |} = Resolved response ->
  response_text response = Some t ->
  let failed :=
    Rejected (Error (lit "Failed to extract a valid design prompt from the AI response.")) in
  (forall intro analysis rest,
      trim t = intro ++ lit "<analysis>" ++ analysis ++ lit "</analysis>" ++ rest ->
      tagFree intro -> tagFree analysis -> tagFree rest ->
      DesignExtractor.extractDesignPrompt generateContent SYSTEM_INSTRUCTION
        apiKey image
      = if forallb isWhiteSpace (intro ++ rest) then failed
        else Resolved (trim (intro ++ rest)))
  /\ (tagFree (trim t) ->
      DesignExtractor.extractDesignPrompt generateContent SYSTEM_INSTRUCTION
        apiKey image
      = if forallb isWhiteSpace t then failed else Resolved (trim t)).
Proof.
  intros Hk Hg Ht failed. split.
  - intros intro analysis rest Hd Hi Ha Hr.
    unfold DesignExtractor.extractDesignPrompt, getAiClient.
    rewrite Hk, Hg, Ht. cbv zeta. rewrite Hd.
    assert (Hnone : DesignExtractor.firstTagged
                      (intro ++ lit "<analysis>" ++ analysis
                         ++ lit "</analysis>" ++ rest)
                      (lit "<final_prompt>") (lit "</final_prompt>") = None).
    { unfold DesignExtractor.firstTagged.
      rewrite <- (app_nil_r rest).
      change (lit "<final_prompt>") with (60%N :: 102%N :: lit "inal_prompt>").
      rewrite (indexOf_after_analysis intro analysis rest []
                 (lit "inal_prompt>") 102%N Hi Ha Hr)
        by discriminate.
      reflexivity. }
    rewrite Hnone, (firstTagged_analysis intro analysis rest Hi Ha).
    rewrite firstn_exact by reflexivity.
    rewrite truthy_trim_blank.
    destruct (forallb isWhiteSpace (intro ++ rest)); reflexivity.
  - intros Hfree.
    unfold DesignExtractor.extractDesignPrompt, getAiClient.
    rewrite Hk, Hg, Ht. cbv zeta.
    assert (Hnone : forall c p' close,
               DesignExtractor.firstTagged (trim t) (60%N :: c :: p') close
               = None).
    { intros c p' close. unfold DesignExtractor.firstTagged.
      rewrite <- (app_nil_r (trim t)).
      rewrite (indexOf_skip (trim t) [] (c :: p') 60%N Hfree).
      reflexivity. }
    change (lit "<final_prompt>") with (60%N :: 102%N :: lit "inal_prompt>").
    change (lit "<analysis>") with (60%N :: 97%N :: lit "nalysis>").
    rewrite !Hnone, trim_idempotent, truthy_trim_blank.
    destruct (forallb isWhiteSpace t); reflexivity.
Qed.

Lemma extractDesignPrompt_fallback_witness :
  DesignExtractor.extractDesignPrompt
    (fun _ => Resolved Samples.untagged) [] (lit "key")
    (lit "data:image/png;base64,AAAA")
  = Resolved (lit "A red fox on a solid white background")
  /\ DesignExtractor.extractDesignPrompt
       (fun _ => Resolved Samples.analysisOnly) [] (lit "key")
       (lit "data:image/png;base64,AAAA")
     = Resolved (lit "A red fox").
Proof.
  split.
  - refine (proj2 (extractDesignPrompt_fallback
              (fun _ => Resolved Samples.untagged) [] (lit "key")
              (lit "data:image/png;base64,AAAA") Samples.untagged
              ([32]%N ++ lit "A red fox on a solid white background" ++ [10]%N)
              eq_refl eq_refl eq_refl) _).
    repeat constructor; discriminate.
  - refine (proj1 (extractDesignPrompt_fallback
              (fun _ => Resolved Samples.analysisOnly) [] (lit "key")
              (lit "data:image/png;base64,AAAA") Samples.analysisOnly
              (lit "<analysis>Light shirt.</analysis>" ++ [10]%N
                 ++ lit "A red fox")
              eq_refl eq_refl eq_refl)
              [] (lit "Light shirt.") ([10]%N ++ lit "A red fox")
              eq_refl _ _ _);
      repeat constructor; discriminate.
Defined.

(** An answer in the documented format whose final-prompt block is empty
    does not fail either: the expression matches the block with an empty
    capture, the empty capture is falsy, and the fallback runs; it cuts the
    analysis block out and resolves with the rest, the two empty tags
    included. *)
Theorem extractDesignPrompt_empty_final_prompt
    generateContent SYSTEM_INSTRUCTION apiKey image response t
    intro analysis between after :
  truthy apiKey = true ->
  generateContent
    {| model := lit "gemini-2.5-flash";
       contents := [textPart SYSTEM_INSTRUCTION; getImagePart image];
       responseModalities := None |} = Resolved response ->
  response_text response = Some t ->
  trim t = documentedAnswer intro analysis between [] after ->
  tagFree intro -> tagFree analysis -> tagFree between ->
  DesignExtractor.extractDesignPrompt generateContent SYSTEM_INSTRUCTION
    apiKey image
  = Resolved (trim (intro ++ between ++ lit "<final_prompt></final_prompt>"
                      ++ after)).
Proof.
  intros Hk Hg Ht Hd Hi Ha Hb.
  unfold DesignExtractor.extractDesignPrompt, getAiClient.
  rewrite Hk, Hg, Ht. cbv zeta. rewrite Hd.
  rewrite (firstTagged_final_prompt intro analysis between [] after
             Hi Ha Hb (Forall_nil _)).
  cbn [truthy]. unfold documentedAnswer.
  rewrite (firstTagged_analysis intro analysis _ Hi Ha).
  rewrite firstn_exact by reflexivity.
  change (lit "<final_prompt>" ++ [] ++ lit "</final_prompt>" ++ after)
    with (lit "<final_prompt></final_prompt>" ++ after).
  rewrite (trim_not_blank _ 60%N); [reflexivity | | reflexivity].
  apply in_or_app. right. apply in_or_app. right. left. reflexivity.
Qed.

Lemma extractDesignPrompt_empty_final_prompt_witness :
  DesignExtractor.extractDesignPrompt
    (fun _ => Resolved Samples.emptyFinalPrompt) [] (lit "key")
    (lit "data:image/png;base64,AAAA")
  = Resolved (lit "<final_prompt></final_prompt>").
Proof.
  refine (extractDesignPrompt_empty_final_prompt
            (fun _ => Resolved Samples.emptyFinalPrompt) [] (lit "key")
            (lit "data:image/png;base64,AAAA") Samples.emptyFinalPrompt
            _ [] (lit "Unclear image.") [10]%N []
            eq_refl eq_refl eq_refl eq_refl _ _ _);
    repeat constructor; discriminate.
Defined.

(* ================================================================== *)
(** * Further properties of the orchestrator *)
(* ================================================================== *)

(** ** The loading flag *)

Lemma trace_keeps_loading (s : AppState) (us : list Update) :
  Forall KeepsLoading us ->
  Forall (fun s' => isLoading s' = isLoading s) (trace s us).
Proof.
  intros H. revert s. induction H as [|u us Hu _ IH]; intros s; cbn [trace].
  - constructor; [reflexivity | constructor].
  - constructor; [reflexivity|].
    eapply Forall_impl; [|apply IH]. simpl. intros s' ->. apply Hu.
Qed.

Ltac keeps_loading :=
  repeat first
    [ apply Forall_nil
    | apply Forall_cons
    | apply Forall_app; split
    | match goal with
      | |- context [if ?b then _ else _] => destruct b
      end ];
  try (intros ?; reflexivity).

Lemma tryBlock_keeps_loading PRODUCTS svc (r : AppState) (image : jsstring) :
  Forall KeepsLoading (fst (tryBlock PRODUCTS svc r image)).
Proof.
  unfold tryBlock.
  destruct (analyzeImageColor svc (geminiApiKey r) image) as [color|e];
    cbn [bind call await fst app]; [|keeps_loading].
  destruct (cloneDesign svc (geminiApiKey r) image (instructionsToPass r))
    as [cloned|e]; cbn [bind call await fst app]; [|keeps_loading].
  destruct (removeBackground svc (photoroomApiKey r) cloned)
    as [transparent|e]; cbn [bind call await fst app]; [|keeps_loading].
  destruct (resizeDesign svc transparent) as [resized|e];
    cbn [bind call await fst app]; [|keeps_loading].
  destruct (0 <? length (selectedProducts r));
    cbn [bind call await ret fst app]; [|keeps_loading].
  do 10 (apply Forall_cons; [intros ?; reflexivity|]).
  rewrite Forall_map, Forall_forall. intros p _ s.
  destruct (createMockup svc p (geminiApiKey r) resized
              (productPrompt (PRODUCTS p)) color (instructionsToPass r));
    reflexivity.
Qed.

(** A run that starts has the loading flag set from its start to the end of
    its [try] and [catch] blocks, at every state in between, and ends with
    the flag cleared and the loading message empty, whichever stage
    fails. *)
Theorem loading_flag_spans_the_run PRODUCTS svc (r : AppState)
    (image : jsstring) :
  canStart r image ->
  handleGenerateClick PRODUCTS svc r
  = startRun PRODUCTS r
    ++ (fst (tryBlock PRODUCTS svc r image) ++ catchPart PRODUCTS svc r image)
    ++ finallyBlock
  /\ Forall (fun s => isLoading s = true)
       (trace (run r (startRun PRODUCTS r))
          (fst (tryBlock PRODUCTS svc r image) ++ catchPart PRODUCTS svc r image))
  /\ isLoading (run r (handleGenerateClick PRODUCTS svc r)) = false
  /\ loadingMessage (run r (handleGenerateClick PRODUCTS svc r)) = [].
Proof.
  intros Hc.
  assert (E : handleGenerateClick PRODUCTS svc r
              = startRun PRODUCTS r
                ++ (fst (tryBlock PRODUCTS svc r image)
                      ++ catchPart PRODUCTS svc r image)
                ++ finallyBlock).
  { rewrite (handleGenerateClick_runs PRODUCTS svc r image Hc).
    unfold catchPart. rewrite <- !app_assoc. reflexivity. }
  split; [exact E|]. split.
  - assert (Hstart : isLoading (run r (startRun PRODUCTS r)) = true)
      by (unfold startRun; destruct (0 <? length (selectedProducts r));
          reflexivity).
    eapply Forall_impl;
      [|apply trace_keeps_loading].
    + simpl. intros s ->. exact Hstart.
    + apply Forall_app. split; [apply tryBlock_keeps_loading|].
      unfold catchPart, catchBlock.
      destruct (snd (tryBlock PRODUCTS svc r image)); keeps_loading.
  - rewrite E, !app_assoc, run_app. split; reflexivity.
Qed.

Lemma loading_flag_spans_the_run_witness :
  isLoading (run Samples.uploaded
               (handleGenerateClick Samples.PRODUCTS (Samples.services 2)
                  Samples.uploaded)) = false.
Proof.
  exact (proj1 (proj2 (proj2 (loading_flag_spans_the_run Samples.PRODUCTS
           (Samples.services 2) Samples.uploaded
           (lit "data:image/png;base64,AAAA") Samples_canStart)))).
Defined.

(** ** What a failed run reports *)

Lemma run_failed_error PRODUCTS svc (r : AppState) (image : jsstring)
    (err : Thrown) :
  canStart r image ->
  snd (tryBlock PRODUCTS svc r image) = Rejected err ->
  error (run r (handleGenerateClick PRODUCTS svc r)) = Some (shownMessage err).
Proof.
  intros Hc Hthrown.
  rewrite (handleGenerateClick_runs PRODUCTS svc r image Hc), Hthrown.
  rewrite !run_app.
  set (s := run (run r (startRun PRODUCTS r))
              (fst (tryBlock PRODUCTS svc r image))).
  clearbody s. unfold catchBlock, finallyBlock.
  destruct (Status_eqb (ClonedDesign.status (clonedDesign r)) PENDING);
    destruct (negb (Status_eqb (ClonedDesign.status (removedBgDesign r)) SUCCESS));
    destruct (negb (Status_eqb (ClonedDesign.status (resizedDesign r)) SUCCESS));
    destruct (0 <? length (selectedProducts r)); reflexivity.
Qed.

(** The error a run ends with is the message of the first stage that was
    rejected, or the stock message when that rejection has no message or an
    empty one; the outcomes of the stages after it play no part. *)
Theorem failed_run_reports_first_failure PRODUCTS svc (r : AppState)
    (image : jsstring) (err : Thrown) :
  canStart r image ->
  let shown := error (run r (handleGenerateClick PRODUCTS svc r)) in
  (analyzeImageColor svc (geminiApiKey r) image = Rejected err ->
   shown = Some (shownMessage err))
  /\ (forall color,
        analyzeImageColor svc (geminiApiKey r) image = Resolved color ->
        (cloneDesign svc (geminiApiKey r) image (instructionsToPass r)
         = Rejected err -> shown = Some (shownMessage err))
        /\ (forall cloned,
              cloneDesign svc (geminiApiKey r) image (instructionsToPass r)
              = Resolved cloned ->
              (removeBackground svc (photoroomApiKey r) cloned = Rejected err ->
               shown = Some (shownMessage err))
              /\ (forall transparent,
                    removeBackground svc (photoroomApiKey r) cloned
                    = Resolved transparent ->
                    resizeDesign svc transparent = Rejected err ->
                    shown = Some (shownMessage err)))).
Proof.
  intros Hc shown. subst shown. split; [|intros color Ha; split;
    [|intros cloned Hcl; split; [|intros transparent Hbg]]];
    intros Hfail; apply (run_failed_error PRODUCTS svc r image err Hc);
    unfold tryBlock.
  - rewrite Hfail. reflexivity.
  - rewrite Ha, Hfail. reflexivity.
  - rewrite Ha, Hcl. cbn [bind call await]. rewrite Hfail. reflexivity.
  - rewrite Ha, Hcl. cbn [bind call await]. rewrite Hbg. cbn [bind call await].
    rewrite Hfail. reflexivity.
Qed.

Lemma failed_run_reports_first_failure_witness :
  error (run Samples.uploaded
           (handleGenerateClick Samples.PRODUCTS (Samples.services 2)
              Samples.uploaded))
  = Some (lit "Background removal failed. Status: 500").
Proof.
  exact (proj1 (proj2 (proj2 (failed_run_reports_first_failure
           Samples.PRODUCTS (Samples.services 2) Samples.uploaded
           (lit "data:image/png;base64,AAAA")
           (Error (lit "Background removal failed. Status: 500"))
           Samples_canStart) (lit "#1A2B3C") eq_refl)
           (lit "data:image/png;base64,CLONE") eq_refl) eq_refl).
Defined.

(** ** The end of a run *)

(** When the background removal is rejected in a run started from a render
    whose cloned asset is not [PENDING] and whose two later assets are not
    [SUCCESS] (as after an upload), the run ends with the cloned asset
    [SUCCESS] with its image, the two later assets [FAILED] without image
    and every selected product's mockup [FAILED]; resizing and the mockup
    calls have no say in it. *)
Theorem removeBackground_failure_end_state PRODUCTS svc (r : AppState)
    (image color cloned : jsstring) (err : Thrown) :
  canStart r image ->
  ClonedDesign.status (clonedDesign r) <> PENDING ->
  ClonedDesign.status (removedBgDesign r) <> SUCCESS ->
  ClonedDesign.status (resizedDesign r) <> SUCCESS ->
  analyzeImageColor svc (geminiApiKey r) image = Resolved color ->
  cloneDesign svc (geminiApiKey r) image (instructionsToPass r)
  = Resolved cloned ->
  removeBackground svc (photoroomApiKey r) cloned = Rejected err ->
  let final := run r (handleGenerateClick PRODUCTS svc r) in
  clonedDesign final = ClonedDesign.mk SUCCESS (Some cloned)
  /\ removedBgDesign final = ClonedDesign.mk FAILED None
  /\ resizedDesign final = ClonedDesign.mk FAILED None
  /\ mockups final
     = List.map (fun productId =>
                   Mockup.mk productId (productName (PRODUCTS productId))
                     FAILED None)
         (selectedProducts r).
Proof.
  intros Hc H1 H2 H3 Ha Hcl Hbg final. subst final.
  assert (Hend : snd (tryBlock PRODUCTS svc r image) = Rejected err).
  { unfold tryBlock. rewrite Ha, Hcl. cbn [bind call await]. rewrite Hbg.
    reflexivity. }
  split; [|split; [|split;
    [|apply (mockups_after_failure PRODUCTS svc r image err Hc Hend)]]];
    rewrite (handleGenerateClick_runs PRODUCTS svc r image Hc);
    unfold tryBlock; rewrite Ha, Hcl; cbn [bind call await]; rewrite Hbg;
    cbn [bind call await fst snd app];
    unfold catchBlock, startRun, finallyBlock;
    destruct (ClonedDesign.status (clonedDesign r)); try congruence;
    destruct (ClonedDesign.status (removedBgDesign r)); try congruence;
    destruct (ClonedDesign.status (resizedDesign r)); try congruence;
    destruct (0 <? length (selectedProducts r)); reflexivity.
Qed.

Lemma removeBackground_failure_end_state_witness :
  resizedDesign (run Samples.uploaded
                   (handleGenerateClick Samples.PRODUCTS (Samples.services 2)
                      Samples.uploaded))
  = ClonedDesign.mk FAILED None.
Proof.
  refine (proj1 (proj2 (proj2 (removeBackground_failure_end_state
            Samples.PRODUCTS (Samples.services 2) Samples.uploaded
            (lit "data:image/png;base64,AAAA") (lit "#1A2B3C")
            (lit "data:image/png;base64,CLONE")
            (Error (lit "Background removal failed. Status: 500"))
            Samples_canStart _ _ _ eq_refl eq_refl eq_refl))));
    discriminate.
Defined.

(** When the four stages succeed, each on the result of the one before,
    the run ends with the cloned and the background-removed asset [SUCCESS]
    with the images of their stages, no product details, the loading flag
    cleared and the loading message empty. *)
Theorem successful_run_end_state PRODUCTS svc (r : AppState)
    (image color cloned transparent resized : jsstring) :
  canStart r image ->
  analyzeImageColor svc (geminiApiKey r) image = Resolved color ->
  cloneDesign svc (geminiApiKey r) image (instructionsToPass r)
  = Resolved cloned ->
  removeBackground svc (photoroomApiKey r) cloned = Resolved transparent ->
  resizeDesign svc transparent = Resolved resized ->
  let final := run r (handleGenerateClick PRODUCTS svc r) in
  clonedDesign final = ClonedDesign.mk SUCCESS (Some cloned)
  /\ removedBgDesign final = ClonedDesign.mk SUCCESS (Some transparent)
  /\ productDetails final = None
  /\ isLoading final = false
  /\ loadingMessage final = []
  /\ uploadedImage final = uploadedImage r.
Proof.
  intros Hc Ha Hcl Hbg Hrs final. subst final.
  rewrite (run_success PRODUCTS svc r image color cloned transparent resized
             Hc Ha Hcl Hbg Hrs).
  unfold startRun.
  destruct (0 <? length (selectedProducts r)); repeat split.
Qed.

Lemma successful_run_end_state_witness :
  removedBgDesign (run Samples.uploaded
                     (handleGenerateClick Samples.PRODUCTS (Samples.services 0)
                        Samples.uploaded))
  = ClonedDesign.mk SUCCESS (Some (lit "data:image/png;base64,CUTOUT")).
Proof.
  exact (proj1 (proj2 (successful_run_end_state Samples.PRODUCTS
           (Samples.services 0) Samples.uploaded
           (lit "data:image/png;base64,AAAA") (lit "#1A2B3C")
           (lit "data:image/png;base64,CLONE")
           (lit "data:image/png;base64,CUTOUT")
           (lit "data:image/png;base64,PRINT")
           Samples_canStart eq_refl eq_refl eq_refl eq_refl))).
Defined.

(** ** The mode *)

(** In cloner mode the instructions the user has saved play no part in a
    run: the click issues the same setter calls, and so hands the services
    the same arguments, whatever the instructions are. *)
Theorem cloner_mode_ignores_instructions PRODUCTS svc (r : AppState)
    (instructions : jsstring) :
  mode r = cloner ->
  handleGenerateClick PRODUCTS svc
    (AppActions.setAdditionalInstructions instructions r)
  = handleGenerateClick PRODUCTS svc r.
Proof.
  intros Hm. unfold handleGenerateClick, tryBlock, instructionsToPass.
  cbn [AppActions.setAdditionalInstructions geminiApiKey uploadedImage mode
       photoroomApiKey selectedProducts additionalInstructions].
  rewrite Hm. reflexivity.
Qed.

Lemma cloner_mode_ignores_instructions_witness :
  handleGenerateClick Samples.PRODUCTS (Samples.services 0)
    (AppActions.setAdditionalInstructions (lit "make it red") Samples.uploaded)
  = handleGenerateClick Samples.PRODUCTS (Samples.services 0) Samples.uploaded.
Proof.
  exact (cloner_mode_ignores_instructions Samples.PRODUCTS
           (Samples.services 0) Samples.uploaded (lit "make it red") eq_refl).
Defined.

(** ** Witnesses of the statements about completion and reachability *)

Lemma mockups_terminal_at_completion_witness :
  Forall (fun m => terminal (Mockup.status m) = true)
    (mockups (run Samples.uploaded
                (handleGenerateClick Samples.PRODUCTS (Samples.services 1)
                   Samples.uploaded))).
Proof.
  exact (mockups_terminal_at_completion Samples.PRODUCTS (Samples.services 1)
           Samples.uploaded (lit "data:image/png;base64,AAAA")
           Samples_canStart Samples_selection_NoDup).
Defined.

(* ================================================================== *)
(** * Further properties of the other handlers *)
(* ================================================================== *)

(** ** The selection of products *)

Lemma handleProductSelect_selection (s : AppState) (productId : jsstring) :
  selectedProducts (run s (handleProductSelect productId))
  = if existsb (eqb productId) (selectedProducts s)
    then filter (fun id => negb (eqb id productId)) (selectedProducts s)
    else if 6 <=? length (selectedProducts s) then selectedProducts s
         else selectedProducts s ++ [productId].
Proof.
  unfold handleProductSelect, run. cbn [fold_left].
  destruct (existsb (eqb productId) (selectedProducts s)); [reflexivity|].
  destruct (6 <=? length (selectedProducts s)); reflexivity.
Qed.

Lemma existsb_eqb_In (x : jsstring) (l : list jsstring) :
  existsb (eqb x) l = true <-> In x l.
Proof.
  rewrite existsb_exists. split.
  - intros [y [Hy E]]. apply eqb_eq in E. subst. exact Hy.
  - intros H. exists x. split; [exact H | apply eqb_refl].
Qed.

Lemma filter_absent (x : jsstring) (l : list jsstring) :
  ~ In x l -> filter (fun id => negb (eqb id x)) l = l.
Proof.
  induction l as [|y l IH]; intros H; simpl; [reflexivity|].
  assert (E : eqb y x = false)
    by (apply eqb_neq; intros ->; apply H; left; reflexivity).
  rewrite E. simpl. f_equal. apply IH. intros Hin. apply H. right. exact Hin.
Qed.

(** From a first selection of at most six products, no state the
    application reaches has more than six products selected. *)
Theorem selection_never_exceeds_six PRODUCTS initialSelection
    storedGeminiKey storedPhotoroomKey (s : AppState) :
  length initialSelection <= 6 ->
  reachable PRODUCTS initialSelection storedGeminiKey storedPhotoroomKey s ->
  length (selectedProducts s) <= 6.
Proof.
  intros Hi. induction 1 as [|s fileType toBase64 _ IH
                              |s productId _ IH
                              |s svc _ IH].
  - exact Hi.
  - rewrite run_keeps_selection; [exact IH|].
    unfold processImageFile.
    destruct (startsWith fileType (lit "image/")); [destruct toBase64|];
      keeps_selection.
  - rewrite handleProductSelect_selection.
    destruct (existsb (eqb productId) (selectedProducts s)).
    + eapply Nat.le_trans; [apply filter_length_le | exact IH].
    + destruct (6 <=? length (selectedProducts s)) eqn:E; [exact IH|].
      apply Nat.leb_gt in E. rewrite length_app. simpl. lia.
  - rewrite run_keeps_selection; [exact IH|].
    apply handleGenerateClick_keeps_selection.
Qed.

Lemma selection_never_exceeds_six_witness :
  length (selectedProducts
            (run Samples.uploaded (handleProductSelect (lit "E")))) <= 6.
Proof.
  refine (selection_never_exceeds_six Samples.PRODUCTS
            [lit "A"; lit "B"; lit "C"; lit "D"] (Some (lit "key")) None _ _ _).
  - simpl. lia.
  - apply reachable_select. apply reachable_upload. apply reachable_initial.
Defined.

(** Selecting a product that is not selected, while fewer than six are,
    puts it last; selecting it again takes it out and gives the selection
    back as it was.  Taking out a selected product and selecting it again
    moves it to the end. *)
Theorem select_twice (s : AppState) (productId : jsstring) :
  (~ In productId (selectedProducts s) ->
   length (selectedProducts s) < 6 ->
   selectedProducts (run s (handleProductSelect productId))
   = selectedProducts s ++ [productId]
   /\ selectedProducts (run (run s (handleProductSelect productId))
                          (handleProductSelect productId))
      = selectedProducts s)
  /\ (In productId (selectedProducts s) ->
      length (selectedProducts s) <= 6 ->
      ~ In productId (selectedProducts (run s (handleProductSelect productId)))
      /\ selectedProducts (run (run s (handleProductSelect productId))
                             (handleProductSelect productId))
         = filter (fun id => negb (eqb id productId)) (selectedProducts s)
             ++ [productId]).
Proof.
  split.
  - intros Hnot Hlen.
    assert (E1 : selectedProducts (run s (handleProductSelect productId))
                 = selectedProducts s ++ [productId]).
    { rewrite handleProductSelect_selection.
      destruct (existsb (eqb productId) (selectedProducts s)) eqn:E.
      - apply existsb_eqb_In in E. contradiction.
      - apply Nat.leb_gt in Hlen. rewrite Hlen. reflexivity. }
    split; [exact E1|].
    rewrite handleProductSelect_selection, E1.
    assert (E2 : existsb (eqb productId) (selectedProducts s ++ [productId])
                 = true)
      by (apply existsb_eqb_In, in_or_app; right; left; reflexivity).
    rewrite E2, filter_app, filter_absent by exact Hnot.
    simpl. rewrite eqb_refl. simpl. apply app_nil_r.
  - intros Hin Hsix.
    assert (E1 : selectedProducts (run s (handleProductSelect productId))
                 = filter (fun id => negb (eqb id productId))
                     (selectedProducts s)).
    { rewrite handleProductSelect_selection.
      apply existsb_eqb_In in Hin. rewrite Hin. reflexivity. }
    assert (Hout : ~ In productId
                     (filter (fun id => negb (eqb id productId))
                        (selectedProducts s))).
    { intros H. apply filter_In in H. destruct H as [_ H].
      rewrite eqb_refl in H. discriminate. }
    split; [rewrite E1; exact Hout|].
    rewrite handleProductSelect_selection, E1.
    destruct (existsb (eqb productId)
                (filter (fun id => negb (eqb id productId))
                   (selectedProducts s))) eqn:E.
    { apply existsb_eqb_In in E. contradiction. }
    assert (Hlen : length (filter (fun id => negb (eqb id productId))
                             (selectedProducts s)) < length (selectedProducts s)).
    { clear E1 E Hout Hsix. induction (selectedProducts s) as [|y l IH];
        [destruct Hin|]. simpl.
      destruct (eqb y productId) eqn:Ey; simpl.
      - pose proof (filter_length_le (fun id => negb (eqb id productId)) l).
        lia.
      - destruct Hin as [->|Hin]; [rewrite eqb_refl in Ey; discriminate|].
        specialize (IH Hin). lia. }
    assert (E6 : (6 <=? length (filter (fun id => negb (eqb id productId))
                                  (selectedProducts s))) = false)
      by (apply Nat.leb_gt; lia).
    rewrite E6. reflexivity.
Qed.

Lemma select_twice_witness :
  selectedProducts (run (run Samples.uploaded (handleProductSelect (lit "E")))
                      (handleProductSelect (lit "E")))
  = selectedProducts Samples.uploaded.
Proof.
  refine (proj2 (proj1 (select_twice Samples.uploaded (lit "E")) _ _)).
  - simpl. intuition discriminate.
  - simpl. lia.
Defined.

(** With six products selected, selecting a seventh leaves the selection
    as it is and reports the limit; a selected product can still be taken
    out. *)
Theorem selection_full (s : AppState) (productId : jsstring) :
  6 <= length (selectedProducts s) ->
  (~ In productId (selectedProducts s) ->
   selectedProducts (run s (handleProductSelect productId)) = selectedProducts s
   /\ error (run s (handleProductSelect productId))
      = Some (lit "You can select a maximum of 6 mockups."))
  /\ (In productId (selectedProducts s) ->
      NoDup (selectedProducts s) ->
      length (selectedProducts (run s (handleProductSelect productId)))
      = length (selectedProducts s) - 1
      /\ error (run s (handleProductSelect productId)) = error s).
Proof.
  intros Hfull. split.
  - intros Hnot.
    assert (E : existsb (eqb productId) (selectedProducts s) = false).
    { destruct (existsb (eqb productId) (selectedProducts s)) eqn:E;
        [|reflexivity].
      apply existsb_eqb_In in E. contradiction. }
    apply Nat.leb_le in Hfull.
    unfold handleProductSelect, run. cbn [fold_left].
    rewrite E, Hfull. split; reflexivity.
  - intros Hin Hnd.
    assert (E : existsb (eqb productId) (selectedProducts s) = true)
      by (apply existsb_eqb_In; exact Hin).
    unfold handleProductSelect, run. cbn [fold_left]. rewrite E.
    split; [|reflexivity]. simpl.
    clear E Hfull. induction Hnd as [|y l Hy Hnd IH]; [destruct Hin|].
    simpl. destruct (eqb y productId) eqn:Ey; simpl.
    + apply eqb_eq in Ey. subst y. rewrite filter_absent by exact Hy. lia.
    + destruct Hin as [->|Hin]; [rewrite eqb_refl in Ey; discriminate|].
      rewrite (IH Hin). destruct l; [destruct Hin | simpl; lia].
Qed.

Lemma selection_full_witness :
  selectedProducts (run Samples.sixSelected (handleProductSelect (lit "G")))
  = selectedProducts Samples.sixSelected.
Proof.
  refine (proj1 (proj1 (selection_full Samples.sixSelected (lit "G") _) _)).
  - simpl. lia.
  - simpl. intuition discriminate.
Defined.

(** ** Downloads *)

Lemma dashWhiteSpace_no_white_space (inRun : bool) (s : jsstring) :
  Forall (fun c => isWhiteSpace c = false) (AppActions.dashWhiteSpace inRun s).
Proof.
  revert inRun. induction s as [|c s IH]; intros inRun; simpl; [constructor|].
  destruct (isWhiteSpace c) eqn:E.
  - destruct inRun; [apply IH|]. constructor; [reflexivity | apply IH].
  - constructor; [exact E | apply IH].
Qed.

Lemma dashWhiteSpace_unchanged (s : jsstring) :
  Forall (fun c => isWhiteSpace c = false) s ->
  AppActions.dashWhiteSpace false s = s.
Proof.
  induction 1 as [|c s Hc _ IH]; simpl; [reflexivity|].
  rewrite Hc, IH. reflexivity.
Qed.

(** The name of a downloaded file has no white space in it, whatever the
    name of the mockup, and ends with [.png]; a name that has no white
    space once in lower case is kept, in lower case. *)
Theorem download_name_has_no_white_space
    (toLowerCase : jsstring -> jsstring) (imageUrl : option jsstring)
    (name : jsstring) :
  let link := AppActions.handleDownload toLowerCase imageUrl name in
  Forall (fun c => isWhiteSpace c = false) (AppActions.download link)
  /\ endsWith (AppActions.download link) (lit ".png") = true
  /\ AppActions.href link = imageUrl
  /\ (Forall (fun c => isWhiteSpace c = false) (toLowerCase name) ->
      AppActions.download link = toLowerCase name ++ lit ".png").
Proof.
  unfold AppActions.handleDownload. cbn [AppActions.download AppActions.href].
  split; [|split; [|split]].
  - apply Forall_app. split; [apply dashWhiteSpace_no_white_space|].
    repeat constructor.
  - apply endsWith_app.
  - reflexivity.
  - intros H. rewrite dashWhiteSpace_unchanged by exact H. reflexivity.
Qed.

Lemma download_name_has_no_white_space_witness :
  AppActions.download
    (AppActions.handleDownload JS.toLowerCase None (lit "Mug"))
  = lit "mug.png".
Proof.
  refine (proj2 (proj2 (proj2 (download_name_has_no_white_space
                                 JS.toLowerCase None (lit "Mug")))) _).
  vm_compute. repeat constructor.
Defined.

(** [handleDownloadAll] schedules one download per mockup whose status is
    [SUCCESS], in their order, 300 milliseconds apart from 0 on; in a state
    that satisfies the invariant of the assets each of them has an image to
    download. *)
Theorem handleDownloadAll_downloads_images
    (toLowerCase : jsstring -> jsstring) (r : AppState) :
  Forall mockupOk (mockups r) ->
  let succeeded :=
    filter (fun m => Status_eqb (Mockup.status m) SUCCESS) (mockups r) in
  List.map (fun d => AppActions.href (snd d))
    (AppActions.handleDownloadAll toLowerCase r)
  = List.map Mockup.imageUrl succeeded
  /\ List.map fst (AppActions.handleDownloadAll toLowerCase r)
     = List.map (fun index => index * 300) (seq 0 (length succeeded))
  /\ Forall (fun d => AppActions.href (snd d) <> None)
       (AppActions.handleDownloadAll toLowerCase r).
Proof.
  intros Hok succeeded. unfold AppActions.handleDownloadAll. fold succeeded.
  assert (Hsnd : forall (l : list Mockup.t) start,
             List.map snd (combine (seq start (length l)) l) = l).
  { induction l as [|m l IH]; intros start; simpl; [reflexivity|].
    rewrite IH. reflexivity. }
  assert (Hfst : forall (l : list Mockup.t) start,
             List.map fst (combine (seq start (length l)) l)
             = seq start (length l)).
  { induction l as [|m l IH]; intros start; simpl; [reflexivity|].
    rewrite IH. reflexivity. }
  split; [|split].
  - rewrite map_map.
    transitivity (List.map Mockup.imageUrl
                    (List.map snd (combine (seq 0 (length succeeded)) succeeded))).
    + rewrite map_map. reflexivity.
    + rewrite Hsnd. reflexivity.
  - rewrite map_map.
    transitivity (List.map (fun index => index * 300)
                    (List.map fst (combine (seq 0 (length succeeded)) succeeded))).
    + rewrite map_map. reflexivity.
    + rewrite Hfst. reflexivity.
  - rewrite Forall_map, Forall_forall. intros [i m] Hin.
    cbn [snd AppActions.href AppActions.handleDownload].
    apply in_combine_r in Hin. apply filter_In in Hin.
    destruct Hin as [Hin Hs]. rewrite Forall_forall in Hok.
    apply (Hok m Hin).
    destruct (Mockup.status m); try discriminate. reflexivity.
Qed.

Lemma handleDownloadAll_downloads_images_witness :
  List.map fst
    (AppActions.handleDownloadAll (fun s => s)
       (run Samples.uploaded
          (handleGenerateClick Samples.PRODUCTS (Samples.services 0)
             Samples.uploaded)))
  = [0; 300; 600].
Proof.
  refine (eq_trans (proj1 (proj2 (handleDownloadAll_downloads_images
            (fun s => s)
            (run Samples.uploaded
               (handleGenerateClick Samples.PRODUCTS (Samples.services 0)
                  Samples.uploaded)) _))) eq_refl).
  exact (proj2 (proj2 (proj2 (run_ends_ok Samples.PRODUCTS
                                (Samples.services 0) Samples.uploaded
                                Samples_stateOk Samples_selection_NoDup)))).
Defined.

(** ** Product details *)

(** [handleGenerateDetails] does nothing while the background-removed asset
    has no image.  With an image it ends with the generating flag cleared
    and either the details the service resolved with and no error, or no
    details and the message of the rejection (the stock message when there
    is none); the staged assets, the mockups and the loading flag of a run
    are never touched. *)
Theorem handleGenerateDetails_outcome
    (generateProductDetails : jsstring -> jsstring -> Settled Thrown ProductDetails)
    (d : AppActions.DetailsState) :
  let r := AppActions.app d in
  let final :=
    AppActions.runDetails d
      (AppActions.handleGenerateDetails generateProductDetails r) in
  (truthyOpt (ClonedDesign.imageUrl (removedBgDesign r)) = false -> final = d)
  /\ (forall image,
        ClonedDesign.imageUrl (removedBgDesign r) = Some image ->
        truthy image = true ->
        AppActions.isGeneratingDetails final = false
        /\ match generateProductDetails (geminiApiKey r) image with
           | Resolved details =>
               productDetails (AppActions.app final) = Some details
               /\ error (AppActions.app final) = None
           | Rejected err =>
               productDetails (AppActions.app final) = None
               /\ error (AppActions.app final)
                  = Some (if truthyOpt (messageOf err)
                          then interpolate (messageOf err)
                          else lit "Could not generate product details. Please try again.")
           end)
  /\ clonedDesign (AppActions.app final) = clonedDesign r
  /\ removedBgDesign (AppActions.app final) = removedBgDesign r
  /\ resizedDesign (AppActions.app final) = resizedDesign r
  /\ mockups (AppActions.app final) = mockups r
  /\ isLoading (AppActions.app final) = isLoading r.
Proof.
  intros r final. subst r final. unfold AppActions.handleGenerateDetails.
  split; [|split].
  - intros ->. reflexivity.
  - intros image Hi Ht. rewrite Hi. cbn [truthyOpt interpolate].
    rewrite Ht. simpl negb. cbv iota.
    destruct (generateProductDetails _ image); repeat split.
  - destruct (negb (truthyOpt (ClonedDesign.imageUrl
                                 (removedBgDesign (AppActions.app d)))));
      [repeat split|].
    destruct (generateProductDetails _ _); repeat split.
Qed.

Lemma handleGenerateDetails_outcome_witness :
  (productDetails
     (AppActions.app
        (AppActions.runDetails
           {| AppActions.app := Samples.processed;
              AppActions.isGeneratingDetails := false |}
           (AppActions.handleGenerateDetails Samples.describing
              Samples.processed)))
   = Some Samples.details
   /\ error
        (AppActions.app
           (AppActions.runDetails
              {| AppActions.app := Samples.processed;
                 AppActions.isGeneratingDetails := false |}
              (AppActions.handleGenerateDetails Samples.describing
                 Samples.processed)))
      = None)
  /\ (productDetails
        (AppActions.app
           (AppActions.runDetails
              {| AppActions.app := Samples.processed;
                 AppActions.isGeneratingDetails := false |}
              (AppActions.handleGenerateDetails Samples.overQuota
                 Samples.processed)))
      = None
      /\ error
           (AppActions.app
              (AppActions.runDetails
                 {| AppActions.app := Samples.processed;
                    AppActions.isGeneratingDetails := false |}
                 (AppActions.handleGenerateDetails Samples.overQuota
                    Samples.processed)))
         = Some (lit "quota exceeded"))
  /\ AppActions.runDetails
       {| AppActions.app := Samples.uploaded;
          AppActions.isGeneratingDetails := false |}
       (AppActions.handleGenerateDetails Samples.overQuota Samples.uploaded)
     = {| AppActions.app := Samples.uploaded;
          AppActions.isGeneratingDetails := false |}.
Proof.
  split; [|split].
  - exact (proj2 (proj1 (proj2 (handleGenerateDetails_outcome
             Samples.describing
             {| AppActions.app := Samples.processed;
                AppActions.isGeneratingDetails := false |}))
             (lit "data:image/png;base64,CUTOUT") eq_refl eq_refl)).
  - exact (proj2 (proj1 (proj2 (handleGenerateDetails_outcome
             Samples.overQuota
             {| AppActions.app := Samples.processed;
                AppActions.isGeneratingDetails := false |}))
             (lit "data:image/png;base64,CUTOUT") eq_refl eq_refl)).
  - exact (proj1 (handleGenerateDetails_outcome Samples.overQuota
             {| AppActions.app := Samples.uploaded;
                AppActions.isGeneratingDetails := false |}) eq_refl).
Defined.

(** ** When the background removal resolves *)

(** [removeBackground] resolves only when the key is not empty, the image
    text was decoded, the one request it sent came back with a status from
    200 to 299 and a body that could be read; it then resolves with what
    the reader made of that body, and has written nothing to the console. *)
Theorem removeBackground_resolves_only_when_ok
    atob fetch readAsDataURL apiKey image result :
  let ran := GeminiService.removeBackground atob fetch readAsDataURL apiKey image in
  settled ran = Resolved result ->
  apiKey <> []
  /\ exists imageBlob response resultBlob,
       base64ToBlob atob image (lit "image/png") = Resolved imageBlob
       /\ fetch (segmentRequest apiKey imageBlob) = Resolved response
       /\ (200 <= status response <= 299)%N
       /\ responseBodyBlob response = Resolved resultBlob
       /\ readAsDataURL resultBlob = Resolved result
       /\ requests ran = [segmentRequest apiKey imageBlob]
       /\ consoleErrors ran = [].
Proof.
  intros ran. subst ran. unfold GeminiService.removeBackground.
  destruct apiKey as [|c k]; [discriminate|]. simpl negb. cbv iota.
  destruct (base64ToBlob atob image (lit "image/png")) as [imageBlob|] eqn:Hb;
    [|discriminate].
  cbv zeta.
  destruct (fetch (segmentRequest (c :: k) imageBlob)) as [response|] eqn:Hf;
    [|discriminate].
  destruct (ok response) eqn:Hok; simpl negb; cbv iota.
  2:{ destruct (responseBodyText response); discriminate. }
  destruct (responseBodyBlob response) as [resultBlob|] eqn:Hr; [|discriminate].
  cbn [settled requests consoleErrors]. intros Hres.
  split; [discriminate|].
  exists imageBlob, response, resultBlob. repeat split; auto.
  - unfold ok in Hok. apply andb_true_iff in Hok. destruct Hok as [H _].
    apply N.leb_le in H. exact H.
  - unfold ok in Hok. apply andb_true_iff in Hok. destruct Hok as [_ H].
    apply N.leb_le in H. exact H.
Qed.

Lemma removeBackground_resolves_only_when_ok_witness :
  exists imageBlob response resultBlob,
    base64ToBlob Samples.atob (lit "data:image/png;base64,AAAA") (lit "image/png")
    = Resolved imageBlob
    /\ Samples.acceptingFetch (segmentRequest (lit "key") imageBlob)
       = Resolved response
    /\ (200 <= status response <= 299)%N
    /\ responseBodyBlob response = Resolved resultBlob
    /\ Samples.reader resultBlob = Resolved (lit "data:image/png;base64,CUTOUT")
    /\ requests (GeminiService.removeBackground Samples.atob
                   Samples.acceptingFetch Samples.reader (lit "key")
                   (lit "data:image/png;base64,AAAA"))
       = [segmentRequest (lit "key") imageBlob]
    /\ consoleErrors (GeminiService.removeBackground Samples.atob
                        Samples.acceptingFetch Samples.reader (lit "key")
                        (lit "data:image/png;base64,AAAA")) = [].
Proof.
  exact (proj2 (removeBackground_resolves_only_when_ok
                  Samples.atob Samples.acceptingFetch Samples.reader
                  (lit "key") (lit "data:image/png;base64,AAAA")
                  (lit "data:image/png;base64,CUTOUT") eq_refl)).
Defined.

(** ** The instructions dialog *)

Import InstructionsModal.

Lemma steps_app (d : Dialog) (a b : list Event) :
  steps d (a ++ b) = steps (steps d a) b.
Proof. apply fold_left_app. Qed.

Lemma steps_keep_saved (d : Dialog) (events : list Event) :
  Forall notSave events -> saved (steps d events) = saved d.
Proof.
  intros H. revert d. induction H as [|e events He _ IH]; intros d;
    [reflexivity|].
  change (steps d (e :: events)) with (steps (step d e) events).
  rewrite IH. destruct e; simpl in *; try contradiction;
    destruct (isOpen d); reflexivity.
Qed.

(** Whatever the user does in the dialog short of saving, the saved
    instructions stay as they are, and the next time the dialog opens it
    shows them again; saving makes the text in the dialog the saved
    instructions and closes the dialog. *)
Theorem dialog_saves_only_on_save (d : Dialog) (events : list Event) :
  Forall notSave events ->
  saved (steps d events) = saved d
  /\ (let reopened := steps d (events ++ [Close; Open]) in
      saved reopened = saved d /\ draft reopened = saved d
      /\ isOpen reopened = true)
  /\ (isOpen (steps d events) = true ->
      let after := steps d (events ++ [Save]) in
      saved after = draft (steps d events) /\ isOpen after = false)
  /\ (forall value,
        let typed := steps d (events ++ [Close; Open; Type_ value; Save]) in
        saved typed = value).
Proof.
  intros H. pose proof (steps_keep_saved d events H) as Hs.
  split; [exact Hs|]. split; [|split].
  - rewrite steps_app. simpl. rewrite Hs. repeat split.
  - intros Ho. rewrite steps_app. simpl. rewrite Ho. split; reflexivity.
  - intros value. rewrite steps_app. reflexivity.
Qed.

Lemma dialog_saves_only_on_save_witness :
  saved (steps initial
           [Open; Type_ (lit "make it red"); Save; Open; Type_ (lit "blue");
            Close; Open])
  = lit "make it red".
Proof.
  refine (proj1 (dialog_saves_only_on_save
                   (steps initial [Open; Type_ (lit "make it red"); Save])
                   [Open; Type_ (lit "blue"); Close; Open] _)).
  repeat constructor.
Defined.

(** As long as the browser keeps what is typed within the 2000 code units
    of [maxLength], the saved instructions never exceed them. *)
Theorem instructions_stay_within_limit (events : list Event) :
  Forall typable events ->
  length (saved (steps initial events)) <= 2000
  /\ length (draft (steps initial events)) <= 2000.
Proof.
  intros H.
  assert (G : forall d,
             length (saved d) <= 2000 /\ length (draft d) <= 2000 ->
             length (saved (steps d events)) <= 2000
             /\ length (draft (steps d events)) <= 2000).
  { induction H as [|e events He _ IH]; intros d Hd; [exact Hd|].
    change (steps d (e :: events)) with (steps (step d e) events).
    apply IH. destruct Hd as [Hs Hdr].
    destruct e; simpl in *; destruct (isOpen d); simpl; auto. }
  apply G. simpl. lia.
Qed.

Lemma instructions_stay_within_limit_witness :
  length (saved (steps initial [Open; Type_ (lit "make it red"); Save])) <= 2000.
Proof.
  refine (proj1 (instructions_stay_within_limit
                   [Open; Type_ (lit "make it red"); Save] _)).
  repeat first [exact I | apply Forall_cons | apply Forall_nil].
  vm_compute. lia.
Defined.

(* ================================================================== *)
(** * The resize *)
(* ================================================================== *)






(* ================================================================== *)
(** * The handlers in the event loop *)
(* ================================================================== *)

(** ** Turns, setter calls and service calls *)

Lemma setters_app (a b : EventLoop.Turn) :
  EventLoop.setters (a ++ b) = EventLoop.setters a ++ EventLoop.setters b.
Proof. apply flat_map_app. Qed.

Lemma setters_SetState (us : list Update) :
  EventLoop.setters (List.map EventLoop.SetState us) = us.
Proof. induction us as [|u us IH]; simpl; congruence. Qed.

Lemma setters_CallService {A} (f : A -> EventLoop.ServiceCall) (l : list A) :
  EventLoop.setters (List.map (fun x => EventLoop.CallService (f x)) l) = [].
Proof. induction l as [|x l IH]; simpl; auto. Qed.




Lemma setters_continuations {A} (f : A -> Update) (l : list A) :
  flat_map EventLoop.setters
    (List.map (fun x => [EventLoop.SetState (f x)]) l)
  = List.map f l.
Proof. induction l as [|x l IH]; simpl; congruence. Qed.


(** The turns of a click issue the setter calls of the handler, in its
    order. *)
Lemma turns_flatten (PRODUCTS : jsstring -> Product) (svc : Services)
    (r : AppState) :
  flat_map EventLoop.setters (EventLoop.handleGenerateClick PRODUCTS svc r)
  = handleGenerateClick PRODUCTS svc r.
Proof.
  unfold EventLoop.handleGenerateClick, handleGenerateClick.
  destruct (negb (truthy (geminiApiKey r))); [reflexivity|].
  destruct (uploadedImage r) as [image|]; [|reflexivity].
  destruct (negb (truthy image)); [reflexivity|].
  unfold EventLoop.runTurns, EventLoop.failedTurn, tryBlock.
  cbn [flat_map]. rewrite setters_app, setters_SetState.
  destruct (analyzeImageColor svc (geminiApiKey r) image) as [color|e];
    cbn [bind call await fst snd app flat_map EventLoop.setters];
    [|rewrite setters_SetState, app_nil_r, <- !app_assoc; reflexivity].
  destruct (cloneDesign svc (geminiApiKey r) image (instructionsToPass r))
    as [cloned|e];
    cbn [bind call await fst snd app flat_map EventLoop.setters];
    [|rewrite setters_SetState, app_nil_r, <- !app_assoc; reflexivity].
  destruct (removeBackground svc (photoroomApiKey r) cloned) as [transparent|e];
    cbn [bind call await fst snd app flat_map EventLoop.setters];
    [|rewrite setters_SetState, app_nil_r, <- !app_assoc; reflexivity].
  destruct (resizeDesign svc transparent) as [resized|e];
    cbn [bind call await fst snd app flat_map EventLoop.setters];
    [|rewrite setters_SetState, app_nil_r, <- !app_assoc; reflexivity].
  unfold EventLoop.mockupTurns.
  destruct (0 <? length (selectedProducts r));
    cbn [bind call await ret fst snd app flat_map EventLoop.setters].
  - rewrite flat_map_app, setters_continuations.
    change (flat_map
      (fun a => match a with
                | EventLoop.SetState u => [u]
                | EventLoop.CallService _ => []
                end) ?t) with (EventLoop.setters t).
    rewrite setters_CallService.
    cbn [flat_map app].
    rewrite setters_SetState, app_nil_r, <- !app_assoc. reflexivity.
  - rewrite setters_SetState, app_nil_r, <- !app_assoc. reflexivity.
Qed.

(** ** The guards *)

(** Without a key the click only reports the missing key and opens the key
    panel, and, with a key but without an image, it only reports the
    missing image: it is over in the turn of the click, no service is
    called, whatever the services would answer, and the key is asked for
    first. *)
Theorem handleGenerateClick_guards PRODUCTS svc (r : AppState) :
  (geminiApiKey r = [] ->
   run r (handleGenerateClick PRODUCTS svc r)
   = setShowApiKeys true
       (setError (Some (lit "Please enter your Gemini API key to start.")) r)
   /\ flat_map EventLoop.serviceCalls
        (EventLoop.handleGenerateClick PRODUCTS svc r) = []
   /\ length (EventLoop.handleGenerateClick PRODUCTS svc r) = 1)
  /\ (geminiApiKey r <> [] ->
      truthyOpt (uploadedImage r) = false ->
      run r (handleGenerateClick PRODUCTS svc r)
      = setError (Some (lit "Please upload a design image to start!")) r
      /\ flat_map EventLoop.serviceCalls
           (EventLoop.handleGenerateClick PRODUCTS svc r) = []
      /\ length (EventLoop.handleGenerateClick PRODUCTS svc r) = 1).
Proof.
  unfold handleGenerateClick, EventLoop.handleGenerateClick. split.
  - intros ->. repeat split.
  - intros Hk Hu. destruct (geminiApiKey r); [congruence|]. simpl negb. cbv iota.
    destruct (uploadedImage r) as [[|c image]|];
      [repeat split | discriminate Hu | repeat split].
Qed.

Lemma handleGenerateClick_guards_witness :
  error (run (initialState [] None None)
           (handleGenerateClick Samples.PRODUCTS (Samples.services 0)
              (initialState [] None None)))
  = Some (lit "Please enter your Gemini API key to start.")
  /\ flat_map EventLoop.serviceCalls
       (EventLoop.handleGenerateClick Samples.PRODUCTS (Samples.services 0)
          (initialState [] None None)) = []
  /\ flat_map EventLoop.serviceCalls
       (EventLoop.handleGenerateClick Samples.PRODUCTS (Samples.services 0)
          (initialState [] (Some (lit "key")) None)) = [].
Proof.
  destruct (proj1 (handleGenerateClick_guards Samples.PRODUCTS
                     (Samples.services 0) (initialState [] None None)) eq_refl)
    as [Hrun [Hcalls _]].
  split; [rewrite Hrun; reflexivity|]. split; [exact Hcalls|].
  refine (proj1 (proj2 (proj2 (handleGenerateClick_guards Samples.PRODUCTS
                                 (Samples.services 0)
                                 (initialState [] (Some (lit "key")) None))
                          _ eq_refl))).
  discriminate.
Defined.

(** ** The service calls of a run *)



(** ** The invariant between the turns *)

Lemma NoImageAt_nil (s : AppState) : NoImageAt [] s.
Proof. unfold NoImageAt. apply Forall_forall. intros m _ []. Qed.

Lemma run_keeps_mockups (s : AppState) (us : list Update) :
  Forall (fun u => forall s, mockups (u s) = mockups s) us ->
  mockups (run s us) = mockups s.
Proof.
  intros H. revert s. induction H as [|u us Hu _ IH]; intros s; [reflexivity|].
  change (run s (u :: us)) with (run (u s) us). rewrite IH. apply Hu.
Qed.

Lemma run_keeps_loading (s : AppState) (us : list Update) :
  Forall KeepsLoading us -> isLoading (run s us) = isLoading s.
Proof.
  intros H. revert s. induction H as [|u us Hu _ IH]; intros s; [reflexivity|].
  change (run s (u :: us)) with (run (u s) us). rewrite IH. apply Hu.
Qed.

Lemma TurnSafe_plain (ids : list jsstring) (us : list Update) :
  Forall Preserves us ->
  Forall (fun u => forall s, mockups (u s) = mockups s) us ->
  TurnSafe ids ids us.
Proof.
  intros HP HM s Hs Hn. split; [apply trace_preserves; assumption|].
  unfold NoImageAt. rewrite run_keeps_mockups by exact HM. exact Hn.
Qed.

Lemma TurnSafe_last (ids : list jsstring) (us : list Update) :
  Forall Preserves us -> TurnSafe ids [] us.
Proof.
  intros HP s Hs _.
  split; [apply trace_preserves; assumption | apply NoImageAt_nil].
Qed.

(** The continuation of the call for a product keeps the invariant when the
    item of the product has no image, and touches no other item. *)
Lemma TurnSafe_settle (productId : jsstring) (ids : list jsstring)
    (outcome : Settled Thrown jsstring) :
  ~ In productId ids ->
  TurnSafe (productId :: ids) ids [mockupSettled productId outcome].
Proof.
  intros Hid s Hs Hnone. cbn [trace]. unfold run. cbn [fold_left].
  rewrite mockupSettled_settleIn.
  destruct Hs as [H1 [H2 [H3 H4]]]. unfold NoImageAt in *.
  assert (Hok : stateOk (setMockups (List.map (settleIn productId outcome)) s)).
  { refine (conj H1 (conj H2 (conj H3 _))). cbn [mockups setMockups].
    rewrite Forall_map, Forall_forall. rewrite Forall_forall in H4, Hnone.
    intros m Hm. unfold settleIn.
    destruct (eqb (Mockup.id m) productId) eqn:E; [|apply H4, Hm].
    apply eqb_eq in E.
    destruct outcome; [split; simpl; intros; congruence|].
    rewrite (Hnone m Hm) by (left; auto).
    split; simpl; intros; congruence. }
  split.
  - constructor; [exact (conj H1 (conj H2 (conj H3 H4)))|].
    constructor; [exact Hok | constructor].
  - cbn [mockups setMockups]. rewrite Forall_map, Forall_forall.
    rewrite Forall_forall in Hnone.
    intros m Hm Hin. rewrite settleIn_id in Hin.
    rewrite settleIn_other by (intros E; apply Hid; rewrite <- E; exact Hin).
    apply Hnone; [exact Hm | right; exact Hin].
Qed.

Ltac each_update :=
  repeat first
    [ apply Forall_nil
    | apply Forall_cons
    | apply Forall_app; split
    | match goal with
      | |- context [if ?b then _ else _] => destruct b
      end ].

Ltac whole :=
  each_update;
  try (intros ?; repeat split;
       first [ left; reflexivity
             | right; apply assetOk_success
             | right; apply assetOk_without_image; discriminate ]).

Ltac same := each_update; try (intros ?; reflexivity).

Ltac kept :=
  each_update;
  try first
    [ apply Preserves_setIsLoading
    | apply Preserves_setLoadingMessage
    | apply Preserves_setError
    | apply Preserves_setProductDetails
    | apply Preserves_setShowApiKeys
    | apply Preserves_setUploadedImage
    | apply Preserves_fail_pending
    | first [ apply Preserves_setClonedDesign
            | apply Preserves_setRemovedBgDesign
            | apply Preserves_setResizedDesign ];
      first [ apply assetOk_success
            | apply assetOk_without_image; discriminate ] ].

(** A turn that writes no mockup item. *)
Lemma Pending_plain (ids : list jsstring) (t : EventLoop.Turn)
    (later : list EventLoop.Turn) :
  Forall Preserves (EventLoop.setters t) ->
  Forall (fun u => forall s, mockups (u s) = mockups s) (EventLoop.setters t) ->
  Quiet (EventLoop.setters t) ->
  Forall KeepsLoading (EventLoop.setters t) ->
  Pending ids later ->
  Pending ids (t :: later).
Proof.
  intros HP HM HQ HL Hlater.
  exact (@Pending_more ids ids t later (TurnSafe_plain ids _ HP HM) HQ HL Hlater).
Qed.

Lemma finallyBlock_ends (s : AppState) (us : list Update) :
  isLoading (run s (us ++ finallyBlock)) = false.
Proof. rewrite run_app. reflexivity. Qed.

Lemma Pending_failed (ids : list jsstring) (r : AppState) (err : Thrown) :
  Pending ids [EventLoop.failedTurn r err].
Proof.
  unfold EventLoop.failedTurn. apply Pending_last; rewrite setters_SetState.
  - apply TurnSafe_last, Forall_app.
    split; [apply catchBlock_Preserves | apply finallyBlock_Preserves].
  - unfold catchBlock, finallyBlock. split; [same | whole].
  - intros s. apply finallyBlock_ends.
Qed.

Lemma Pending_finally (ids : list jsstring) :
  Pending ids [List.map EventLoop.SetState finallyBlock].
Proof.
  apply Pending_last; rewrite setters_SetState.
  - apply TurnSafe_last, finallyBlock_Preserves.
  - unfold finallyBlock. split; [same | whole].
  - intros s. apply (finallyBlock_ends s []).
Qed.

Lemma Pending_fanOut (outcome : jsstring -> Settled Thrown jsstring)
    (order : list jsstring) :
  NoDup order ->
  Pending order
    (List.map (fun productId =>
                 [EventLoop.SetState (mockupSettled productId (outcome productId))])
       order
     ++ [List.map EventLoop.SetState finallyBlock]).
Proof.
  induction 1 as [|p order Hp Hnd IH]; [apply Pending_finally|].
  cbn [List.map app].
  apply (@Pending_more (p :: order) order); [| | |exact IH];
    cbn [EventLoop.setters flat_map app].
  - apply TurnSafe_settle. exact Hp.
  - split; (apply Forall_cons; [|apply Forall_nil]).
    + intros s. destruct (outcome p); reflexivity.
    + intros s. destruct (outcome p); repeat split; left; reflexivity.
  - apply Forall_cons; [|apply Forall_nil].
    intros s. destruct (outcome p); reflexivity.
Qed.

Lemma mockupTurns_pending (PRODUCTS : jsstring -> Product) (svc : Services)
    (r : AppState) (color resized : jsstring) :
  NoDup (selectedProducts r) ->
  Pending (settleOrder (settleTime svc) (selectedProducts r))
    (EventLoop.mockupTurns PRODUCTS svc r color resized).
Proof.
  intros Hnd. unfold EventLoop.mockupTurns.
  destruct (0 <? length (selectedProducts r)).
  - apply Pending_plain;
      try (rewrite setters_app, setters_CallService, app_nil_r;
           cbn [EventLoop.setters flat_map app]).
    + kept.
    + same.
    + split; [same | whole].
    + same.
    + apply (Pending_fanOut
               (fun productId =>
                  createMockup svc productId (geminiApiKey r) resized
                    (productPrompt (PRODUCTS productId)) color
                    (instructionsToPass r))).
      apply settleOrder_NoDup. exact Hnd.
  - apply Pending_last;
      change (EventLoop.setters
                (EventLoop.SetState ?u :: List.map EventLoop.SetState ?l))
        with (u :: EventLoop.setters (List.map EventLoop.SetState l));
      rewrite setters_SetState.
    + apply TurnSafe_last. unfold finallyBlock. kept.
    + unfold finallyBlock. split; [same | whole].
    + intros s. apply (finallyBlock_ends s [_]).
Qed.

(** The turns of a run after the one of the click. *)
Lemma runTurns_pending (PRODUCTS : jsstring -> Product) (svc : Services)
    (r : AppState) (image : jsstring) :
  NoDup (selectedProducts r) ->
  exists later,
    EventLoop.runTurns PRODUCTS svc r image
    = (List.map EventLoop.SetState (startRun PRODUCTS r)
       ++ [ EventLoop.SetState (setLoadingMessage (lit "Analyzing color..."));
            EventLoop.CallService
              (EventLoop.AnalyzeImageColor (geminiApiKey r) image) ])
      :: later
    /\ Pending (settleOrder (settleTime svc) (selectedProducts r)) later.
Proof.
  intros Hnd. unfold EventLoop.runTurns. eexists. split; [reflexivity|].
  destruct (analyzeImageColor svc (geminiApiKey r) image) as [color|e];
    [|apply Pending_failed].
  apply Pending_plain; cbn [EventLoop.setters flat_map app];
    [kept | same | split; [same | whole] | same |].
  destruct (cloneDesign svc (geminiApiKey r) image (instructionsToPass r))
    as [cloned|e]; [|apply Pending_failed].
  apply Pending_plain; cbn [EventLoop.setters flat_map app];
    [kept | same | split; [same | whole] | same |].
  destruct (removeBackground svc (photoroomApiKey r) cloned) as [transparent|e];
    [|apply Pending_failed].
  apply Pending_plain; cbn [EventLoop.setters flat_map app];
    [kept | same | split; [same | whole] | same |].
  destruct (resizeDesign svc transparent) as [resized|e];
    [|apply Pending_failed].
  apply mockupTurns_pending. exact Hnd.
Qed.

Lemma trace_run (P : AppState -> Prop) (s : AppState) (us : list Update) :
  Forall P (trace s us) -> P (run s us).
Proof.
  revert s. induction us as [|u us IH]; intros s H; cbn [trace] in H.
  - inversion H. assumption.
  - inversion H. apply IH. assumption.
Qed.

Lemma Pending_cons (ids : list jsstring) (later : list EventLoop.Turn) :
  Pending ids later -> exists t rest, later = t :: rest.
Proof. intros H. destruct H; eauto. Qed.

(** An event that starts and resumes no run and leaves the loading flag
    and the images of the mockups alone keeps the invariant. *)
Lemma loopOk_quiet (l : EventLoop.Loop) (us : list Update) :
  loopOk l ->
  Forall stateOk (trace (EventLoop.current l) us) ->
  selectedProducts (run (EventLoop.current l) us)
  = selectedProducts (EventLoop.current l)
  \/ NoDup (selectedProducts (run (EventLoop.current l) us)) ->
  isLoading (run (EventLoop.current l) us) = isLoading (EventLoop.current l) ->
  (forall ids, NoImageAt ids (EventLoop.current l) ->
               NoImageAt ids (run (EventLoop.current l) us)) ->
  loopOk {| EventLoop.current := run (EventLoop.current l) us;
            EventLoop.running := EventLoop.running l |}.
Proof.
  intros [Hs [Hn Hr]] Ht Hsel Hl Hi. unfold loopOk.
  cbn [EventLoop.current EventLoop.running].
  split; [apply trace_run; exact Ht|].
  split; [destruct Hsel as [E|H]; [rewrite E; exact Hn | exact H]|].
  rewrite Hl.
  destruct (EventLoop.running l) as [|later [|]]; [exact Hr | | exact Hr].
  destruct Hr as [Hload [ids [Hp Hnone]]].
  split; [exact Hload|]. exists ids. split; [exact Hp | apply Hi, Hnone].
Qed.

Lemma processImageFile_quiet (fileType : jsstring)
    (toBase64 : Settled Thrown jsstring) :
  Forall KeepsSelection (processImageFile fileType toBase64)
  /\ Forall KeepsLoading (processImageFile fileType toBase64)
  /\ Forall writesAssetsWhole (processImageFile fileType toBase64).
Proof.
  unfold processImageFile.
  destruct (startsWith fileType (lit "image/")); [destruct toBase64|];
    (split; [same | split; [same | whole]]).
Qed.

Lemma processImageFile_NoImageAt (fileType : jsstring)
    (toBase64 : Settled Thrown jsstring) (ids : list jsstring) (s : AppState) :
  NoImageAt ids s -> NoImageAt ids (run s (processImageFile fileType toBase64)).
Proof.
  intros H. unfold processImageFile, NoImageAt.
  destruct (startsWith fileType (lit "image/")); [destruct toBase64|];
    first [exact H | constructor].
Qed.

Lemma handleProductSelect_quiet (productId : jsstring) (s : AppState) :
  (stateOk s -> Forall stateOk (trace s (handleProductSelect productId)))
  /\ isLoading (run s (handleProductSelect productId)) = isLoading s
  /\ mockups (run s (handleProductSelect productId)) = mockups s
  /\ Forall writesAssetsWhole (handleProductSelect productId).
Proof.
  unfold handleProductSelect, run. cbn [fold_left trace].
  split; [|split; [|split]].
  - intros Hs. constructor; [exact Hs|]. constructor; [|constructor].
    destruct (existsb (eqb productId) (selectedProducts s)); [exact Hs|].
    destruct (6 <=? length (selectedProducts s)); exact Hs.
  - destruct (existsb (eqb productId) (selectedProducts s)); [reflexivity|].
    destruct (6 <=? length (selectedProducts s)); reflexivity.
  - destruct (existsb (eqb productId) (selectedProducts s)); [reflexivity|].
    destruct (6 <=? length (selectedProducts s)); reflexivity.
  - constructor; [|constructor]. intros s'.
    destruct (existsb (eqb productId) (selectedProducts s'));
      [repeat split; left; reflexivity|].
    destruct (6 <=? length (selectedProducts s'));
      repeat split; left; reflexivity.
Qed.

Lemma otherSetter_quiet (o : EventLoop.OtherSetter) :
  Preserves (EventLoop.otherSetter o)
  /\ KeepsSelection (EventLoop.otherSetter o)
  /\ KeepsLoading (EventLoop.otherSetter o)
  /\ (forall s, mockups (EventLoop.otherSetter o s) = mockups s)
  /\ writesAssetsWhole (EventLoop.otherSetter o).
Proof.
  destruct o;
    (split; [intros s H; exact H|];
     split; [intros s; reflexivity|];
     split; [intros s; reflexivity|];
     split; [intros s; reflexivity|];
     intros s; repeat split; left; reflexivity).
Qed.

(** The first turn of a run: the start of the run. *)
Lemma startRun_turn (PRODUCTS : jsstring -> Product) (r : AppState)
    (u : Update) :
  Preserves u -> KeepsSelection u -> KeepsLoading u ->
  (forall s, mockups (u s) = mockups s) -> writesAssetsWhole u ->
  stateOk r ->
  Forall stateOk (trace r (startRun PRODUCTS r ++ [u]))
  /\ Forall writesAssetsWhole (startRun PRODUCTS r ++ [u])
  /\ selectedProducts (run r (startRun PRODUCTS r ++ [u])) = selectedProducts r
  /\ isLoading (run r (startRun PRODUCTS r ++ [u])) = true
  /\ (forall ids, NoImageAt ids (run r (startRun PRODUCTS r ++ [u]))).
Proof.
  intros Hp Hs Hl Hm Hw Hr. split; [|split; [|split; [|split]]].
  - apply trace_preserves; [exact Hr|]. apply Forall_app.
    split; [apply startRun_Preserves | constructor; [exact Hp | constructor]].
  - apply Forall_app. split; [unfold startRun; whole | auto].
  - apply run_keeps_selection, Forall_app.
    split; [unfold startRun; same | auto].
  - rewrite run_app. unfold run at 1. cbn [fold_left]. rewrite Hl.
    unfold startRun, run. cbn [fold_left].
    destruct (0 <? length (selectedProducts r)); reflexivity.
  - intros ids. unfold NoImageAt. rewrite run_app. unfold run at 1.
    cbn [fold_left]. rewrite Hm, startRun_mockups, Forall_map, Forall_forall.
    intros x _ _. reflexivity.
Qed.

(** Every event keeps the invariant between the turns, keeps the invariant
    of the assets at every setter call of its turn, and writes the staged
    assets whole. *)
Lemma loopOk_step (PRODUCTS : jsstring -> Product) (l : EventLoop.Loop)
    (e : EventLoop.Event) :
  loopOk l ->
  Forall stateOk (trace (EventLoop.current l) (EventLoop.issued PRODUCTS l e))
  /\ Forall writesAssetsWhole (EventLoop.issued PRODUCTS l e)
  /\ loopOk (EventLoop.step PRODUCTS l e).
Proof.
  intros Hl. pose proof Hl as [Hs [Hn Hr]].
  unfold EventLoop.step, EventLoop.issued, EventLoop.runningAfter.
  destruct e as [fileType toBase64|productId|svc|n|o].
  - (* a file has been read *)
    cbn [EventLoop.turnsOf]. rewrite setters_SetState, app_nil_r.
    destruct (processImageFile_quiet fileType toBase64) as [Hks [Hkl Hw]].
    assert (Ht := proj1 (processImageFile_trace_ok (EventLoop.current l)
                           fileType toBase64 Hs)).
    split; [exact Ht|]. split; [exact Hw|].
    apply loopOk_quiet; auto.
    + left. apply run_keeps_selection, Hks.
    + apply run_keeps_loading, Hkl.
    + intros ids. apply processImageFile_NoImageAt.
  - (* a product is clicked *)
    cbn [EventLoop.turnsOf]. rewrite setters_SetState, app_nil_r.
    destruct (handleProductSelect_quiet productId (EventLoop.current l))
      as [Ht [Hkl [Hm Hw]]].
    split; [exact (Ht Hs)|]. split; [exact Hw|].
    apply loopOk_quiet; auto.
    + right. apply handleProductSelect_NoDup, Hn.
    + intros ids. unfold NoImageAt. rewrite Hm. auto.
  - (* the generate button is clicked *)
    cbn [EventLoop.turnsOf].
    destruct (EventLoop.canClick (EventLoop.current l)) eqn:Hc.
    2:{ rewrite app_nil_r. cbn [trace].
        split; [constructor; [exact Hs | constructor]|].
        split; [constructor|]. destruct l. exact Hl. }
    unfold EventLoop.canClick in Hc. apply negb_true_iff in Hc.
    apply orb_false_iff in Hc. destruct Hc as [Hc Hkey].
    apply orb_false_iff in Hc. destruct Hc as [Himg Hload].
    apply negb_false_iff in Hkey, Himg.
    destruct (EventLoop.running l) as [|later' rest] eqn:Hrun.
    2:{ destruct rest; [|contradiction]. destruct Hr as [Hr _]. congruence. }
    unfold EventLoop.handleGenerateClick. rewrite Hkey. simpl negb. cbv iota.
    destruct (uploadedImage (EventLoop.current l)) as [image|] eqn:Hu;
      [|discriminate Himg].
    cbn [truthyOpt] in Himg. rewrite Himg. simpl negb. cbv iota.
    destruct (runTurns_pending PRODUCTS svc (EventLoop.current l) image Hn)
      as [later [-> Hp]].
    rewrite setters_app, setters_SetState.
    cbn [EventLoop.setters flat_map app].
    destruct (startRun_turn PRODUCTS (EventLoop.current l)
                (setLoadingMessage (lit "Analyzing color..."))
                (Preserves_setLoadingMessage _)
                (fun s => eq_refl) (fun s => eq_refl) (fun s => eq_refl))
      as [Ht [Hw [Hsel [Hld Hnone]]]]; [| exact Hs |].
    { intros s. repeat split; left; reflexivity. }
    split; [exact Ht|]. split; [exact Hw|].
    destruct (Pending_cons _ _ Hp) as [t [rest E]].
    unfold loopOk. cbn [EventLoop.current EventLoop.running app].
    split; [apply trace_run; exact Ht|].
    split; [rewrite Hsel; exact Hn|].
    rewrite E. rewrite <- E. split; [exact Hld|].
    eexists. split; [exact Hp | apply Hnone].
  - (* a run takes its next turn *)
    destruct (EventLoop.running l) as [|later [|]] eqn:Hrun; [| |contradiction].
    + cbn [EventLoop.turnsOf]. rewrite Hrun.
      assert (E : nth n (@nil (list EventLoop.Turn)) [] = [])
        by (destruct n; reflexivity).
      rewrite E. cbn [trace].
      split; [constructor; [exact Hs | constructor]|]. split; [constructor|].
      rewrite firstn_nil, skipn_nil. unfold loopOk.
      cbn [EventLoop.current EventLoop.running app run fold_left].
      auto.
    + destruct Hr as [Hload [ids [Hp Hnone]]].
      cbn [EventLoop.turnsOf]. rewrite Hrun.
      destruct n as [|n].
      * cbn [nth firstn skipn app].
        destruct Hp as [ids t Hsafe [Hks Hw] Hend
                       |ids ids' t rest Hsafe [Hks Hw] Hkl Hrest].
        -- destruct (Hsafe _ Hs Hnone) as [Ht _].
           split; [exact Ht|]. split; [exact Hw|].
           unfold loopOk. cbn [EventLoop.current EventLoop.running app].
           split; [apply trace_run; exact Ht|].
           split; [rewrite run_keeps_selection by exact Hks; exact Hn|].
           apply Hend.
        -- destruct (Hsafe _ Hs Hnone) as [Ht Hnone'].
           split; [exact Ht|]. split; [exact Hw|].
           destruct (Pending_cons _ _ Hrest) as [t' [rest' E]].
           unfold loopOk. cbn [EventLoop.current EventLoop.running].
           rewrite E. rewrite <- E. cbn [app].
           split; [apply trace_run; exact Ht|].
           split; [rewrite run_keeps_selection by exact Hks; exact Hn|].
           split; [rewrite run_keeps_loading by exact Hkl; exact Hload|].
           exists ids'. split; [exact Hrest | exact Hnone'].
      * assert (E : nth (S n) [later] [] = [])
          by (destruct n; reflexivity).
        rewrite E. cbn [trace].
        split; [constructor; [exact Hs | constructor]|]. split; [constructor|].
        cbn [firstn skipn]. rewrite firstn_nil.
        unfold loopOk.
        cbn [EventLoop.current EventLoop.running app run fold_left].
        split; [exact Hs|]. split; [exact Hn|]. split; [exact Hload|].
        exists ids. split; assumption.
  - (* another setter *)
    cbn [EventLoop.turnsOf EventLoop.setters flat_map app].
    rewrite app_nil_r.
    destruct (otherSetter_quiet o) as [Hp [Hks [Hkl [Hm Hw]]]].
    assert (Ht : Forall stateOk (trace (EventLoop.current l)
                                   [EventLoop.otherSetter o])).
    { cbn [trace]. constructor; [exact Hs|].
      constructor; [apply Hp, Hs | constructor]. }
    split; [exact Ht|]. split; [constructor; [exact Hw | constructor]|].
    apply loopOk_quiet; auto.
    + left. apply Hks.
    + apply Hkl.
    + intros ids. unfold NoImageAt, run. cbn [fold_left]. rewrite Hm. auto.
Qed.

Lemma initialState_loopOk (initialSelection : list jsstring)
    (storedGeminiKey storedPhotoroomKey : option jsstring) :
  NoDup initialSelection ->
  loopOk {| EventLoop.current :=
              initialState initialSelection storedGeminiKey storedPhotoroomKey;
            EventLoop.running := [] |}.
Proof.
  intros Hi. unfold loopOk. cbn [EventLoop.current EventLoop.running].
  split; [|split; [exact Hi | reflexivity]].
  repeat split; simpl; try congruence; try discriminate; constructor.
Qed.

(** The invariant holds after every sequence of events. *)
Lemma after_loopOk (PRODUCTS : jsstring -> Product)
    (initialSelection : list jsstring)
    (storedGeminiKey storedPhotoroomKey : option jsstring)
    (events : list EventLoop.Event) :
  NoDup initialSelection ->
  loopOk (EventLoop.after PRODUCTS initialSelection storedGeminiKey
            storedPhotoroomKey events).
Proof.
  intros Hi. unfold EventLoop.after.
  generalize (initialState_loopOk initialSelection storedGeminiKey
                storedPhotoroomKey Hi).
  generalize {| EventLoop.current :=
                  initialState initialSelection storedGeminiKey
                    storedPhotoroomKey;
                EventLoop.running := [] |}.
  induction events as [|e events IH]; intros l Hl; [exact Hl|].
  cbn [fold_left]. apply IH. apply loopOk_step. exact Hl.
Qed.

(** ** The invariant of the assets, at every point *)




(** ** Runs do not overlap *)

(** Between two turns, whatever has happened before: the invariant of the
    assets holds, no product is selected twice, at most one run is in
    progress, and the loading flag is set exactly while one is.  The button
    takes no click while the flag is set, and the flag is set in the turn
    of the click and cleared in the last turn of the run. *)
Theorem interleaved_states_ok (PRODUCTS : jsstring -> Product)
    (initialSelection : list jsstring)
    (storedGeminiKey storedPhotoroomKey : option jsstring)
    (events : list EventLoop.Event) :
  NoDup initialSelection ->
  let l := EventLoop.after PRODUCTS initialSelection storedGeminiKey
             storedPhotoroomKey events in
  stateOk (EventLoop.current l)
  /\ NoDup (selectedProducts (EventLoop.current l))
  /\ length (EventLoop.running l) <= 1
  /\ (isLoading (EventLoop.current l) = true <-> EventLoop.running l <> []).
Proof.
  intros Hi l.
  destruct (after_loopOk PRODUCTS initialSelection storedGeminiKey
              storedPhotoroomKey events Hi) as [Hs [Hn Hr]].
  fold l in Hs, Hn, Hr.
  split; [exact Hs|]. split; [exact Hn|].
  destruct (EventLoop.running l) as [|later [|]]; [| |contradiction].
  - split; [simpl; lia|]. rewrite Hr. split; [discriminate | congruence].
  - destruct Hr as [Hr _]. split; [simpl; lia|]. rewrite Hr.
    split; [discriminate | reflexivity].
Qed.

Lemma interleaved_states_ok_witness :
  stateOk
    (EventLoop.current
       (EventLoop.after Samples.PRODUCTS
          [lit "A"; lit "B"; lit "C"; lit "D"] (Some (lit "key")) None
          Samples.session))
  /\ length
       (EventLoop.running
          (EventLoop.after Samples.PRODUCTS
             [lit "A"; lit "B"; lit "C"; lit "D"] (Some (lit "key")) None
             Samples.session)) <= 1.
Proof.
  assert (H : NoDup [lit "A"; lit "B"; lit "C"; lit "D"])
    by (repeat constructor; simpl; intuition discriminate).
  split.
  - exact (proj1 (interleaved_states_ok Samples.PRODUCTS
                    [lit "A"; lit "B"; lit "C"; lit "D"] (Some (lit "key"))
                    None Samples.session H)).
  - exact (proj1 (proj2 (proj2 (interleaved_states_ok Samples.PRODUCTS
                    [lit "A"; lit "B"; lit "C"; lit "D"] (Some (lit "key"))
                    None Samples.session H)))).
Defined.
